(** * Skillify front end: route guard, chat reconciliation, mentoring calendar

    A shallow embedding of the client-side logic of the mentoring platform
    UI (React components written in TypeScript) and the properties its
    specification states about it.

    Conventions of the embedding.
    - A React component's state is a record; a handler is a function of the
      render it was created in (its closure, a snapshot of the state) that
      returns the state setters and side effects it issues, in order.
    - An [async] handler that awaits a backend call is split at the [await]:
      the actions before it, the call, and a continuation from the call's
      result to the actions after it (see [Async.Handler]).
    - Setters are applied to the *current* state, in order, when the
      continuation has run (React 18 batches them into one render); a
      functional setter [setX(prev => ...)] reads the current state, a plain
      read of a state variable inside a handler reads the closure. *)

From Stdlib Require Import String Ascii List ZArith Bool Arith Lia Permutation.
From Stdlib Require Import DecimalString.
Import ListNotations.
Open Scope string_scope.
Open Scope list_scope.

(* ===================================================================== *)
(** * JavaScript values used by the components *)
(* ===================================================================== *)

Module JS.

(** [!!s] for a string: the empty string is falsy. *)
Definition truthy_str (s : string) : bool := negb (s =? "").

(** [!!v] for [v : string | null | undefined]. *)
Definition truthy (v : option string) : bool :=
  match v with
  | Some s => truthy_str s
  | None => false
  end.

(** [a !== b] on [string | null | undefined] values of one kind. *)
Definition strict_neq (a b : option string) : bool :=
  match a, b with
  | Some x, Some y => negb (x =? y)
  | None, None => false
  | _, _ => true
  end.

(** Strings are UTF-8 byte sequences.  ECMAScript's [WhiteSpace] and
    [LineTerminator] code points, as [String.prototype.trim] strips them:
    U+0009..U+000D, U+0020, U+00A0, U+1680, U+2000..U+200A, U+2028,
    U+2029, U+202F, U+205F, U+3000, U+FEFF. *)
Definition b (n : nat) : ascii := ascii_of_nat n.
Definition s1 (x : nat) : string := String (b x) "".
Definition s2 (x y : nat) : string := String (b x) (String (b y) "").
Definition s3 (x y z : nat) : string :=
  String (b x) (String (b y) (String (b z) "")).

Definition whiteSpace : list string :=
  [ s1 9; s1 10; s1 11; s1 12; s1 13; s1 32;
    s2 194 160; s3 225 154 128;
    s3 226 128 128; s3 226 128 129; s3 226 128 130; s3 226 128 131;
    s3 226 128 132; s3 226 128 133; s3 226 128 134; s3 226 128 135;
    s3 226 128 136; s3 226 128 137; s3 226 128 138;
    s3 226 128 168; s3 226 128 169; s3 226 128 175;
    s3 226 129 159; s3 227 128 128; s3 239 187 191 ].

Fixpoint strip_prefix (p s : string) : option string :=
  match p, s with
  | EmptyString, _ => Some s
  | String a p', String c s' =>
      if Ascii.eqb a c then strip_prefix p' s' else None
  | String _ _, EmptyString => None
  end.

(** Drops one leading white-space character, if there is one. *)
Fixpoint strip_one (table : list string) (s : string) : option string :=
  match table with
  | [] => None
  | w :: table' =>
      match strip_prefix w s with
      | Some r => Some r
      | None => strip_one table' s
      end
  end.

(** Each round removes at least one byte, so [length s] rounds suffice. *)
Fixpoint strip_all (table : list string) (fuel : nat) (s : string) : string :=
  match fuel with
  | O => s
  | S fuel' =>
      match strip_one table s with
      | Some r => strip_all table fuel' r
      | None => s
      end
  end.

Fixpoint rev_string (s acc : string) : string :=
  match s with
  | EmptyString => acc
  | String c s' => rev_string s' (String c acc)
  end.

Definition reverse (s : string) : string := rev_string s "".

Definition trimStart (s : string) : string :=
  strip_all whiteSpace (String.length s) s.

Definition trimEnd (s : string) : string :=
  reverse (strip_all (map reverse whiteSpace) (String.length s) (reverse s)).

Definition trim (s : string) : string := trimEnd (trimStart s).

(** [n.toString()] for an integer [n]. *)
Definition toString (n : Z) : string := NilZero.string_of_int (Z.to_int n).

End JS.

(* ===================================================================== *)
(** * Asynchronous handlers *)
(* ===================================================================== *)

Module Async.

(** What an [await] yields: the resolved value, or a thrown error. *)
Inductive Result (A : Type) : Type :=
| Ok (a : A)
| Err.
Arguments Ok {A} a.
Arguments Err {A}.

(** How the promise returned by an [async] handler settles. *)
Inductive Settled : Type := Fulfilled | Rejected.

(** A handler either returns having issued [acts], or issues [pre], awaits
    [call], and resumes with [k] on the call's result. *)
Inductive Handler (Action Call Resp : Type) : Type :=
| Return (acts : list Action) (p : Settled)
| Await (pre : list Action) (call : Call) (k : Result Resp -> list Action * Settled).
Arguments Return {Action Call Resp} acts p.
Arguments Await {Action Call Resp} pre call k.

(** The backend calls a handler issues. *)
Definition calls {Action Call Resp} (h : Handler Action Call Resp) : list Call :=
  match h with
  | Return _ _ => []
  | Await _ c _ => [c]
  end.

(** Every action of a run of the handler in which the awaited call (if
    any) yields [r]. *)
Definition actions {Action Call Resp} (h : Handler Action Call Resp)
    (r : Result Resp) : list Action :=
  match h with
  | Return acts _ => acts
  | Await pre _ k => pre ++ fst (k r)
  end.

Definition settles {Action Call Resp} (h : Handler Action Call Resp)
    (r : Result Resp) : Settled :=
  match h with
  | Return _ p => p
  | Await _ _ k => snd (k r)
  end.

End Async.

(* ===================================================================== *)
(** * App.tsx: session state and route guard *)
(* ===================================================================== *)

Module App.

(** [authChecked], [isAuthenticated], [userRole] of [App]. *)
Record State : Type := mkState {
  authChecked : bool;
  isAuthenticated : bool;
  userRole : option string
}.

(** [useState] initial values. *)
Definition initial : State :=
  {| authChecked := false; isAuthenticated := false; userRole := None |}.

Definition getDashboardPath (s : State) : string :=
  match userRole s with
  | Some r =>
      if r =? "ESTUDANTE" then "/dashboard"
      else if r =? "ADMIN" then "/admin"
      else if r =? "MENTOR" then "/mentor"
      else "/login"
  | None => "/login"
  end.

(** What a guarded route renders. *)
Inductive Rendered : Type :=
| Nothing
| Navigate (to : string)
| Children.

Definition AuthWrapper (s : State) (requiredRole : option string) : Rendered :=
  if negb (authChecked s) then Nothing
  else if negb (isAuthenticated s) then Navigate "/login"
  else if JS.truthy requiredRole && JS.strict_neq (userRole s) requiredRole
       then Navigate (getDashboardPath s)
  else Children.

Section Storage.
(** [String.prototype.toUpperCase] is the runtime's. *)
Variable toUpperCase : string -> string.

(** The mount effect: reads [token] and [userRole] from local storage. *)
Definition initAuth (token role : option string) : State :=
  {| authChecked := true;
     isAuthenticated := JS.truthy token;
     userRole := option_map toUpperCase role |}.

(** [onLoginSuccess(token, role)]. *)
Definition onLoginSuccess (s : State) (role : string) : State :=
  {| authChecked := authChecked s;
     isAuthenticated := true;
     userRole := Some (toUpperCase role) |}.
End Storage.

(** The [Logout] route's effect. *)
Definition logout (s : State) : State :=
  {| authChecked := authChecked s; isAuthenticated := false; userRole := None |}.

(** The states of [App]: routes, and with them login and logout, are only
    rendered once [authChecked] is set. *)
Inductive reachable (toUpperCase : string -> string) : State -> Prop :=
| reach_initial : reachable toUpperCase initial
| reach_init token role : reachable toUpperCase (initAuth toUpperCase token role)
| reach_login s role :
    reachable toUpperCase s -> authChecked s = true ->
    reachable toUpperCase (onLoginSuccess toUpperCase s role)
| reach_logout s :
    reachable toUpperCase s -> authChecked s = true ->
    reachable toUpperCase (logout s).

End App.

(* ===================================================================== *)
(** * Data transfer objects and render models *)
(* ===================================================================== *)

(** Modelled from the spec: [UserRole] of [@/api/dtos/userDtos] is not
    among the sources; the spec names three roles, the storage key holds
    [ESTUDANTE], [ADMIN] or [MENTOR]. *)
Inductive UserRole : Type := ESTUDANTE | ADMIN | MENTOR.

Definition UserRole_eqb (a b : UserRole) : bool :=
  match a, b with
  | ESTUDANTE, ESTUDANTE | ADMIN, ADMIN | MENTOR, MENTOR => true
  | _, _ => false
  end.

(** [UserResponseDTO], the fields the components read. *)
Module User.
Record t : Type := mk { id : string; name : string; role : UserRole }.
End User.

(** [MessageResponseDTO]. *)
Module Message.
Record t : Type := mk {
  remetente : User.t;
  destinatario : User.t;
  content : string
}.
End Message.

(** The payload of [sendMessage]. *)
Module MessageData.
Record t : Type := mk {
  remetenteId : string;
  destinatarioId : string;
  content : string
}.
End MessageData.

(** [StudentChat] (mentor side) and [MentorChat] (student side): the two
    interfaces are the same.  [lastMessageTime] is a [Date], kept as its
    [getTime()]. *)
Module Chat.
Record t : Type := mk {
  id : string;
  name : string;
  avatar : option string;
  lastMessage : option string;
  lastMessageTime : option Z;
  unread : bool
}.

(** A [Map<string, t>]: iteration follows insertion order. *)
Definition Map : Type := list (string * t).

Definition has (k : string) (m : Map) : bool :=
  existsb (fun e => fst e =? k) m.

(** [m.set(k, v)]: a key already present keeps its position. *)
Fixpoint set (k : string) (v : t) (m : Map) : Map :=
  match m with
  | [] => [(k, v)]
  | (k', v') :: m' =>
      if k' =? k then (k, v) :: m' else (k', v') :: set k v m'
  end.

Definition values (m : Map) : list t := List.map snd m.

(** The comparator both pages pass to [sort]. *)
Definition compare (a c : t) : Z :=
  match lastMessageTime a, lastMessageTime c with
  | None, None => 0
  | None, Some _ => 1
  | Some _, None => -1
  | Some ta, Some tc => tc - ta
  end%Z.

(** [Array.prototype.sort] is stable: [x], which precedes the elements of
    [l] in the array, goes before the first one it does not follow. *)
Fixpoint insert (x : t) (l : list t) : list t :=
  match l with
  | [] => [x]
  | y :: l' => if (compare x y <=? 0)%Z then x :: l else y :: insert x l'
  end.

Definition sort (l : list t) : list t := fold_right insert [] l.

(** [new Set(l.map(c => c.id)).has(k)]. *)
Definition ids_has (l : list t) (k : string) : bool :=
  existsb (fun c => id c =? k) l.

Definition ids (l : list t) : list string := List.map id l.

(** [prev.filter(c => c.id !== k)]. *)
Definition without (k : string) (l : list t) : list t :=
  filter (fun c => negb (id c =? k)) l.

(** The roster entries both pages build. *)
Definition of_user (u : User.t) : t :=
  {| id := User.id u; name := User.name u; avatar := None;
     lastMessage := None; lastMessageTime := None; unread := false |}.
End Chat.

(* ===================================================================== *)
(** * components/CourseChat.tsx: the chat panel *)
(* ===================================================================== *)

Module CourseChat.
Import Async.

Module ChatMessage.
Record t : Type := mk {
  id : string;
  user_name : string;
  user_avatar : option string;
  content : string
}.
End ChatMessage.

Record State : Type := mkState {
  messages : list ChatMessage.t;
  newMessage : string;
  loading : bool
}.

Inductive Action : Type :=
| preventDefault
| setMessages (f : list ChatMessage.t -> list ChatMessage.t)
| setNewMessage (v : string)
| setLoading (v : bool)
| console_error (msg : string).

(** The only thing the panel awaits in its send handler is the callback
    its parent passed as [onSendMessage]. *)
Inductive Call : Type := onSendMessage (content : string).

Definition apply (a : Action) (s : State) : State :=
  match a with
  | setMessages f =>
      {| messages := f (messages s); newMessage := newMessage s; loading := loading s |}
  | setNewMessage v =>
      {| messages := messages s; newMessage := v; loading := loading s |}
  | setLoading v =>
      {| messages := messages s; newMessage := newMessage s; loading := v |}
  | preventDefault | console_error _ => s
  end.

Definition run (acts : list Action) (s : State) : State :=
  fold_left (fun s a => apply a s) acts s.

(** The message [handleSendMessage] shows before the send is confirmed;
    [now] is [Date.now()]. *)
Definition optimisticMessage (cl : State) (now : Z) : ChatMessage.t :=
  {| ChatMessage.id := JS.toString now;
     ChatMessage.user_name := "Você";
     ChatMessage.user_avatar := None;
     ChatMessage.content := newMessage cl |}.

(** [handleSendMessage], in the render [cl]; [mentorId] is the stored
    [userId]. *)
Definition handleSendMessage (cl : State) (mentorId : option string) (now : Z)
  : Handler Action Call unit :=
  if negb (JS.truthy_str (JS.trim (newMessage cl))) || negb (JS.truthy mentorId)
  then Return [preventDefault] Fulfilled
  else
    Await
      [ preventDefault;
        setMessages (fun prev => prev ++ [optimisticMessage cl now]);
        setNewMessage "" ]
      (onSendMessage (newMessage cl))
      (fun r =>
         match r with
         | Ok _ => ([], Fulfilled)
         | Err =>
             ([ setMessages (fun prev =>
                   filter (fun msg =>
                     negb (ChatMessage.id msg
                           =? ChatMessage.id (optimisticMessage cl now))) prev);
                console_error "Failed to send message:" ], Fulfilled)
         end).

(** The submit button's [disabled] attribute. *)
Definition send_disabled (s : State) : bool :=
  negb (JS.truthy_str (JS.trim (newMessage s))).

(** What [await p] yields for a promise that settled as [p]. *)
Definition awaited (p : Settled) : Result unit :=
  match p with
  | Fulfilled => Ok tt
  | Rejected => Err
  end.

End CourseChat.

(* ===================================================================== *)
(** * MentorMessages: the mentor's message page *)
(* ===================================================================== *)

Module MentorMessages.
Import Async.

Record State : Type := mkState {
  selectedStudent : option Chat.t;
  searchQuery : string;
  studentsWithChats : list Chat.t;
  studentsWithoutChats : list Chat.t;
  loading : bool;
  error : option string;
  showChatOnMobile : bool
}.

Definition initial : State :=
  {| selectedStudent := None; searchQuery := "";
     studentsWithChats := []; studentsWithoutChats := [];
     loading := true; error := None; showChatOnMobile := false |}.

(** A list setter takes the updater; [setX(v)] is [setX(_ => v)]. *)
Inductive Action : Type :=
| setSelectedStudent (v : option Chat.t)
| setSearchQuery (v : string)
| setStudentsWithChats (f : list Chat.t -> list Chat.t)
| setStudentsWithoutChats (f : list Chat.t -> list Chat.t)
| setLoading (v : bool)
| setError (v : option string)
| setShowChatOnMobile (v : bool)
| console_error (msg : string).

Inductive Call : Type := sendMessage (messageData : MessageData.t).

Definition apply (a : Action) (s : State) : State :=
  match a with
  | setSelectedStudent v =>
      mkState v (searchQuery s) (studentsWithChats s) (studentsWithoutChats s)
              (loading s) (error s) (showChatOnMobile s)
  | setSearchQuery v =>
      mkState (selectedStudent s) v (studentsWithChats s) (studentsWithoutChats s)
              (loading s) (error s) (showChatOnMobile s)
  | setStudentsWithChats f =>
      mkState (selectedStudent s) (searchQuery s) (f (studentsWithChats s))
              (studentsWithoutChats s) (loading s) (error s) (showChatOnMobile s)
  | setStudentsWithoutChats f =>
      mkState (selectedStudent s) (searchQuery s) (studentsWithChats s)
              (f (studentsWithoutChats s)) (loading s) (error s) (showChatOnMobile s)
  | setLoading v =>
      mkState (selectedStudent s) (searchQuery s) (studentsWithChats s)
              (studentsWithoutChats s) v (error s) (showChatOnMobile s)
  | setError v =>
      mkState (selectedStudent s) (searchQuery s) (studentsWithChats s)
              (studentsWithoutChats s) (loading s) v (showChatOnMobile s)
  | setShowChatOnMobile v =>
      mkState (selectedStudent s) (searchQuery s) (studentsWithChats s)
              (studentsWithoutChats s) (loading s) (error s) v
  | console_error _ => s
  end.

Definition run (acts : list Action) (s : State) : State :=
  fold_left (fun s a => apply a s) acts s.

(** The other party of [message], as [fetchData] picks it. *)
Definition student_of (message : Message.t) : option User.t :=
  if UserRole_eqb (User.role (Message.remetente message)) ESTUDANTE
  then Some (Message.remetente message)
  else if UserRole_eqb (User.role (Message.destinatario message)) ESTUDANTE
  then Some (Message.destinatario message)
  else None.

(** [[...receivedMessages, ...sentMessages].reverse()]. *)
Definition allMessages (receivedMessages sentMessages : list Message.t)
  : list Message.t :=
  rev (receivedMessages ++ sentMessages).

(** One round of the [forEach] over [allMessages]. *)
Definition add_message (studentMap : Chat.Map) (message : Message.t) : Chat.Map :=
  match student_of message with
  | Some student =>
      if UserRole_eqb (User.role student) ESTUDANTE then
        let studentId := User.id student in
        if negb (Chat.has studentId studentMap) then
          Chat.set studentId
            {| Chat.id := studentId;
               Chat.name := User.name student;
               Chat.avatar := None;
               Chat.lastMessage := Some (Message.content message);
               Chat.lastMessageTime := None;
               Chat.unread := false |}
            studentMap
        else studentMap
      else studentMap
  | None => studentMap
  end.

Definition studentMap (receivedMessages sentMessages : list Message.t) : Chat.Map :=
  fold_left add_message (allMessages receivedMessages sentMessages) [].

Definition studentsWithChatsList (receivedMessages sentMessages : list Message.t)
  : list Chat.t :=
  Chat.sort (Chat.values (studentMap receivedMessages sentMessages)).

Definition studentsWithoutChatsList (withChats : list Chat.t)
    (allStudents : list User.t) : list Chat.t :=
  map Chat.of_user
    (filter (fun student =>
               UserRole_eqb (User.role student) ESTUDANTE
               && negb (Chat.ids_has withChats (User.id student)))
            allStudents).

(** [fetchData]: its three awaits come before any setter, so one result
    stands for them: the three responses, or an error if one call threw. *)
Definition fetchData
    (r : Result (list Message.t * list Message.t * list User.t)) : list Action :=
  [setLoading true; setError None]
  ++ match r with
     | Ok (receivedMessages, sentMessages, allStudents) =>
         let withChats := studentsWithChatsList receivedMessages sentMessages in
         let withoutChats := studentsWithoutChatsList withChats allStudents in
         [ setStudentsWithChats (fun _ => withChats);
           setStudentsWithoutChats (fun _ => withoutChats) ]
         ++ (if (length withChats =? 0)%nat && (length withoutChats =? 0)%nat
             then [setError (Some "Nenhum aluno encontrado")] else [])
     | Err =>
         [ console_error "Failed to fetch data:";
           setError (Some "Erro ao carregar dados. Tente novamente.") ]
     end
  ++ [setLoading false].

(** The mount effect. *)
Definition mount (mentorId : option string)
    (r : Result (list Message.t * list Message.t * list User.t)) : list Action :=
  if JS.truthy mentorId then fetchData r
  else [ setError (Some "ID do mentor não encontrado no localStorage");
         setLoading false ].

(** [handleSendMessage(content)] in the render [cl]; [now] is the
    [new Date()] of the continuation. *)
Definition handleSendMessage (cl : State) (mentorId : option string)
    (content : string) (now : Z) : Handler Action Call unit :=
  match selectedStudent cl, mentorId with
  | Some selected, Some mentor =>
      if negb (JS.truthy_str mentor) then Return [] Fulfilled
      else
        Await []
          (sendMessage
             {| MessageData.remetenteId := mentor;
                MessageData.destinatarioId := Chat.id selected;
                MessageData.content := content |})
          (fun r =>
             match r with
             | Ok _ =>
                 let newStudentChat :=
                   {| Chat.id := Chat.id selected;
                      Chat.name := Chat.name selected;
                      Chat.avatar := Chat.avatar selected;
                      Chat.lastMessage := Some content;
                      Chat.lastMessageTime := Some now;
                      Chat.unread := false |} in
                 ([ setStudentsWithoutChats (fun prev => Chat.without (Chat.id selected) prev);
                    setStudentsWithChats (fun prev =>
                      let updated := Chat.without (Chat.id selected) prev in
                      newStudentChat :: updated);
                    setSelectedStudent (Some newStudentChat) ], Fulfilled)
             | Err => ([console_error "Failed to send message:"], Fulfilled)
             end)
  | _, _ => Return [] Fulfilled
  end.

Definition handleStudentSelect (student : Chat.t) : list Action :=
  [setSelectedStudent (Some student); setShowChatOnMobile true].

Definition handleBackToList : list Action := [setShowChatOnMobile false].

(** ** The page as a transition system

    The mount effect fetches once, while the page is [loading]; a send in
    flight keeps the render it was issued from. *)
Record InFlight : Type := mkInFlight {
  closure : State;
  content : string;
  now : Z
}.

Definition World : Type := (State * list InFlight)%type.

(** The actions of the continuation of a send in flight. *)
Definition resume (mentorId : option string) (f : InFlight) (r : Result unit)
  : list Action :=
  match handleSendMessage (closure f) mentorId (content f) (now f) with
  | Return _ _ => []
  | Await _ _ k => fst (k r)
  end.

Inductive step (mentorId : option string) : World -> World -> Prop :=
| step_mount s fl r :
    loading s = true ->
    step mentorId (s, fl) (run (mount mentorId r) s, fl)
| step_select s fl student :
    In student (studentsWithChats s ++ studentsWithoutChats s) ->
    step mentorId (s, fl) (run (handleStudentSelect student) s, fl)
| step_select_desktop s fl student :
    In student (studentsWithoutChats s) ->
    step mentorId (s, fl) (run [setSelectedStudent (Some student)] s, fl)
| step_back s fl :
    step mentorId (s, fl) (run handleBackToList s, fl)
| step_search s fl q :
    step mentorId (s, fl) (run [setSearchQuery q] s, fl)
| step_send s fl content now :
    step mentorId (s, fl)
         (run (match handleSendMessage s mentorId content now with
               | Return acts _ => acts
               | Await pre _ _ => pre
               end) s,
          match handleSendMessage s mentorId content now with
          | Return _ _ => fl
          | Await _ _ _ => fl ++ [mkInFlight s content now]
          end)
| step_settle s fl1 f fl2 r :
    step mentorId (s, fl1 ++ f :: fl2) (run (resume mentorId f r) s, fl1 ++ fl2).

Inductive reachable (mentorId : option string) : World -> Prop :=
| reach_initial : reachable mentorId (initial, [])
| reach_step w w' :
    reachable mentorId w -> step mentorId w w' -> reachable mentorId w'.

End MentorMessages.

(* ===================================================================== *)
(** * pages/student/Messages.tsx: the student's message page *)
(* ===================================================================== *)

Module StudentMessages.
Import Async.

Record State : Type := mkState {
  selectedMentor : option Chat.t;
  searchQuery : string;
  mentorsWithChats : list Chat.t;
  availableMentors : list Chat.t;
  loading : bool;
  error : option string;
  showChatOnMobile : bool
}.

Definition initial : State :=
  {| selectedMentor := None; searchQuery := "";
     mentorsWithChats := []; availableMentors := [];
     loading := true; error := None; showChatOnMobile := false |}.

Inductive Action : Type :=
| setSelectedMentor (v : option Chat.t)
| setSearchQuery (v : string)
| setMentorsWithChats (f : list Chat.t -> list Chat.t)
| setAvailableMentors (f : list Chat.t -> list Chat.t)
| setLoading (v : bool)
| setError (v : option string)
| setShowChatOnMobile (v : bool)
| console_error (msg : string).

Inductive Call : Type := sendMessage (messageData : MessageData.t).

Definition apply (a : Action) (s : State) : State :=
  match a with
  | setSelectedMentor v =>
      mkState v (searchQuery s) (mentorsWithChats s) (availableMentors s)
              (loading s) (error s) (showChatOnMobile s)
  | setSearchQuery v =>
      mkState (selectedMentor s) v (mentorsWithChats s) (availableMentors s)
              (loading s) (error s) (showChatOnMobile s)
  | setMentorsWithChats f =>
      mkState (selectedMentor s) (searchQuery s) (f (mentorsWithChats s))
              (availableMentors s) (loading s) (error s) (showChatOnMobile s)
  | setAvailableMentors f =>
      mkState (selectedMentor s) (searchQuery s) (mentorsWithChats s)
              (f (availableMentors s)) (loading s) (error s) (showChatOnMobile s)
  | setLoading v =>
      mkState (selectedMentor s) (searchQuery s) (mentorsWithChats s)
              (availableMentors s) v (error s) (showChatOnMobile s)
  | setError v =>
      mkState (selectedMentor s) (searchQuery s) (mentorsWithChats s)
              (availableMentors s) (loading s) v (showChatOnMobile s)
  | setShowChatOnMobile v =>
      mkState (selectedMentor s) (searchQuery s) (mentorsWithChats s)
              (availableMentors s) (loading s) (error s) v
  | console_error _ => s
  end.

Definition run (acts : list Action) (s : State) : State :=
  fold_left (fun s a => apply a s) acts s.

(** The other party of [message], as [fetchData] picks it. *)
Definition mentor_of (message : Message.t) : option User.t :=
  if UserRole_eqb (User.role (Message.remetente message)) MENTOR
  then Some (Message.remetente message)
  else if UserRole_eqb (User.role (Message.destinatario message)) MENTOR
  then Some (Message.destinatario message)
  else None.

(** [[...receivedMessages, ...sentMessages]]. *)
Definition allMessages (receivedMessages sentMessages : list Message.t)
  : list Message.t :=
  receivedMessages ++ sentMessages.

(** One round of the [forEach]; [clock k] is what the [k]-th [new Date()]
    of the run reads, [tick] counts the calls made so far. *)
Definition add_message (clock : nat -> Z) (acc : Chat.Map * nat)
    (message : Message.t) : Chat.Map * nat :=
  let (mentorMap, tick) := acc in
  match mentor_of message with
  | Some mentor =>
      if UserRole_eqb (User.role mentor) MENTOR then
        let mentorId := User.id mentor in
        if negb (Chat.has mentorId mentorMap) then
          (Chat.set mentorId
             {| Chat.id := mentorId;
                Chat.name := User.name mentor;
                Chat.avatar := None;
                Chat.lastMessage := Some (Message.content message);
                Chat.lastMessageTime := Some (clock tick);
                Chat.unread := false |}
             mentorMap, S tick)
        else acc
      else acc
  | None => acc
  end.

Definition mentorMap (clock : nat -> Z)
    (receivedMessages sentMessages : list Message.t) : Chat.Map :=
  fst (fold_left (add_message clock)
                 (allMessages receivedMessages sentMessages) ([], O)).

Definition mentorsWithChatsList (clock : nat -> Z)
    (receivedMessages sentMessages : list Message.t) : list Chat.t :=
  Chat.sort (Chat.values (mentorMap clock receivedMessages sentMessages)).

Definition availableMentorsList (withChats : list Chat.t)
    (availableMentorsResponse : list User.t) : list Chat.t :=
  map Chat.of_user
    (filter (fun mentor => negb (Chat.ids_has withChats (User.id mentor)))
       (filter (fun mentor => UserRole_eqb (User.role mentor) MENTOR)
          availableMentorsResponse)).

(** [fetchData]: the three awaits come before any setter. *)
Definition fetchData (clock : nat -> Z)
    (r : Result (list Message.t * list Message.t * list User.t)) : list Action :=
  [setLoading true; setError None]
  ++ match r with
     | Ok (receivedMessages, sentMessages, availableMentorsResponse) =>
         let withChats := mentorsWithChatsList clock receivedMessages sentMessages in
         let available := availableMentorsList withChats availableMentorsResponse in
         [ setMentorsWithChats (fun _ => withChats);
           setAvailableMentors (fun _ => available) ]
         ++ (if (length withChats =? 0)%nat && (length available =? 0)%nat
             then [setError (Some "Nenhum mentor disponível encontrado")] else [])
     | Err =>
         [ console_error "Failed to fetch data:";
           setError (Some "Erro ao carregar mensagens. Tente novamente.") ]
     end
  ++ [setLoading false].

Definition mount (studentId : option string) (clock : nat -> Z)
    (r : Result (list Message.t * list Message.t * list User.t)) : list Action :=
  if JS.truthy studentId then fetchData clock r
  else [ setError (Some "ID do estudante não encontrado no localStorage");
         setLoading false ].

(** [handleSendMessage(content)] in the render [cl].  The test
    [mentorsWithChats.some(...)] reads the closure; the setters read the
    current lists.  [newMentorChat] and [updatedMentor] are built with the
    same fields; [clock 0] and [clock 1] are the [new Date()] readings of
    the moved record and of the new selection. *)
Definition handleSendMessage (cl : State) (studentId : option string)
    (content : string) (clock : nat -> Z) : Handler Action Call Message.t :=
  match selectedMentor cl, studentId with
  | Some selected, Some student =>
      if negb (JS.truthy_str student) then Return [] Fulfilled
      else
        Await []
          (sendMessage
             {| MessageData.remetenteId := student;
                MessageData.destinatarioId := Chat.id selected;
                MessageData.content := content |})
          (fun r =>
             match r with
             | Ok sentMessage =>
                 let newMentorChat :=
                   {| Chat.id := Chat.id selected;
                      Chat.name := Chat.name selected;
                      Chat.avatar := Chat.avatar selected;
                      Chat.lastMessage := Some (Message.content sentMessage);
                      Chat.lastMessageTime := Some (clock 0%nat);
                      Chat.unread := false |} in
                 ((if negb (existsb (fun m => Chat.id m =? Chat.id selected)
                                    (mentorsWithChats cl))
                   then
                     [ setAvailableMentors (fun prev => Chat.without (Chat.id selected) prev);
                       setMentorsWithChats (fun prev => newMentorChat :: prev) ]
                   else
                     let updatedMentor := newMentorChat in
                     [ setMentorsWithChats (fun prev =>
                         let updated := Chat.without (Chat.id selected) prev in
                         updatedMentor :: updated) ])
                  ++ [ setSelectedMentor
                         (Some {| Chat.id := Chat.id selected;
                                  Chat.name := Chat.name selected;
                                  Chat.avatar := Chat.avatar selected;
                                  Chat.lastMessage := Some content;
                                  Chat.lastMessageTime := Some (clock 1%nat);
                                  Chat.unread := Chat.unread selected |}) ],
                  Fulfilled)
             | Err => ([console_error "Failed to send message:"], Fulfilled)
             end)
  | _, _ => Return [] Fulfilled
  end.

Definition handleMentorSelect (mentor : Chat.t) : list Action :=
  [setSelectedMentor (Some mentor); setShowChatOnMobile true].

Definition handleBackToList : list Action := [setShowChatOnMobile false].

(** ** The page as a transition system *)
Record InFlight : Type := mkInFlight {
  closure : State;
  content : string;
  clock : nat -> Z
}.

Definition World : Type := (State * list InFlight)%type.

Definition resume (studentId : option string) (f : InFlight)
    (r : Result Message.t) : list Action :=
  match handleSendMessage (closure f) studentId (content f) (clock f) with
  | Return _ _ => []
  | Await _ _ k => fst (k r)
  end.

Inductive step (studentId : option string) : World -> World -> Prop :=
| step_mount s fl clk r :
    loading s = true ->
    step studentId (s, fl) (run (mount studentId clk r) s, fl)
| step_select s fl mentor :
    In mentor (mentorsWithChats s ++ availableMentors s) ->
    step studentId (s, fl) (run (handleMentorSelect mentor) s, fl)
| step_back s fl :
    step studentId (s, fl) (run handleBackToList s, fl)
| step_search s fl q :
    step studentId (s, fl) (run [setSearchQuery q] s, fl)
| step_send s fl content clk :
    step studentId (s, fl)
         (run (match handleSendMessage s studentId content clk with
               | Return acts _ => acts
               | Await pre _ _ => pre
               end) s,
          match handleSendMessage s studentId content clk with
          | Return _ _ => fl
          | Await _ _ _ => fl ++ [mkInFlight s content clk]
          end)
| step_settle s fl1 f fl2 r :
    step studentId (s, fl1 ++ f :: fl2) (run (resume studentId f r) s, fl1 ++ fl2).

Inductive reachable (studentId : option string) : World -> Prop :=
| reach_initial : reachable studentId (initial, [])
| reach_step w w' :
    reachable studentId w -> step studentId w w' -> reachable studentId w'.

End StudentMessages.

(* ===================================================================== *)
(** * Dates *)
(* ===================================================================== *)

(** A [Date] as the components observe it: its local calendar fields and
    the time within the day, or an invalid date.  [toDateString] renders
    the local calendar day and [new Date(dateStr)] reads it back as that
    day's local midnight; the day string is kept as the day it denotes. *)
Module JSDate.

Inductive t : Type :=
| Valid (fullYear month date : Z) (timeOfDay : Z)
| Invalid.

(** Number-valued getters: [None] is [NaN]. *)
Definition getFullYear (d : t) : option Z :=
  match d with Valid y _ _ _ => Some y | Invalid => None end.
Definition getMonth (d : t) : option Z :=
  match d with Valid _ m _ _ => Some m | Invalid => None end.
Definition getDate (d : t) : option Z :=
  match d with Valid _ _ n _ => Some n | Invalid => None end.

(** [a === b] on numbers: [NaN] equals nothing. *)
Definition num_eq (a c : option Z) : bool :=
  match a, c with
  | Some x, Some y => (x =? y)%Z
  | _, _ => false
  end.

(** date-fns [isValid]. *)
Definition isValid (d : t) : bool :=
  match d with Valid _ _ _ _ => true | Invalid => false end.

(** The result of [toDateString()]. *)
Inductive DateString : Type :=
| Day (fullYear month date : Z)
| InvalidDate.

Definition DateString_eqb (a c : DateString) : bool :=
  match a, c with
  | Day y1 m1 d1, Day y2 m2 d2 => ((y1 =? y2) && (m1 =? m2) && (d1 =? d2))%Z
  | InvalidDate, InvalidDate => true
  | _, _ => false
  end.

Definition toDateString (d : t) : DateString :=
  match d with
  | Valid y m n _ => Day y m n
  | Invalid => InvalidDate
  end.

(** [new Date(dateStr)]. *)
Definition ofDateString (s : DateString) : t :=
  match s with
  | Day y m n => Valid y m n 0
  | InvalidDate => Invalid
  end.

(** date-fns [isSameDay]: the two dates start their day at the same time. *)
Definition isSameDay (a c : t) : bool :=
  num_eq (getFullYear a) (getFullYear c)
  && num_eq (getMonth a) (getMonth c)
  && num_eq (getDate a) (getDate c).

(** What a call of date-fns [parseISO] does. *)
Inductive Parsed : Type :=
| Returns (d : t)
| Throws.

End JSDate.

(* ===================================================================== *)
(** * MentorMentoria: the mentor's session list and calendar *)
(* ===================================================================== *)

(** Modelled from the spec: [SessionType] of [@/api/dtos/tutorSessionDtos]
    is not among the sources; the spec gives it two values, video call and
    chat. *)
Inductive SessionType : Type := CHAMADA_DE_VIDEO | CHAT.

Definition SessionType_eqb (a c : SessionType) : bool :=
  match a, c with
  | CHAMADA_DE_VIDEO, CHAMADA_DE_VIDEO | CHAT, CHAT => true
  | _, _ => false
  end.

(** [TutorSessionResponseDTO]; [date] and [link] may be missing. *)
Module TutorSession.
Record t : Type := mk {
  id : string;
  mentor : User.t;
  student : User.t;
  title : string;
  date : option string;
  dateHour : string;
  type : SessionType;
  link : option string
}.
End TutorSession.

(** [TutorSessionCreateDTO]. *)
Module TutorSessionCreate.
Record t : Type := mk {
  mentorId : string;
  studentId : string;
  title : string;
  date : option string;
  dateHour : string;
  type : SessionType;
  link : string
}.
End TutorSessionCreate.

Module CalendarEvent.
Record t : Type := mk { date : JSDate.t; sessions : nat }.
End CalendarEvent.

Module MentorMentoria.
Import Async.

Record State : Type := mkState {
  date : option JSDate.t;
  mentoringSessions : list TutorSession.t;
  filteredSessions : list TutorSession.t;
  activeSession : option string;
  calendarEvents : list CalendarEvent.t;
  loading : bool;
  showDeleteDialog : bool;
  sessionToDelete : option string;
  isDeleting : bool;
  showEditLinkDialog : bool;
  sessionToEdit : option TutorSession.t;
  newLink : string;
  isUpdatingLink : bool
}.

(** [useState] initial values; [today] is the [new Date()] of the mount. *)
Definition initial (today : JSDate.t) : State :=
  {| date := Some today; mentoringSessions := []; filteredSessions := [];
     activeSession := None; calendarEvents := []; loading := true;
     showDeleteDialog := false; sessionToDelete := None; isDeleting := false;
     showEditLinkDialog := false; sessionToEdit := None; newLink := "";
     isUpdatingLink := false |}.

(** The [onClick] of the toast's action: [() => handleEndSession(sessionId)]
    of the render [cl]. *)
Inductive ToastOnClick : Type :=
| EndSession (cl : State) (sessionId : string).

Inductive Action : Type :=
| setDate (v : option JSDate.t)
| setMentoringSessions (f : list TutorSession.t -> list TutorSession.t)
| setFilteredSessions (v : list TutorSession.t)
| setActiveSession (v : option string)
| setCalendarEvents (v : list CalendarEvent.t)
| setLoading (v : bool)
| setShowDeleteDialog (v : bool)
| setSessionToDelete (v : option string)
| setIsDeleting (v : bool)
| setShowEditLinkDialog (v : bool)
| setSessionToEdit (v : option TutorSession.t)
| setNewLink (v : string)
| setIsUpdatingLink (v : bool)
| toast_error (msg : string)
| toast_success (msg : string) (action : option ToastOnClick)
| window_open (url : string)
| console_error (msg : string).

Inductive Call : Type :=
| deleteSession (sessionId : string)
| updateSession (sessionId : string) (updateData : TutorSessionCreate.t).

Definition apply (a : Action) (s : State) : State :=
  match a with
  | setDate v =>
      mkState v (mentoringSessions s) (filteredSessions s) (activeSession s)
        (calendarEvents s) (loading s) (showDeleteDialog s) (sessionToDelete s)
        (isDeleting s) (showEditLinkDialog s) (sessionToEdit s) (newLink s)
        (isUpdatingLink s)
  | setMentoringSessions f =>
      mkState (date s) (f (mentoringSessions s)) (filteredSessions s) (activeSession s)
        (calendarEvents s) (loading s) (showDeleteDialog s) (sessionToDelete s)
        (isDeleting s) (showEditLinkDialog s) (sessionToEdit s) (newLink s)
        (isUpdatingLink s)
  | setFilteredSessions v =>
      mkState (date s) (mentoringSessions s) v (activeSession s)
        (calendarEvents s) (loading s) (showDeleteDialog s) (sessionToDelete s)
        (isDeleting s) (showEditLinkDialog s) (sessionToEdit s) (newLink s)
        (isUpdatingLink s)
  | setActiveSession v =>
      mkState (date s) (mentoringSessions s) (filteredSessions s) v
        (calendarEvents s) (loading s) (showDeleteDialog s) (sessionToDelete s)
        (isDeleting s) (showEditLinkDialog s) (sessionToEdit s) (newLink s)
        (isUpdatingLink s)
  | setCalendarEvents v =>
      mkState (date s) (mentoringSessions s) (filteredSessions s) (activeSession s)
        v (loading s) (showDeleteDialog s) (sessionToDelete s)
        (isDeleting s) (showEditLinkDialog s) (sessionToEdit s) (newLink s)
        (isUpdatingLink s)
  | setLoading v =>
      mkState (date s) (mentoringSessions s) (filteredSessions s) (activeSession s)
        (calendarEvents s) v (showDeleteDialog s) (sessionToDelete s)
        (isDeleting s) (showEditLinkDialog s) (sessionToEdit s) (newLink s)
        (isUpdatingLink s)
  | setShowDeleteDialog v =>
      mkState (date s) (mentoringSessions s) (filteredSessions s) (activeSession s)
        (calendarEvents s) (loading s) v (sessionToDelete s)
        (isDeleting s) (showEditLinkDialog s) (sessionToEdit s) (newLink s)
        (isUpdatingLink s)
  | setSessionToDelete v =>
      mkState (date s) (mentoringSessions s) (filteredSessions s) (activeSession s)
        (calendarEvents s) (loading s) (showDeleteDialog s) v
        (isDeleting s) (showEditLinkDialog s) (sessionToEdit s) (newLink s)
        (isUpdatingLink s)
  | setIsDeleting v =>
      mkState (date s) (mentoringSessions s) (filteredSessions s) (activeSession s)
        (calendarEvents s) (loading s) (showDeleteDialog s) (sessionToDelete s)
        v (showEditLinkDialog s) (sessionToEdit s) (newLink s)
        (isUpdatingLink s)
  | setShowEditLinkDialog v =>
      mkState (date s) (mentoringSessions s) (filteredSessions s) (activeSession s)
        (calendarEvents s) (loading s) (showDeleteDialog s) (sessionToDelete s)
        (isDeleting s) v (sessionToEdit s) (newLink s)
        (isUpdatingLink s)
  | setSessionToEdit v =>
      mkState (date s) (mentoringSessions s) (filteredSessions s) (activeSession s)
        (calendarEvents s) (loading s) (showDeleteDialog s) (sessionToDelete s)
        (isDeleting s) (showEditLinkDialog s) v (newLink s)
        (isUpdatingLink s)
  | setNewLink v =>
      mkState (date s) (mentoringSessions s) (filteredSessions s) (activeSession s)
        (calendarEvents s) (loading s) (showDeleteDialog s) (sessionToDelete s)
        (isDeleting s) (showEditLinkDialog s) (sessionToEdit s) v
        (isUpdatingLink s)
  | setIsUpdatingLink v =>
      mkState (date s) (mentoringSessions s) (filteredSessions s) (activeSession s)
        (calendarEvents s) (loading s) (showDeleteDialog s) (sessionToDelete s)
        (isDeleting s) (showEditLinkDialog s) (sessionToEdit s) (newLink s)
        v
  | toast_error _ | toast_success _ _ | window_open _ | console_error _ => s
  end.

Definition run (acts : list Action) (s : State) : State :=
  fold_left (fun s a => apply a s) acts s.

(** [Map<string, number>] keyed by day string, in insertion order. *)
Definition EventMap : Type := list (JSDate.DateString * nat).

Fixpoint get (k : JSDate.DateString) (m : EventMap) : option nat :=
  match m with
  | [] => None
  | (k', v) :: m' => if JSDate.DateString_eqb k' k then Some v else get k m'
  end.

Fixpoint set (k : JSDate.DateString) (v : nat) (m : EventMap) : EventMap :=
  match m with
  | [] => [(k, v)]
  | (k', v') :: m' =>
      if JSDate.DateString_eqb k' k then (k, v) :: m' else (k', v') :: set k v m'
  end.

(** [x || 0] for [x : number | undefined]. *)
Definition or_zero (x : option nat) : nat :=
  match x with Some n => n | None => O end.

(** The event of an entry [[dateStr, sessions]] of the map. *)
Definition event_of (entry : JSDate.DateString * nat) : CalendarEvent.t :=
  {| CalendarEvent.date := JSDate.ofDateString (fst entry);
     CalendarEvent.sessions := snd entry |}.

Section WithParseISO.
(** date-fns [parseISO] is the library's. *)
Variable parseISO : string -> JSDate.Parsed.

(** One round of the [forEach] of [updateCalendarEvents] (its
    [console.warn] calls are left out). *)
Definition count_session (eventMap : EventMap) (session : TutorSession.t)
  : EventMap :=
  match TutorSession.date session with
  | None => eventMap
  | Some isoDate =>
      if negb (JS.truthy_str isoDate) then eventMap
      else
        match parseISO isoDate with
        | JSDate.Throws => eventMap
        | JSDate.Returns sessionDate =>
            if JSDate.isValid sessionDate then
              let dateStr := JSDate.toDateString sessionDate in
              set dateStr (or_zero (get dateStr eventMap) + 1) eventMap
            else eventMap
        end
  end.

Definition eventMap (sessions : list TutorSession.t) : EventMap :=
  fold_left count_session sessions [].

Definition events (sessions : list TutorSession.t) : list CalendarEvent.t :=
  map event_of (eventMap sessions).

Definition updateCalendarEvents (sessions : list TutorSession.t) : list Action :=
  [setCalendarEvents (events sessions)].

(** The predicate of the [filter] in [filterSessionsByDate]; a missing
    date parses to nothing valid. *)
Definition on_day (selectedDate : JSDate.t) (session : TutorSession.t) : bool :=
  match TutorSession.date session with
  | None => false
  | Some isoDate =>
      match parseISO isoDate with
      | JSDate.Throws => false
      | JSDate.Returns sessionDate =>
          JSDate.isValid sessionDate && JSDate.isSameDay sessionDate selectedDate
      end
  end.

(** [filterSessionsByDate] of the render [cl]: it reads [cl]'s
    [mentoringSessions]. *)
Definition filterSessionsByDate (cl : State) (selectedDate : option JSDate.t)
  : list Action :=
  match selectedDate with
  | None => [setFilteredSessions (mentoringSessions cl)]
  | Some d => [setFilteredSessions (filter (on_day d) (mentoringSessions cl))]
  end.

(** [fetchSessions]. *)
Definition fetchSessions (mentorId : option string)
    (r : Result (list TutorSession.t)) : list Action :=
  [setLoading true]
  ++ match r with
     | Ok sessions =>
         let mentorSessions :=
           filter (fun session =>
                     match mentorId with
                     | Some m => User.id (TutorSession.mentor session) =? m
                     | None => false
                     end) sessions in
         [ setMentoringSessions (fun _ => mentorSessions);
           setFilteredSessions mentorSessions ]
         ++ updateCalendarEvents mentorSessions
     | Err =>
         [ toast_error "Erro ao carregar sessões de mentoria";
           console_error "Error fetching sessions:" ]
     end
  ++ [setLoading false].

Definition handleEndSession (cl : State) (sessionId : string)
  : Handler Action Call unit :=
  Await [] (deleteSession sessionId)
    (fun r =>
       match r with
       | Ok _ =>
           ([ setActiveSession None;
              setMentoringSessions (fun sessions =>
                filter (fun s => negb (TutorSession.id s =? sessionId)) sessions) ]
            ++ updateCalendarEvents
                 (filter (fun s => negb (TutorSession.id s =? sessionId))
                         (mentoringSessions cl))
            ++ filterSessionsByDate cl (date cl)
            ++ [toast_success "Sessão encerrada com sucesso!" None],
            Fulfilled)
       | Err =>
           ([ toast_error "Erro ao encerrar sessão";
              console_error "Error ending session:" ], Fulfilled)
       end).

Definition handleStartMentoring (cl : State) (sessionId : string)
    (type : SessionType) (link : option string) : list Action :=
  if SessionType_eqb type CHAMADA_DE_VIDEO then
    match link with
    | Some l =>
        if negb (JS.truthy_str l) || negb (JS.truthy_str (JS.trim l))
        then [toast_error "Link da chamada não disponível!"]
        else [window_open l]
    | None => [toast_error "Link da chamada não disponível!"]
    end
  else if JS.truthy (activeSession cl) then
    [toast_error "Você já possui uma sessão ativa!"]
  else
    [ setActiveSession (Some sessionId);
      toast_success "Chat iniciado!" (Some (EndSession cl sessionId)) ].

Definition handleRefuseSession (sessionId : string) : list Action :=
  [setSessionToDelete (Some sessionId); setShowDeleteDialog true].

Definition handleConfirmRefuse (cl : State) : Handler Action Call unit :=
  match sessionToDelete cl with
  | Some toDelete =>
      if negb (JS.truthy_str toDelete) then Return [] Fulfilled
      else
        Await [setIsDeleting true] (deleteSession toDelete)
          (fun r =>
             (match r with
              | Ok _ =>
                  [ setMentoringSessions (fun sessions =>
                      filter (fun s => negb (TutorSession.id s =? toDelete)) sessions) ]
                  ++ updateCalendarEvents
                       (filter (fun s => negb (TutorSession.id s =? toDelete))
                               (mentoringSessions cl))
                  ++ filterSessionsByDate cl (date cl)
                  ++ [toast_success "Sessão recusada com sucesso!" None]
              | Err =>
                  [ toast_error "Erro ao recusar sessão";
                    console_error "Error refusing session:" ]
              end
              ++ [ setIsDeleting false; setShowDeleteDialog false;
                   setSessionToDelete None ],
              Fulfilled))
  | None => Return [] Fulfilled
  end.

Definition handleEditLink (session : TutorSession.t) : list Action :=
  [ setSessionToEdit (Some session);
    setNewLink (match TutorSession.link session with
                | Some l => if JS.truthy_str l then l else ""
                | None => ""
                end);
    setShowEditLinkDialog true ].

Definition handleConfirmEditLink (cl : State)
  : Handler Action Call TutorSession.t :=
  match sessionToEdit cl with
  | Some toEdit =>
      if negb (JS.truthy_str (JS.trim (newLink cl)))
      then Return [toast_error "Por favor, insira um link válido"] Fulfilled
      else
        let updateData :=
          {| TutorSessionCreate.mentorId := User.id (TutorSession.mentor toEdit);
             TutorSessionCreate.studentId := User.id (TutorSession.student toEdit);
             TutorSessionCreate.title := TutorSession.title toEdit;
             TutorSessionCreate.date := TutorSession.date toEdit;
             TutorSessionCreate.dateHour := TutorSession.dateHour toEdit;
             TutorSessionCreate.type := TutorSession.type toEdit;
             TutorSessionCreate.link := JS.trim (newLink cl) |} in
        Await [setIsUpdatingLink true]
          (updateSession (TutorSession.id toEdit) updateData)
          (fun r =>
             (match r with
              | Ok updatedSession =>
                  [ setMentoringSessions (fun sessions =>
                      map (fun session =>
                             if TutorSession.id session =? TutorSession.id toEdit
                             then updatedSession else session) sessions) ]
                  ++ filterSessionsByDate cl (date cl)
                  ++ [toast_success "Link atualizado com sucesso!" None]
              | Err =>
                  [ toast_error "Erro ao atualizar link";
                    console_error "Error updating link:" ]
              end
              ++ [ setIsUpdatingLink false; setShowEditLinkDialog false;
                   setSessionToEdit None; setNewLink "" ],
              Fulfilled))
  | None => Return [toast_error "Por favor, insira um link válido"] Fulfilled
  end.

End WithParseISO.

(** The test both calendar queries apply to an event. *)
Definition same_day (day : JSDate.t) (event : CalendarEvent.t) : bool :=
  JSDate.num_eq (JSDate.getDate (CalendarEvent.date event)) (JSDate.getDate day)
  && JSDate.num_eq (JSDate.getMonth (CalendarEvent.date event)) (JSDate.getMonth day)
  && JSDate.num_eq (JSDate.getFullYear (CalendarEvent.date event)) (JSDate.getFullYear day).

Definition isDayWithSession (s : State) (day : option JSDate.t) : bool :=
  match day with
  | None => false
  | Some d => existsb (same_day d) (calendarEvents s)
  end.

Definition getSessionCount (s : State) (day : option JSDate.t) : nat :=
  match day with
  | None => O
  | Some d =>
      match find (same_day d) (calendarEvents s) with
      | Some event => CalendarEvent.sessions event
      | None => O
      end
  end.

(** ** The page as a transition system

    A render's effect [useEffect(() => filterSessionsByDate(date),
    [date, mentoringSessions, filterSessionsByDate])] runs again after a
    commit that assigned [date] or [mentoringSessions], with the values of
    the new render. *)
Definition touches_filter_deps (a : Action) : bool :=
  match a with
  | setDate _ | setMentoringSessions _ => true
  | _ => false
  end.

(** The toast actions a run of a handler leaves on screen. *)
Definition toast_actions (acts : list Action) : list ToastOnClick :=
  flat_map (fun a =>
              match a with
              | toast_success _ (Some onClick) => [onClick]
              | _ => []
              end) acts.

Inductive Event : Type :=
| Fetched (r : Result (list TutorSession.t))
| SelectDay (day : option JSDate.t)
| ClickStart (session : TutorSession.t)
| ClickToastAction (n : nat) (r : Result unit)
| ClickRefuse (sessionId : string)
| ClickConfirmRefuse (r : Result unit)
| ClickCancelRefuse
| ClickEditLink (session : TutorSession.t)
| ChangeLink (v : string)
| ClickConfirmEditLink (r : Result TutorSession.t)
| ClickCancelEditLink.

(** The state and the toast actions still on screen. *)
Definition World : Type := (State * list ToastOnClick)%type.

Section Page.
Variable parseISO : string -> JSDate.Parsed.
Variable mentorId : option string.

Definition commit (acts : list Action) (s : State) : State :=
  let s' := run acts s in
  if existsb touches_filter_deps acts
  then run (filterSessionsByDate parseISO s' (date s')) s'
  else s'.

(** A handler run to its end, the awaited call yielding [r]. *)
Definition settle {Resp : Type} (h : Handler Action Call Resp)
    (r : Result Resp) (s : State) : State :=
  match h with
  | Return acts _ => commit acts s
  | Await pre _ k => commit (fst (k r)) (commit pre s)
  end.

(** One user event, handled by the handlers of the current render; a
    toast's action runs the handler of the render that raised it. *)
Definition dispatch (w : World) (e : Event) : World :=
  let (s, toasts) := w in
  match e with
  | Fetched r => (commit (fetchSessions parseISO mentorId r) s, toasts)
  | SelectDay day => (commit [setDate day] s, toasts)
  | ClickStart session =>
      let acts :=
        handleStartMentoring s (TutorSession.id session)
          (TutorSession.type session) (TutorSession.link session) in
      (commit acts s, toasts ++ toast_actions acts)
  | ClickToastAction n r =>
      match nth_error toasts n with
      | Some (EndSession cl sessionId) =>
          (settle (handleEndSession parseISO cl sessionId) r s, toasts)
      | None => w
      end
  | ClickRefuse sessionId => (commit (handleRefuseSession sessionId) s, toasts)
  | ClickConfirmRefuse r => (settle (handleConfirmRefuse parseISO s) r s, toasts)
  | ClickCancelRefuse =>
      (commit [setShowDeleteDialog false; setSessionToDelete None] s, toasts)
  | ClickEditLink session => (commit (handleEditLink session) s, toasts)
  | ChangeLink v => (commit [setNewLink v] s, toasts)
  | ClickConfirmEditLink r => (settle (handleConfirmEditLink parseISO s) r s, toasts)
  | ClickCancelEditLink =>
      (commit [ setShowEditLinkDialog false; setSessionToEdit None;
                setNewLink "" ] s, toasts)
  end.

Definition play (w : World) (trace : list Event) : World :=
  fold_left dispatch trace w.
End Page.

End MentorMentoria.

(* ===================================================================== *)
(** * The mentor's page with its chat panel *)
(* ===================================================================== *)

(** [MentorMessages] renders [<CourseChat onSendMessage={handleSendMessage}/>]:
    the panel awaits the promise of the page's handler. *)
Module MentorChat.
Import Async.

(** One submit of the panel's form, to its end.  [userId] is the stored
    user id both components read, [now] the panel's [Date.now()],
    [pageNow] the page's [new Date()], [api] what [sendMessage] yields. *)
Definition submit (page : MentorMessages.State) (panel : CourseChat.State)
    (userId : option string) (now pageNow : Z) (api : Result unit)
  : MentorMessages.State * CourseChat.State :=
  match CourseChat.handleSendMessage panel userId now with
  | Return acts _ => (page, CourseChat.run acts panel)
  | Await pre (CourseChat.onSendMessage content) k =>
      let h := MentorMessages.handleSendMessage page userId content pageNow in
      (MentorMessages.run (actions h api) page,
       CourseChat.run (fst (k (CourseChat.awaited (settles h api))))
                      (CourseChat.run pre panel))
  end.
End MentorChat.

(* ===================================================================== *)
(** * Notions the properties are stated with *)
(* ===================================================================== *)

Module Calendar.
Section WithParseISO.
Variable parseISO : string -> JSDate.Parsed.

(** [session] has a date that parses to a time of the local day [y]-[m]-[n]. *)
Definition on_calendar_day (session : TutorSession.t) (y m n : Z) : Prop :=
  exists isoDate t,
    TutorSession.date session = Some isoDate
    /\ isoDate <> ""
    /\ parseISO isoDate = JSDate.Returns (JSDate.Valid y m n t).

(** [session] has no date, or one that does not parse to a valid date. *)
Definition undated (session : TutorSession.t) : Prop :=
  TutorSession.date session = None
  \/ TutorSession.date session = Some ""
  \/ exists isoDate,
       TutorSession.date session = Some isoDate
       /\ (parseISO isoDate = JSDate.Throws
           \/ parseISO isoDate = JSDate.Returns JSDate.Invalid).

(** The day string [session] has, if its date is present and valid. *)
Definition day_of (session : TutorSession.t) : option JSDate.DateString :=
  match TutorSession.date session with
  | Some isoDate =>
      if JS.truthy_str isoDate then
        match parseISO isoDate with
        | JSDate.Returns (JSDate.Valid y m n _) => Some (JSDate.Day y m n)
        | _ => None
        end
      else None
  | None => None
  end.

Definition is_on (k : JSDate.DateString) (session : TutorSession.t) : bool :=
  match day_of session with
  | Some k' => JSDate.DateString_eqb k' k
  | None => false
  end.

(** How many of [sessions] are on the day [k]. *)
Definition count_on (k : JSDate.DateString) (sessions : list TutorSession.t) : nat :=
  length (filter (is_on k) sessions).

(** The sessions left when [sessionId] is deleted. *)
Definition remaining (sessionId : string) (sessions : list TutorSession.t)
  : list TutorSession.t :=
  filter (fun s => negb (TutorSession.id s =? sessionId)) sessions.

(** The sessions the list shows when [day] is selected. *)
Definition visible (day : option JSDate.t) (sessions : list TutorSession.t)
  : list TutorSession.t :=
  match day with
  | None => sessions
  | Some d => filter (MentorMentoria.on_day parseISO d) sessions
  end.

End WithParseISO.
End Calendar.

Module Reconcile.

(** [message] involves the counterpart [cid]: the other party a page picks
    for it ([party]) has that id. *)
Definition involves (party : Message.t -> option User.t) (cid : string)
    (message : Message.t) : bool :=
  match party message with
  | Some u => User.id u =? cid
  | None => false
  end.

(** The first message of [messages] that involves [cid]. *)
Definition first_involving (party : Message.t -> option User.t) (cid : string)
    (messages : list Message.t) : option Message.t :=
  find (involves party cid) messages.

(** The entries of a map under the key [cid]. *)
Definition key_is (cid : string) (e : string * Chat.t) : bool := fst e =? cid.

(** An entry is keyed by its record's id. *)
Definition keyed (e : string * Chat.t) : Prop := Chat.id (snd e) = fst e.

(** The summary records a list holds for [cid]. *)
Definition records_for (cid : string) (l : list Chat.t) : list Chat.t :=
  filter (fun c => Chat.id c =? cid) l.

(** The reading "sent messages first, then received ones" of the summary's
    [lastMessage], for the mentor's page and for the student's. *)
Definition sent_then_received_mentor : Prop :=
  forall (receivedMessages sentMessages : list Message.t) (cid : string)
         (first : Message.t),
    first_involving MentorMessages.student_of cid (sentMessages ++ receivedMessages)
      = Some first ->
    exists r,
      records_for cid (MentorMessages.studentsWithChatsList receivedMessages sentMessages)
        = [r]
      /\ Chat.lastMessage r = Some (Message.content first).

Definition sent_then_received_student : Prop :=
  forall (clock : nat -> Z) (receivedMessages sentMessages : list Message.t)
         (cid : string) (first : Message.t),
    first_involving StudentMessages.mentor_of cid (sentMessages ++ receivedMessages)
      = Some first ->
    exists r,
      records_for cid
        (StudentMessages.mentorsWithChatsList clock receivedMessages sentMessages) = [r]
      /\ Chat.lastMessage r = Some (Message.content first).

End Reconcile.

Module Partition.

(** No record of [l] is flagged unread. *)
Definition unread_free (l : list Chat.t) : Prop :=
  Forall (fun c => Chat.unread c = false) l.

(** The selected counterpart, if any, is not flagged unread. *)
Definition selection_read (selected : option Chat.t) : Prop :=
  forall c, selected = Some c -> Chat.unread c = false.

(** Every id of the "with chats" list is there once and is not in the
    "no chat yet" list. *)
Definition partitioned (withChats withoutChats : list Chat.t) : Prop :=
  NoDup (Chat.ids withChats)
  /\ forall k, In k (Chat.ids withChats) -> ~ In k (Chat.ids withoutChats).

(** What holds of every world the mentor's page reaches; a send in flight
    carries the selection of its render. *)
Definition mentor_inv (w : MentorMessages.World) : Prop :=
  unread_free (MentorMessages.studentsWithChats (fst w))
  /\ unread_free (MentorMessages.studentsWithoutChats (fst w))
  /\ selection_read (MentorMessages.selectedStudent (fst w))
  /\ partitioned (MentorMessages.studentsWithChats (fst w))
                 (MentorMessages.studentsWithoutChats (fst w))
  /\ Forall (fun f =>
               selection_read (MentorMessages.selectedStudent (MentorMessages.closure f)))
            (snd w).

(** What holds of every world the student's page reaches. *)
Definition student_inv (w : StudentMessages.World) : Prop :=
  unread_free (StudentMessages.mentorsWithChats (fst w))
  /\ unread_free (StudentMessages.availableMentors (fst w))
  /\ selection_read (StudentMessages.selectedMentor (fst w))
  /\ Forall (fun f =>
               selection_read (StudentMessages.selectedMentor (StudentMessages.closure f)))
            (snd w).

End Partition.

(* ===================================================================== *)
(** * App.tsx: the route table *)
(* ===================================================================== *)

Module AppRoutes.
Import App.

(** The guarded routes [<Route path="P/*" element={<AuthWrapper
    requiredRole="R">...}/>]: the root [P] each is mounted at, and [R]. *)
Definition guarded : list (string * string) :=
  [ ("/dashboard", "ESTUDANTE"); ("/admin", "ADMIN"); ("/mentor", "MENTOR") ].

(** What the guarded route mounted at [root] renders, if there is one. *)
Definition guardedRoute (s : State) (root : string) : option Rendered :=
  match find (fun route => fst route =? root) guarded with
  | Some route => Some (AuthWrapper s (Some (snd route)))
  | None => None
  end.

(** What a route of [App] shows: nothing, a redirect, or its page. *)
Inductive Shown : Type :=
| Blank
| Redirect (to : string)
| Page.

(** The element of [/login]: [App] returns [null] until [authChecked]. *)
Definition loginRoute (s : State) : Shown :=
  if negb (authChecked s) then Blank
  else if isAuthenticated s then Redirect (getDashboardPath s)
  else Page.

(** The element of the catch-all route [*]. *)
Definition catchAllRoute (s : State) : Shown :=
  if negb (authChecked s) then Blank
  else Redirect (if isAuthenticated s then getDashboardPath s else "/login").

(** ** [lessonPageRegex]

    [/^\/dashboard\/cursos\/[^/]+\/visualizar\/aulas(\/[^/]+)?$/].  A run
    [[^/]+] is followed by [/] or by the end of the path, so it is the
    longest run of characters other than [/]: no backtracking is needed. *)
Definition slash : ascii := "/"%char.

(** Splits [s] at its first [/]: the run before it, and the rest. *)
Fixpoint segment (s : string) : string * string :=
  match s with
  | EmptyString => (EmptyString, EmptyString)
  | String c s' =>
      if Ascii.eqb c slash then (EmptyString, s)
      else let (run, rest) := segment s' in (String c run, rest)
  end.

(** [(\/[^/]+)?$] *)
Definition lesson_suffix (s : string) : bool :=
  match s with
  | EmptyString => true
  | String c s' =>
      Ascii.eqb c slash
      && (let (run, rest) := segment s' in
          negb (run =? "") && (rest =? ""))
  end.

Definition lessonPageRegex_test (pathname : string) : bool :=
  match JS.strip_prefix "/dashboard/cursos/" pathname with
  | None => false
  | Some s =>
      let (course, rest) := segment s in
      negb (course =? "")
      && match JS.strip_prefix "/visualizar/aulas" rest with
         | None => false
         | Some tail => lesson_suffix tail
         end
  end.

(** [ShouldHideSidebar]: whether the sidebar is left out on [pathname]. *)
Definition hideSidebar (pathname : string) : bool := lessonPageRegex_test pathname.

(** A non-empty path segment: no [/] in it. *)
Definition is_segment (s : string) : Prop :=
  s <> "" /\ forall c, In c (list_ascii_of_string s) -> c <> slash.

End AppRoutes.

(* ===================================================================== *)
(** * components/CourseChat.tsx: loading the conversation *)
(* ===================================================================== *)

Module CourseChatFetch.
Import Async CourseChat.

(** The predicate of the [filter] in [fetchMessages]. *)
Definition involves (studentId : string) (msg : Message.t) : bool :=
  (User.id (Message.remetente msg) =? studentId)
  || (User.id (Message.destinatario msg) =? studentId).

(** [[...receivedMessages, ...sentMessages].filter(...)]. *)
Definition allMessages (studentId : string)
    (receivedMessages sentMessages : list Message.t) : list Message.t :=
  filter (involves studentId) (receivedMessages ++ sentMessages).

(** The render model of one message; [now] is the [Date.now()] read while
    it is mapped. *)
Definition chatMessage (mentorId : string) (now : Z) (msg : Message.t)
  : ChatMessage.t :=
  {| ChatMessage.id := JS.toString now;
     ChatMessage.user_name :=
       if User.id (Message.remetente msg) =? mentorId then "Você"
       else User.name (Message.remetente msg);
     ChatMessage.user_avatar := None;
     ChatMessage.content := Message.content msg |}.

(** [allMessages.map(...)]: [clock k] is what the [k]-th [Date.now()] of
    the run reads. *)
Fixpoint chatMessages (mentorId : string) (clock : nat -> Z) (k : nat)
    (msgs : list Message.t) : list ChatMessage.t :=
  match msgs with
  | [] => []
  | msg :: msgs' =>
      chatMessage mentorId (clock k) msg :: chatMessages mentorId clock (S k) msgs'
  end.

(** [fetchMessages]: both awaits come before [setMessages]. *)
Definition fetchMessages (studentId mentorId : string) (clock : nat -> Z)
    (r : Result (list Message.t * list Message.t)) : list Action :=
  [setLoading true]
  ++ match r with
     | Ok (receivedMessages, sentMessages) =>
         [ setMessages (fun _ =>
             chatMessages mentorId clock O
               (allMessages studentId receivedMessages sentMessages)) ]
     | Err => [console_error "Failed to fetch messages:"]
     end
  ++ [setLoading false].

(** The effect on [[studentId, mentorId]]. *)
Definition effect (studentId : string) (mentorId : option string)
    (clock : nat -> Z) (r : Result (list Message.t * list Message.t)) : list Action :=
  match mentorId with
  | Some mentor =>
      if JS.truthy_str studentId && JS.truthy_str mentor
      then fetchMessages studentId mentor clock r
      else []
  | None => []
  end.

(** [useState] initial values. *)
Definition initial : State :=
  {| messages := []; newMessage := ""; loading := true |}.

(** The name a message is shown under. *)
Definition label (mentorId : string) (msg : Message.t) : string :=
  if User.id (Message.remetente msg) =? mentorId then "Você"
  else User.name (Message.remetente msg).

End CourseChatFetch.

(* ===================================================================== *)
(** * The message pages: search and list order *)
(* ===================================================================== *)

Module ChatList.

(** [s.includes(sub)]: [sub] occurs in [s]. *)
Fixpoint includes (s sub : string) : bool :=
  match JS.strip_prefix sub s with
  | Some _ => true
  | None =>
      match s with
      | EmptyString => false
      | String _ s' => includes s' sub
      end
  end.

Section Search.
(** [String.prototype.toLowerCase] is the runtime's. *)
Variable toLowerCase : string -> string.

(** [filteredStudentsWithChats], [filteredStudentsWithoutChats],
    [filteredMentorsWithChats], [filteredAvailableMentors]: the same filter
    over one of the lists. *)
Definition filtered (searchQuery : string) (l : list Chat.t) : list Chat.t :=
  filter (fun c => includes (toLowerCase (Chat.name c)) (toLowerCase searchQuery)) l.
End Search.

(** The keys of [ks], each at its first occurrence. *)
Fixpoint first_occurrences (ks : list string) : list string :=
  match ks with
  | [] => []
  | k :: ks' => k :: filter (fun k' => negb (k' =? k)) (first_occurrences ks')
  end.

(** The ids of the other parties of [messages], in order. *)
Definition party_ids (party : Message.t -> option User.t)
    (messages : list Message.t) : list string :=
  flat_map (fun message =>
              match party message with
              | Some u => [User.id u]
              | None => []
              end) messages.

End ChatList.

(* ===================================================================== *)
(** * Sample data *)
(* ===================================================================== *)

Module Samples.

Definition digit (c : ascii) : option Z :=
  let n := Z.of_nat (nat_of_ascii c) in
  if ((48 <=? n) && (n <=? 57))%Z then Some (n - 48)%Z else None.

Definition leap (y : Z) : bool :=
  ((y mod 4 =? 0) && negb (y mod 100 =? 0) || (y mod 400 =? 0))%Z.

Definition daysInMonth (y m : Z) : Z :=
  (if m =? 2 then (if leap y then 29 else 28)
   else if (m =? 4) || (m =? 6) || (m =? 9) || (m =? 11) then 30
   else 31)%Z.

(** [parseISO] on the calendar-date form [YYYY-MM-DD]: local midnight of
    that day, an invalid date for anything else.  An instance for the
    examples; the properties hold for whatever [parseISO] does. *)
Definition parseISO (s : string) : JSDate.Parsed :=
  match s with
  | String y1 (String y2 (String y3 (String y4 (String "-"
      (String m1 (String m2 (String "-" (String d1 (String d2 "")))))))))
    =>
      match digit y1, digit y2, digit y3, digit y4,
            digit m1, digit m2, digit d1, digit d2 with
      | Some a, Some b, Some c, Some d, Some e, Some f, Some g, Some h =>
          let y := (1000 * a + 100 * b + 10 * c + d)%Z in
          let m := (10 * e + f)%Z in
          let n := (10 * g + h)%Z in
          if ((1 <=? m) && (m <=? 12) && (1 <=? n) && (n <=? daysInMonth y m))%Z
          then JSDate.Returns (JSDate.Valid y (m - 1) n 0)
          else JSDate.Returns JSDate.Invalid
      | _, _, _, _, _, _, _, _ => JSDate.Returns JSDate.Invalid
      end
  | _ => JSDate.Returns JSDate.Invalid
  end.

Definition mentor1 : User.t := User.mk "m1" "Marta" MENTOR.
Definition mentor2 : User.t := User.mk "m2" "Mauro" MENTOR.
Definition student1 : User.t := User.mk "s1" "Sara" ESTUDANTE.
Definition student2 : User.t := User.mk "s2" "Saulo" ESTUDANTE.

Definition session (id : string) (date : option string) (type : SessionType)
  : TutorSession.t :=
  TutorSession.mk id mentor1 student1 "Mentoria" date "10:00" type None.

Definition sessionA : TutorSession.t := session "A" (Some "2024-05-10") CHAT.
Definition sessionB : TutorSession.t := session "B" (Some "2024-05-10") CHAT.
Definition sessionC : TutorSession.t := session "C" (Some "2024-05-10") CHAMADA_DE_VIDEO.
Definition sessionD : TutorSession.t := session "D" (Some "2024-06-01") CHAT.
Definition sessionBad : TutorSession.t := session "E" (Some "amanhã") CHAT.
Definition sessionUndated : TutorSession.t := session "F" None CHAT.

Definition may10 : JSDate.t := JSDate.Valid 2024 4 10 0.
Definition june1 : JSDate.t := JSDate.Valid 2024 5 1 0.

(** A page with a chat already started. *)
Definition chatting : MentorMentoria.State :=
  MentorMentoria.mkState None [sessionA; sessionB] [sessionA; sessionB]
    (Some "A") [] false false None false false None "" false.

(** The edit-link dialog open on [sessionC] with a blank input. *)
Definition editing : MentorMentoria.State :=
  MentorMentoria.mkState None [sessionC] [sessionC] None [] false
    false None false true (Some sessionC) "   " false.

Definition chatWith (u : User.t) : Chat.t := Chat.of_user u.

(** A mentor's page with a student selected, and an open panel. *)
Definition page : MentorMessages.State :=
  MentorMessages.mkState (Some (chatWith student1)) "" [] [chatWith student1]
    false None false.

Definition panel : CourseChat.State := CourseChat.mkState [] "hi" false.

Definition msg (from to : User.t) (content : string) : Message.t :=
  Message.mk from to content.

End Samples.

(* ===================================================================== *)
(** * Properties: the route guard *)
(* ===================================================================== *)

Section RouteGuard.
Import App.

Lemma truthy_Some (r : string) : r <> "" -> JS.truthy (Some r) = true.
Proof.
  intros H. unfold JS.truthy, JS.truthy_str.
  destruct (String.eqb_spec r ""); [contradiction | reflexivity].
Qed.

Lemma strict_neq_Some (v : option string) (r : string) :
  v <> Some r -> JS.strict_neq v (Some r) = true.
Proof.
  intros H. destruct v as [x|]; simpl; [|reflexivity].
  destruct (String.eqb_spec x r); [subst; contradiction | reflexivity].
Qed.

(** The dashboard roots of the three known roles. *)
Lemma getDashboardPath_known (s : State) :
  (userRole s = Some "ESTUDANTE" -> getDashboardPath s = "/dashboard")
  /\ (userRole s = Some "ADMIN" -> getDashboardPath s = "/admin")
  /\ (userRole s = Some "MENTOR" -> getDashboardPath s = "/mentor").
Proof.
  unfold getDashboardPath.
  repeat split; intros ->; reflexivity.
Qed.

Lemma getDashboardPath_unknown (s : State) :
  userRole s <> Some "ESTUDANTE" ->
  userRole s <> Some "ADMIN" ->
  userRole s <> Some "MENTOR" ->
  getDashboardPath s = "/login".
Proof.
  unfold getDashboardPath. intros H1 H2 H3.
  destruct (userRole s) as [r|]; [|reflexivity].
  destruct (String.eqb_spec r "ESTUDANTE"); [subst; contradiction|].
  destruct (String.eqb_spec r "ADMIN"); [subst; contradiction|].
  destruct (String.eqb_spec r "MENTOR"); [subst; contradiction|].
  reflexivity.
Qed.

(** The mount effect leaves the guard able to decide; a state that is
    authenticated has been checked. *)
Lemma initAuth_checked (up : string -> string) (token role : option string) :
  authChecked (initAuth up token role) = true
  /\ isAuthenticated (initAuth up token role) = JS.truthy token.
Proof. split; reflexivity. Qed.

Lemma authenticated_is_checked (up : string -> string) (s : State) :
  reachable up s -> isAuthenticated s = true -> authChecked s = true.
Proof.
  induction 1 as [| token role | s role _ _ Hc | s _ _ Hc]; simpl; auto.
Qed.

(** C3. Once the stored session has been read ([authChecked]), a guarded
    route visited with a token and a role other than its [requiredRole]
    redirects to the dashboard root of the visitor's own role; a mentor
    on the student-only route goes to [/mentor], which is not the login
    path; without a token the guard redirects to [/login]; and the
    dashboard-path resolver yields [/login] for a role that is none of
    the three known ones. *)
Theorem C3_route_guard (s : State) (checked : authChecked s = true) :
  (isAuthenticated s = true ->
   forall r, r <> "" -> userRole s <> Some r ->
     AuthWrapper s (Some r) = Navigate (getDashboardPath s))
  /\ ((userRole s = Some "ESTUDANTE" -> getDashboardPath s = "/dashboard")
      /\ (userRole s = Some "ADMIN" -> getDashboardPath s = "/admin")
      /\ (userRole s = Some "MENTOR" -> getDashboardPath s = "/mentor"))
  /\ (isAuthenticated s = true -> userRole s = Some "MENTOR" ->
      AuthWrapper s (Some "ESTUDANTE") = Navigate "/mentor"
      /\ "/mentor" <> "/login")
  /\ (isAuthenticated s = false ->
      forall requiredRole, AuthWrapper s requiredRole = Navigate "/login")
  /\ (userRole s <> Some "ESTUDANTE" ->
      userRole s <> Some "ADMIN" ->
      userRole s <> Some "MENTOR" ->
      getDashboardPath s = "/login").
Proof.
  assert (redirect : isAuthenticated s = true ->
            forall r, r <> "" -> userRole s <> Some r ->
              AuthWrapper s (Some r) = Navigate (getDashboardPath s)).
  { intros auth r Hr Hrole. unfold AuthWrapper.
    rewrite checked, auth, (truthy_Some r Hr), (strict_neq_Some _ r Hrole).
    reflexivity. }
  split; [exact redirect|].
  split; [apply getDashboardPath_known|].
  split.
  { intros auth Hrole. split; [|discriminate].
    rewrite (redirect auth "ESTUDANTE"); [| discriminate | rewrite Hrole; discriminate].
    f_equal. apply getDashboardPath_known. exact Hrole. }
  split.
  { intros auth requiredRole. unfold AuthWrapper. rewrite checked, auth. reflexivity. }
  apply getDashboardPath_unknown.
Qed.

Lemma C3_route_guard_witness :
  AuthWrapper (mkState true true (Some "MENTOR")) (Some "ESTUDANTE")
  = Navigate "/mentor".
Proof.
  exact (proj1 (proj1 (proj2 (proj2
           (C3_route_guard (mkState true true (Some "MENTOR")) eq_refl)))
           eq_refl eq_refl)).
Defined.

End RouteGuard.

(* ===================================================================== *)
(** * Properties: guards of the handlers *)
(* ===================================================================== *)

Section Guards.
Import Async.

Lemma truthy_str_empty (s : string) : s = "" -> JS.truthy_str s = false.
Proof. intros ->. reflexivity. Qed.

Lemma truthy_nonempty (a : string) : a <> "" -> JS.truthy_str a = true.
Proof.
  intros H. unfold JS.truthy_str.
  destruct (String.eqb_spec a ""); [contradiction | reflexivity].
Qed.

(** C9. Submitting the panel's form with an input that trims to nothing,
    or without a stored user id, only calls [preventDefault]: the send
    callback is not invoked, no message is appended, and the panel's
    state is what it was. *)
Theorem C9_blank_submit_is_noop
    (cl : CourseChat.State) (mentorId : option string) (now : Z)
    (blank : JS.trim (CourseChat.newMessage cl) = "" \/ JS.truthy mentorId = false) :
  CourseChat.handleSendMessage cl mentorId now
    = Return [CourseChat.preventDefault] Fulfilled
  /\ calls (CourseChat.handleSendMessage cl mentorId now) = []
  /\ forall r s,
       CourseChat.run (actions (CourseChat.handleSendMessage cl mentorId now) r) s = s.
Proof.
  assert (E : CourseChat.handleSendMessage cl mentorId now
              = Return [CourseChat.preventDefault] Fulfilled).
  { unfold CourseChat.handleSendMessage.
    destruct blank as [H | H].
    - rewrite (truthy_str_empty _ H). reflexivity.
    - rewrite H, orb_true_r. reflexivity. }
  rewrite E. repeat split.
Qed.

(** The submit button is disabled for such an input. *)
Lemma blank_input_disables_send (s : CourseChat.State) :
  JS.trim (CourseChat.newMessage s) = "" -> CourseChat.send_disabled s = true.
Proof. intros H. unfold CourseChat.send_disabled. now rewrite H. Qed.

Lemma C9_blank_submit_is_noop_witness :
  CourseChat.handleSendMessage (CourseChat.mkState [] "   " false) (Some "m1") 17
    = Return [CourseChat.preventDefault] Fulfilled.
Proof.
  exact (proj1 (C9_blank_submit_is_noop
                  (CourseChat.mkState [] "   " false) (Some "m1") 17
                  (or_introl eq_refl))).
Defined.

Variable parseISO : string -> JSDate.Parsed.
Variable mentorId : option string.

(** C8. Confirming the edit-link dialog with a link that trims to nothing
    shows the error and returns: no call to the session-update endpoint
    is issued and the state, the session list included, is unchanged. *)
Theorem C8_blank_link_rejected
    (s : MentorMentoria.State) (toasts : list MentorMentoria.ToastOnClick)
    (blank : JS.trim (MentorMentoria.newLink s) = "") :
  MentorMentoria.handleConfirmEditLink parseISO s
    = Return [MentorMentoria.toast_error "Por favor, insira um link válido"] Fulfilled
  /\ calls (MentorMentoria.handleConfirmEditLink parseISO s) = []
  /\ forall r,
       MentorMentoria.dispatch parseISO mentorId (s, toasts)
         (MentorMentoria.ClickConfirmEditLink r) = (s, toasts).
Proof.
  assert (E : MentorMentoria.handleConfirmEditLink parseISO s
              = Return [MentorMentoria.toast_error "Por favor, insira um link válido"]
                       Fulfilled).
  { unfold MentorMentoria.handleConfirmEditLink.
    rewrite (truthy_str_empty _ blank).
    destruct (MentorMentoria.sessionToEdit s); reflexivity. }
  split; [exact E|]. split; [rewrite E; reflexivity|].
  intros r. unfold MentorMentoria.dispatch. rewrite E. reflexivity.
Qed.

(** C7. While a chat session is active ([activeSession] holds its id),
    starting another chat-type session only shows the error toast: the
    state, with [activeSession] and the session lists, is unchanged and no
    toast action is added. *)
Theorem C7_second_chat_rejected
    (s : MentorMentoria.State) (toasts : list MentorMentoria.ToastOnClick)
    (active : string) (session : TutorSession.t)
    (is_active : MentorMentoria.activeSession s = Some active)
    (nonempty : active <> "")
    (chat : TutorSession.type session <> CHAMADA_DE_VIDEO) :
  MentorMentoria.handleStartMentoring s (TutorSession.id session)
      (TutorSession.type session) (TutorSession.link session)
    = [MentorMentoria.toast_error "Você já possui uma sessão ativa!"]
  /\ MentorMentoria.dispatch parseISO mentorId (s, toasts)
       (MentorMentoria.ClickStart session) = (s, toasts)
  /\ MentorMentoria.activeSession
       (fst (MentorMentoria.dispatch parseISO mentorId (s, toasts)
               (MentorMentoria.ClickStart session))) = Some active.
Proof.
  assert (E : MentorMentoria.handleStartMentoring s (TutorSession.id session)
                (TutorSession.type session) (TutorSession.link session)
              = [MentorMentoria.toast_error "Você já possui uma sessão ativa!"]).
  { unfold MentorMentoria.handleStartMentoring.
    destruct (TutorSession.type session); [contradiction|]. simpl.
    rewrite is_active. simpl. rewrite (truthy_nonempty _ nonempty). reflexivity. }
  assert (D : MentorMentoria.dispatch parseISO mentorId (s, toasts)
                (MentorMentoria.ClickStart session) = (s, toasts)).
  { unfold MentorMentoria.dispatch. rewrite E. simpl.
    rewrite app_nil_r. reflexivity. }
  split; [exact E|]. split; [exact D|]. rewrite D. exact is_active.
Qed.

End Guards.

Lemma C8_blank_link_rejected_witness :
  Async.calls (MentorMentoria.handleConfirmEditLink Samples.parseISO Samples.editing) = []
  /\ MentorMentoria.dispatch Samples.parseISO (Some "m1") (Samples.editing, [])
       (MentorMentoria.ClickConfirmEditLink Async.Err) = (Samples.editing, []).
Proof.
  pose proof (C8_blank_link_rejected Samples.parseISO (Some "m1")
                Samples.editing [] eq_refl) as [_ [H1 H2]].
  split; [exact H1 | exact (H2 Async.Err)].
Defined.

Lemma C7_second_chat_rejected_witness :
  MentorMentoria.dispatch Samples.parseISO (Some "m1") (Samples.chatting, [])
    (MentorMentoria.ClickStart Samples.sessionB) = (Samples.chatting, []).
Proof.
  refine (proj1 (proj2 (C7_second_chat_rejected Samples.parseISO (Some "m1")
                          Samples.chatting [] "A" Samples.sessionB eq_refl _ _)));
    discriminate.
Defined.

(* ===================================================================== *)
(** * Properties: a send that fails *)
(* ===================================================================== *)

Section FailedSend.
Import Async.

(** The page's handler catches what [sendMessage] throws: its promise is
    fulfilled whatever the call yields. *)
Lemma mentor_send_fulfils cl userId content now r :
  settles (MentorMessages.handleSendMessage cl userId content now) r = Fulfilled.
Proof.
  unfold MentorMessages.handleSendMessage.
  destruct (MentorMessages.selectedStudent cl), userId as [m|]; try reflexivity.
  destruct (JS.truthy_str m); simpl; [|reflexivity].
  destruct r; reflexivity.
Qed.

Lemma student_send_fulfils cl userId content clock r :
  settles (StudentMessages.handleSendMessage cl userId content clock) r = Fulfilled.
Proof.
  unfold StudentMessages.handleSendMessage.
  destruct (StudentMessages.selectedMentor cl), userId as [m|]; try reflexivity.
  destruct (JS.truthy_str m); simpl; [|reflexivity].
  destruct r; reflexivity.
Qed.

(** So the panel's [catch] never runs: after a submit that passes the
    guard, the optimistic message is in the list, also when the call
    failed. *)
Lemma submit_keeps_optimistic page panel userId now pageNow api :
  JS.truthy_str (JS.trim (CourseChat.newMessage panel)) = true ->
  JS.truthy userId = true ->
  CourseChat.messages (snd (MentorChat.submit page panel userId now pageNow api))
  = CourseChat.messages panel ++ [CourseChat.optimisticMessage panel now].
Proof.
  intros Hmsg Hid. unfold MentorChat.submit, CourseChat.handleSendMessage.
  rewrite Hmsg, Hid. simpl. rewrite mentor_send_fulfils. reflexivity.
Qed.



(** C2 (the code departs from it). With an empty panel, the input ["hi"],
    a student selected and [sendMessage] failing, the panel ends with the
    optimistic message still in its list: one message, where the list
    before the send had none. *)
Theorem C2_failed_send_keeps_optimistic_message :
  let panel' :=
    snd (MentorChat.submit Samples.page Samples.panel (Some "m1") 1000 2000 Err) in
  CourseChat.messages panel'
    = [CourseChat.ChatMessage.mk "1000" "Você" None "hi"]
  /\ length (CourseChat.messages panel') = 1%nat
  /\ length (CourseChat.messages Samples.panel) = 0%nat
  /\ calls (MentorMessages.handleSendMessage Samples.page (Some "m1") "hi" 2000)
     = [MentorMessages.sendMessage (MessageData.mk "m1" "s1" "hi")].
Proof. repeat split. Qed.

End FailedSend.

(* ===================================================================== *)
(** * Properties: the calendar *)
(* ===================================================================== *)

Section CalendarCounts.
Import MentorMentoria.
Variable parseISO : string -> JSDate.Parsed.

Abbreviation day_of := (Calendar.day_of parseISO).
Abbreviation is_on := (Calendar.is_on parseISO).
Abbreviation count_on := (Calendar.count_on parseISO).

Lemma DateString_eqb_spec a c : reflect (a = c) (JSDate.DateString_eqb a c).
Proof.
  destruct a as [y1 m1 d1|], c as [y2 m2 d2|]; simpl;
    try (constructor; congruence).
  destruct (Z.eqb_spec y1 y2), (Z.eqb_spec m1 m2), (Z.eqb_spec d1 d2);
    simpl; constructor; congruence.
Qed.

Lemma DateString_eqb_refl a : JSDate.DateString_eqb a a = true.
Proof. destruct (DateString_eqb_spec a a); congruence. Qed.

Lemma get_set_same k v m : get k (set k v m) = Some v.
Proof.
  induction m as [|[k' v'] m IH]; simpl.
  - now rewrite DateString_eqb_refl.
  - destruct (DateString_eqb_spec k' k) as [->|Hne]; simpl.
    + now rewrite DateString_eqb_refl.
    + destruct (DateString_eqb_spec k' k); [contradiction | exact IH].
Qed.

Lemma get_set_other k k' v m : k' <> k -> get k (set k' v m) = get k m.
Proof.
  intros Hne. induction m as [|[k0 v0] m IH]; simpl.
  - destruct (DateString_eqb_spec k' k); [contradiction | reflexivity].
  - destruct (DateString_eqb_spec k0 k') as [->|Hne0]; simpl.
    + destruct (DateString_eqb_spec k' k); [contradiction | reflexivity].
    + destruct (DateString_eqb_spec k0 k); [reflexivity | exact IH].
Qed.

(** A round of the [forEach] counts the session under its day, if it has one. *)
Lemma count_session_day eventMap session :
  count_session parseISO eventMap session
  = match day_of session with
    | Some k => set k (or_zero (get k eventMap) + 1) eventMap
    | None => eventMap
    end.
Proof.
  unfold count_session, Calendar.day_of.
  destruct (TutorSession.date session) as [iso|]; [|reflexivity].
  destruct (JS.truthy_str iso); simpl; [|reflexivity].
  destruct (parseISO iso) as [[y m n t|]|]; reflexivity.
Qed.

Lemma count_on_cons k session sessions :
  count_on k (session :: sessions)
  = ((if is_on k session then 1 else 0) + count_on k sessions)%nat.
Proof.
  unfold Calendar.count_on. simpl. destruct (is_on k session); reflexivity.
Qed.

Lemma get_fold_count k sessions : forall m,
  get k (fold_left (count_session parseISO) sessions m)
  = if (count_on k sessions =? 0)%nat then get k m
    else Some (or_zero (get k m) + count_on k sessions).
Proof.
  induction sessions as [|session sessions IH]; intros m; [reflexivity|].
  rewrite count_on_cons. simpl fold_left. rewrite IH, count_session_day.
  unfold Calendar.is_on.
  destruct (day_of session) as [k'|]; [|reflexivity].
  destruct (DateString_eqb_spec k' k) as [->|Hne].
  - rewrite get_set_same.
    destruct (count_on k sessions); simpl; f_equal; lia.
  - rewrite (get_set_other _ _ _ _ Hne). reflexivity.
Qed.

Lemma get_eventMap k sessions :
  get k (eventMap parseISO sessions)
  = if (count_on k sessions =? 0)%nat then None else Some (count_on k sessions).
Proof. unfold eventMap. rewrite get_fold_count. reflexivity. Qed.

Lemma same_day_event y m n t k v :
  same_day (JSDate.Valid y m n t) (event_of (k, v))
  = JSDate.DateString_eqb k (JSDate.Day y m n).
Proof.
  destruct k as [y' m' n'|]; simpl; [|reflexivity].
  unfold same_day. simpl.
  destruct (Z.eqb y' y), (Z.eqb m' m), (Z.eqb n' n); reflexivity.
Qed.

Lemma find_events y m n t (em : EventMap) :
  match find (same_day (JSDate.Valid y m n t)) (map event_of em) with
  | Some event => CalendarEvent.sessions event
  | None => O
  end = or_zero (get (JSDate.Day y m n) em).
Proof.
  induction em as [|[k v] em IH]; simpl; [reflexivity|].
  rewrite same_day_event.
  destruct (JSDate.DateString_eqb k (JSDate.Day y m n)); [reflexivity | exact IH].
Qed.

Lemma existsb_events y m n t (em : EventMap) :
  existsb (same_day (JSDate.Valid y m n t)) (map event_of em)
  = match get (JSDate.Day y m n) em with Some _ => true | None => false end.
Proof.
  induction em as [|[k v] em IH]; simpl; [reflexivity|].
  rewrite same_day_event.
  destruct (JSDate.DateString_eqb k (JSDate.Day y m n)); [reflexivity | exact IH].
Qed.

(** A calendar built from [sessions] gives each day the number of
    sessions whose date is present and parses to a time of that day. *)
Lemma counts_of_calendar sessions s y m n t :
  calendarEvents s = events parseISO sessions ->
  getSessionCount s (Some (JSDate.Valid y m n t)) = count_on (JSDate.Day y m n) sessions
  /\ isDayWithSession s (Some (JSDate.Valid y m n t))
     = negb (count_on (JSDate.Day y m n) sessions =? 0)%nat.
Proof.
  intros E. unfold getSessionCount, isDayWithSession. rewrite E. unfold events.
  rewrite find_events, existsb_events, get_eventMap.
  destruct (count_on (JSDate.Day y m n) sessions); simpl; split; reflexivity.
Qed.

Lemma calendar_counts_per_day sessions s y m n t :
  let s' := run (updateCalendarEvents parseISO sessions) s in
  getSessionCount s' (Some (JSDate.Valid y m n t)) = count_on (JSDate.Day y m n) sessions
  /\ isDayWithSession s' (Some (JSDate.Valid y m n t))
     = negb (count_on (JSDate.Day y m n) sessions =? 0)%nat.
Proof. apply counts_of_calendar. reflexivity. Qed.

Lemma count_on_perm k l l' : Permutation l l' -> count_on k l = count_on k l'.
Proof.
  unfold Calendar.count_on.
  induction 1 as [|x l l' _ IH|x y l|l l' l'' _ IH1 _ IH2]; simpl.
  - reflexivity.
  - destruct (is_on k x); simpl; now rewrite IH.
  - destruct (is_on k x), (is_on k y); reflexivity.
  - congruence.
Qed.

Lemma count_on_app k l l' : count_on k (l ++ l') = (count_on k l + count_on k l')%nat.
Proof. unfold Calendar.count_on. now rewrite filter_app, length_app. Qed.

Lemma on_calendar_day_day_of session y m n :
  Calendar.on_calendar_day parseISO session y m n ->
  day_of session = Some (JSDate.Day y m n).
Proof.
  intros (iso & t & Hd & Hne & Hp). unfold Calendar.day_of.
  rewrite Hd, (truthy_nonempty _ Hne), Hp. reflexivity.
Qed.

Lemma undated_day_of session :
  Calendar.undated parseISO session -> day_of session = None.
Proof.
  unfold Calendar.day_of.
  intros [H | [H | (iso & H & [Hp | Hp])]]; rewrite H; try reflexivity;
    destruct (JS.truthy_str iso); rewrite ?Hp; reflexivity.
Qed.

Lemma count_on_undated k bad :
  Forall (Calendar.undated parseISO) bad -> count_on k bad = O.
Proof.
  unfold Calendar.count_on. induction 1 as [|x l Hx _ IH]; [reflexivity|].
  simpl. unfold Calendar.is_on at 1. rewrite (undated_day_of _ Hx). exact IH.
Qed.

Lemma is_on_day session k k' :
  day_of session = Some k -> is_on k' session = JSDate.DateString_eqb k k'.
Proof. unfold Calendar.is_on. now intros ->. Qed.

(** C4. Sessions are counted per calendar day.  With three sessions on
    one day, one on another day and any number of sessions whose date is
    missing or does not parse, in any order, both days are days with a
    session, their counts are 3 and 1, and every other day has no session:
    the undated sessions count for no day. *)
Theorem C4_calendar_counts
    (sessions bad : list TutorSession.t) (a1 a2 a3 c : TutorSession.t)
    (y1 m1 n1 y2 m2 n2 : Z) (s : State)
    (on1 : Calendar.on_calendar_day parseISO a1 y1 m1 n1)
    (on2 : Calendar.on_calendar_day parseISO a2 y1 m1 n1)
    (on3 : Calendar.on_calendar_day parseISO a3 y1 m1 n1)
    (onc : Calendar.on_calendar_day parseISO c y2 m2 n2)
    (other : (y1, m1, n1) <> (y2, m2, n2))
    (nodate : Forall (Calendar.undated parseISO) bad)
    (all : Permutation sessions ([a1; a2; a3; c] ++ bad)) :
  let s' := run (updateCalendarEvents parseISO sessions) s in
  forall t,
    isDayWithSession s' (Some (JSDate.Valid y1 m1 n1 t)) = true
    /\ isDayWithSession s' (Some (JSDate.Valid y2 m2 n2 t)) = true
    /\ getSessionCount s' (Some (JSDate.Valid y1 m1 n1 t)) = 3%nat
    /\ getSessionCount s' (Some (JSDate.Valid y2 m2 n2 t)) = 1%nat
    /\ forall y m n,
         (y, m, n) <> (y1, m1, n1) -> (y, m, n) <> (y2, m2, n2) ->
         isDayWithSession s' (Some (JSDate.Valid y m n t)) = false
         /\ getSessionCount s' (Some (JSDate.Valid y m n t)) = O.
Proof.
  intros s' t.
  assert (count : forall y m n,
            count_on (JSDate.Day y m n) sessions
            = ((if JSDate.DateString_eqb (JSDate.Day y1 m1 n1) (JSDate.Day y m n)
                then 3 else 0)
               + (if JSDate.DateString_eqb (JSDate.Day y2 m2 n2) (JSDate.Day y m n)
                  then 1 else 0))%nat).
  { intros y m n. rewrite (count_on_perm _ _ _ all), count_on_app,
      (count_on_undated _ _ nodate), !count_on_cons.
    rewrite (is_on_day _ _ _ (on_calendar_day_day_of _ _ _ _ on1)),
            (is_on_day _ _ _ (on_calendar_day_day_of _ _ _ _ on2)),
            (is_on_day _ _ _ (on_calendar_day_day_of _ _ _ _ on3)),
            (is_on_day _ _ _ (on_calendar_day_day_of _ _ _ _ onc)).
    destruct (JSDate.DateString_eqb (JSDate.Day y1 m1 n1) (JSDate.Day y m n)),
             (JSDate.DateString_eqb (JSDate.Day y2 m2 n2) (JSDate.Day y m n));
      reflexivity. }
  assert (ne12 : JSDate.DateString_eqb (JSDate.Day y1 m1 n1) (JSDate.Day y2 m2 n2) = false).
  { destruct (DateString_eqb_spec (JSDate.Day y1 m1 n1) (JSDate.Day y2 m2 n2)) as [E|];
      [|reflexivity]. injection E as -> -> ->. now contradiction other. }
  assert (ne21 : JSDate.DateString_eqb (JSDate.Day y2 m2 n2) (JSDate.Day y1 m1 n1) = false).
  { destruct (DateString_eqb_spec (JSDate.Day y2 m2 n2) (JSDate.Day y1 m1 n1)) as [E|];
      [|reflexivity]. injection E as -> -> ->. now contradiction other. }
  subst s'.
  split; [|split; [|split; [|split]]].
  5: intros y m n Hn1 Hn2; split.
  all: rewrite ?(proj1 (calendar_counts_per_day sessions s _ _ _ t)),
               ?(proj2 (calendar_counts_per_day sessions s _ _ _ t)), count;
       rewrite ?DateString_eqb_refl, ?ne12, ?ne21; try reflexivity.
  all: destruct (DateString_eqb_spec (JSDate.Day y1 m1 n1) (JSDate.Day y m n)) as [E|];
    [injection E as -> -> ->; now contradiction Hn1|];
    destruct (DateString_eqb_spec (JSDate.Day y2 m2 n2) (JSDate.Day y m n)) as [E|];
    [injection E as -> -> ->; now contradiction Hn2|]; reflexivity.
Qed.

End CalendarCounts.

Lemma C4_calendar_counts_witness :
  let s' :=
    MentorMentoria.run
      (MentorMentoria.updateCalendarEvents Samples.parseISO
         ([Samples.sessionBad; Samples.sessionUndated]
          ++ [Samples.sessionA; Samples.sessionB; Samples.sessionC; Samples.sessionD]))
      (MentorMentoria.initial Samples.may10) in
  MentorMentoria.isDayWithSession s' (Some Samples.may10) = true
  /\ MentorMentoria.isDayWithSession s' (Some Samples.june1) = true
  /\ MentorMentoria.getSessionCount s' (Some Samples.may10) = 3%nat
  /\ MentorMentoria.getSessionCount s' (Some Samples.june1) = 1%nat.
Proof.
  assert (on : forall id type,
            Calendar.on_calendar_day Samples.parseISO
              (Samples.session id (Some "2024-05-10") type) 2024 4 10).
  { intros id type. exists "2024-05-10", 0%Z.
    split; [reflexivity | split; [discriminate | reflexivity]]. }
  assert (onD : Calendar.on_calendar_day Samples.parseISO Samples.sessionD 2024 5 1).
  { exists "2024-06-01", 0%Z.
    split; [reflexivity | split; [discriminate | reflexivity]]. }
  assert (bad : Forall (Calendar.undated Samples.parseISO)
                  [Samples.sessionBad; Samples.sessionUndated]).
  { constructor; [|constructor; [|constructor]].
    - right; right. exists "amanhã". split; [reflexivity | right; reflexivity].
    - left. reflexivity. }
  pose proof (C4_calendar_counts Samples.parseISO _ _ _ _ _ _ 2024 4 10 2024 5 1
                (MentorMentoria.initial Samples.may10)
                (on "A" CHAT) (on "B" CHAT) (on "C" CHAMADA_DE_VIDEO) onD
                ltac:(discriminate) bad (Permutation_app_comm _ _) 0%Z)
    as (H1 & H2 & H3 & H4 & _).
  exact (conj H1 (conj H2 (conj H3 H4))).
Defined.

(* ===================================================================== *)
(** * Properties: deleting a session *)
(* ===================================================================== *)

Section Delete.
Import Async MentorMentoria.
Variable parseISO : string -> JSDate.Parsed.

Abbreviation day_of := (Calendar.day_of parseISO).
Abbreviation count_on := (Calendar.count_on parseISO).

Abbreviation remaining := Calendar.remaining.
Abbreviation visible := (Calendar.visible parseISO).

(** Ending a session from the render the page is in: the list loses the
    session, the calendar is rebuilt from the new list, and the effect
    filters the new list. *)
Lemma end_session_in_current_render s sessionId :
  let s' := settle parseISO (handleEndSession parseISO s sessionId) (Ok tt) s in
  mentoringSessions s' = remaining sessionId (mentoringSessions s)
  /\ calendarEvents s' = events parseISO (mentoringSessions s')
  /\ filteredSessions s' = visible (date s) (mentoringSessions s')
  /\ activeSession s' = None.
Proof.
  unfold settle, handleEndSession, commit, visible. simpl.
  destruct (date s); simpl; repeat split.
Qed.

(** The same for a confirmed refusal. *)
Lemma confirm_refuse_in_current_render s sessionId :
  sessionToDelete s = Some sessionId -> sessionId <> "" ->
  let s' := settle parseISO (handleConfirmRefuse parseISO s) (Ok tt) s in
  mentoringSessions s' = remaining sessionId (mentoringSessions s)
  /\ calendarEvents s' = events parseISO (mentoringSessions s')
  /\ filteredSessions s' = visible (date s) (mentoringSessions s').
Proof.
  intros Hdel Hne. unfold settle, handleConfirmRefuse, commit, visible.
  rewrite Hdel, (truthy_nonempty _ Hne). simpl.
  destruct (date s); simpl; repeat split.
Qed.

Lemma remaining_absent sessionId sessions session :
  In session (remaining sessionId sessions) -> TutorSession.id session <> sessionId.
Proof.
  unfold remaining. rewrite filter_In. intros [_ H] E. rewrite E, String.eqb_refl in H.
  discriminate.
Qed.

Lemma visible_incl day sessions session :
  In session (visible day sessions) -> In session sessions.
Proof.
  destruct day; simpl; [|tauto]. rewrite filter_In. tauto.
Qed.

(** With distinct ids, removing a session takes one from its day's count
    and leaves the other days' counts. *)
Lemma count_on_remaining k sessions session :
  NoDup (map TutorSession.id sessions) ->
  In session sessions ->
  count_on k (remaining (TutorSession.id session) sessions)
  = (count_on k sessions - (if Calendar.is_on parseISO k session then 1 else 0))%nat.
Proof.
  unfold Calendar.count_on, remaining.
  induction sessions as [|x l IH]; intros Hnd Hin; [contradiction|].
  simpl in Hnd. inversion Hnd as [|? ? Hx Hl]; subst. simpl.
  destruct Hin as [<- | Hin].
  - rewrite String.eqb_refl. simpl.
    assert (E : filter (fun s => negb (TutorSession.id s =? TutorSession.id x)) l = l).
    { clear -Hx. induction l as [|y l IHl]; [reflexivity|]. simpl.
      destruct (String.eqb_spec (TutorSession.id y) (TutorSession.id x)) as [E|_].
      - exfalso. apply Hx. left. exact E.
      - simpl. f_equal. apply IHl. intros H. apply Hx. now right. }
    rewrite E. destruct (Calendar.is_on parseISO k x); simpl; lia.
  - destruct (String.eqb_spec (TutorSession.id x) (TutorSession.id session)) as [E|_].
    + exfalso. apply Hx. rewrite E. now apply in_map.
    + simpl. specialize (IH Hl Hin).
      assert (Hpos : Calendar.is_on parseISO k session = true ->
                     (1 <= length (filter (Calendar.is_on parseISO k) l))%nat).
      { intros Hon. clear -Hin Hon. induction l as [|y l IHl]; [contradiction|].
        simpl. destruct Hin as [-> | Hin].
        - rewrite Hon. simpl. lia.
        - specialize (IHl Hin). destruct (Calendar.is_on parseISO k y); simpl; lia. }
      destruct (Calendar.is_on parseISO k x); simpl; rewrite IH;
        destruct (Calendar.is_on parseISO k session); lia.
Qed.

(** Ending or refusing a session from the render the page is in: the
    session leaves the visible list and its day's count goes down by one. *)
Lemma delete_in_current_render s session h :
  NoDup (map TutorSession.id (mentoringSessions s)) ->
  In session (mentoringSessions s) ->
  h = settle parseISO (handleEndSession parseISO s (TutorSession.id session)) (Ok tt) s
  \/ (sessionToDelete s = Some (TutorSession.id session)
      /\ TutorSession.id session <> ""
      /\ h = settle parseISO (handleConfirmRefuse parseISO s) (Ok tt) s) ->
  ~ In session (filteredSessions h)
  /\ forall y m n t,
       getSessionCount h (Some (JSDate.Valid y m n t))
       = (count_on (JSDate.Day y m n) (mentoringSessions s)
          - (if Calendar.is_on parseISO (JSDate.Day y m n) session then 1 else 0))%nat
       /\ isDayWithSession h (Some (JSDate.Valid y m n t))
          = negb (count_on (JSDate.Day y m n) (mentoringSessions s)
                  - (if Calendar.is_on parseISO (JSDate.Day y m n) session then 1 else 0)
                  =? 0)%nat.
Proof.
  intros Hnd Hin Hh.
  assert (H : mentoringSessions h
              = remaining (TutorSession.id session) (mentoringSessions s)
              /\ calendarEvents h = events parseISO (mentoringSessions h)
              /\ filteredSessions h = visible (date s) (mentoringSessions h)).
  { destruct Hh as [-> | (Hdel & Hne & ->)].
    - destruct (end_session_in_current_render s (TutorSession.id session))
        as (H1 & H2 & H3 & _). auto.
    - exact (confirm_refuse_in_current_render s _ Hdel Hne). }
  destruct H as (Hl & Hc & Hf). split.
  - rewrite Hf, Hl. intros Hv. apply visible_incl in Hv.
    now apply remaining_absent in Hv.
  - intros y m n t.
    rewrite <- (count_on_remaining _ _ _ Hnd Hin), <- Hl.
    exact (counts_of_calendar parseISO _ h y m n t Hc).
Qed.

End Delete.

(** C5 (the code departs from it). Two chat sessions [A] and [B] on 10 May.
    The mentor starts [A] (the toast keeps [handleEndSession] of that
    render), refuses [B] and confirms, then ends [A] from the toast.  The
    refusal leaves the list [[A]] with a count of 1 for the day; ending [A]
    empties the list, but the calendar is rebuilt from the list of the
    render that raised the toast, without [A]: the day keeps a count of 1
    and is still a day with a session. *)
Theorem C5_end_session_from_toast_keeps_count :
  let events :=
    [ MentorMentoria.Fetched (Async.Ok [Samples.sessionA; Samples.sessionB]);
      MentorMentoria.ClickStart Samples.sessionA;
      MentorMentoria.ClickRefuse "B";
      MentorMentoria.ClickConfirmRefuse (Async.Ok tt) ] in
  let before :=
    MentorMentoria.play Samples.parseISO (Some "m1")
      (MentorMentoria.initial Samples.may10, []) events in
  let after :=
    MentorMentoria.dispatch Samples.parseISO (Some "m1") before
      (MentorMentoria.ClickToastAction 0 (Async.Ok tt)) in
  MentorMentoria.mentoringSessions (fst before) = [Samples.sessionA]
  /\ MentorMentoria.getSessionCount (fst before) (Some Samples.may10) = 1%nat
  /\ MentorMentoria.mentoringSessions (fst after) = []
  /\ MentorMentoria.filteredSessions (fst after) = []
  /\ MentorMentoria.getSessionCount (fst after) (Some Samples.may10) = 1%nat
  /\ MentorMentoria.isDayWithSession (fst after) (Some Samples.may10) = true.
Proof. vm_compute. repeat split. Qed.

(* ===================================================================== *)
(** * Properties: chat-list reconciliation *)
(* ===================================================================== *)

Section FirstWins.
Import Reconcile.

(** ** The map: a key is added once, at the end *)

Lemma set_absent k v m : Chat.has k m = false -> Chat.set k v m = m ++ [(k, v)].
Proof.
  unfold Chat.has. induction m as [|[k' v'] m IH]; simpl; [reflexivity|].
  destruct (String.eqb_spec k' k); simpl; [discriminate|].
  intros H. now rewrite IH.
Qed.

Lemma has_absent_filter k m : Chat.has k m = false -> filter (key_is k) m = [].
Proof.
  unfold Chat.has, key_is. induction m as [|e m IH]; simpl; [reflexivity|].
  destruct (fst e =? k); simpl; [discriminate | exact IH].
Qed.

Lemma has_single k k' v : Chat.has k [(k', v)] = (k' =? k).
Proof. unfold Chat.has. simpl. apply orb_false_r. Qed.

Lemma filter_single k k' v :
  filter (key_is k) [(k', v)] = if k' =? k then [(k', v)] else [].
Proof. reflexivity. Qed.

Lemma has_app k m m' : Chat.has k (m ++ m') = Chat.has k m || Chat.has k m'.
Proof. unfold Chat.has. apply existsb_app. Qed.

(** ** Sorting permutes *)

Lemma insert_perm x l : Permutation (Chat.insert x l) (x :: l).
Proof.
  induction l as [|y l IH]; simpl; [reflexivity|].
  destruct (Chat.compare x y <=? 0)%Z; [reflexivity|].
  rewrite IH. apply perm_swap.
Qed.

Lemma sort_perm l : Permutation (Chat.sort l) l.
Proof.
  induction l as [|x l IH]; simpl; [reflexivity|].
  rewrite insert_perm. now constructor.
Qed.

Lemma filter_perm {A} (f : A -> bool) l l' :
  Permutation l l' -> Permutation (filter f l) (filter f l').
Proof.
  induction 1 as [|x l l' _ IH|x y l|l l' l'' _ IH1 _ IH2]; simpl.
  - reflexivity.
  - destruct (f x); [now constructor | exact IH].
  - destruct (f x), (f y); try reflexivity. apply perm_swap.
  - now transitivity (filter f l').
Qed.

Lemma records_for_sort cid l r :
  records_for cid l = [r] -> records_for cid (Chat.sort l) = [r].
Proof.
  intros H. apply Permutation_length_1_inv. rewrite <- H.
  apply filter_perm. symmetry. apply sort_perm.
Qed.

Lemma records_for_sort_nil cid l :
  records_for cid l = [] -> records_for cid (Chat.sort l) = [].
Proof.
  intros H. apply Permutation_nil. rewrite <- H.
  apply filter_perm. symmetry. apply sort_perm.
Qed.

(** ** One pass over the messages *)

Variable Acc : Type.
Variable mapOf : Acc -> Chat.Map.
Variable party : Message.t -> option User.t.
Variable step : Acc -> Message.t -> Acc.

(** A round leaves the map alone, or appends the summary of the message's
    other party when that party has no entry yet. *)
Hypothesis step_spec : forall acc message,
  match party message with
  | None => mapOf (step acc message) = mapOf acc
  | Some u =>
      if Chat.has (User.id u) (mapOf acc)
      then mapOf (step acc message) = mapOf acc
      else exists r,
             mapOf (step acc message) = mapOf acc ++ [(User.id u, r)]
             /\ Chat.id r = User.id u
             /\ Chat.lastMessage r = Some (Message.content message)
             /\ Chat.unread r = false
  end.

Lemma fold_keyed messages : forall acc,
  Forall keyed (mapOf acc) ->
  Forall keyed (mapOf (fold_left step messages acc)).
Proof.
  induction messages as [|message messages IH]; intros acc H; [exact H|].
  simpl. apply IH. pose proof (step_spec acc message) as S.
  destruct (party message) as [u|]; [|now rewrite S].
  destruct (Chat.has (User.id u) (mapOf acc)); [now rewrite S|].
  destruct S as (r & -> & Hid & _). apply Forall_app. split; [exact H|].
  constructor; [exact Hid | constructor].
Qed.

Lemma fold_unread messages : forall acc,
  Forall (fun e => Chat.unread (snd e) = false) (mapOf acc) ->
  Forall (fun e => Chat.unread (snd e) = false) (mapOf (fold_left step messages acc)).
Proof.
  induction messages as [|message messages IH]; intros acc H; [exact H|].
  simpl. apply IH. pose proof (step_spec acc message) as S.
  destruct (party message) as [u|]; [|now rewrite S].
  destruct (Chat.has (User.id u) (mapOf acc)); [now rewrite S|].
  destruct S as (r & -> & _ & _ & Hu). apply Forall_app. split; [exact H|].
  constructor; [exact Hu | constructor].
Qed.

(** An id already in the map keeps its entries; an id not yet in it gets
    one entry, from the first message that involves it. *)
Lemma fold_first_wins cid messages : forall acc,
  (Chat.has cid (mapOf acc) = true ->
   filter (key_is cid) (mapOf (fold_left step messages acc))
   = filter (key_is cid) (mapOf acc))
  /\ (Chat.has cid (mapOf acc) = false ->
      match first_involving party cid messages with
      | Some first =>
          exists r,
            filter (key_is cid) (mapOf (fold_left step messages acc)) = [(cid, r)]
            /\ Chat.lastMessage r = Some (Message.content first)
      | None => filter (key_is cid) (mapOf (fold_left step messages acc)) = []
      end).
Proof.
  unfold first_involving.
  induction messages as [|message messages IH]; intros acc.
  - simpl. split; [reflexivity | apply has_absent_filter].
  - simpl. destruct (IH (step acc message)) as [IHin IHout].
    pose proof (step_spec acc message) as S. unfold involves at 1.
    destruct (party message) as [u|].
    + destruct (Chat.has (User.id u) (mapOf acc)) eqn:Hu.
      * rewrite S in IHin, IHout. split; [exact IHin|].
        intros Hc. destruct (String.eqb_spec (User.id u) cid) as [E|_];
          [congruence | now apply IHout].
      * destruct S as (r & S & Hid & Hlast & _). rewrite S in IHin, IHout.
        rewrite has_app, has_single in IHin, IHout.
        rewrite filter_app, filter_single in IHin.
        destruct (String.eqb_spec (User.id u) cid) as [E|Hne].
        -- subst cid. split; [congruence|]. intros Hc.
           exists r. split; [|exact Hlast].
           rewrite IHin by apply orb_true_r.
           now rewrite (has_absent_filter _ _ Hc).
        -- rewrite app_nil_r, orb_false_r in *. split; assumption.
    + rewrite S in IHin, IHout. split; assumption.
Qed.

Lemma has_absent_keys k (m : Chat.Map) : Chat.has k m = false -> ~ In k (map fst m).
Proof.
  unfold Chat.has. induction m as [|e m IH]; simpl; [tauto|].
  destruct (String.eqb_spec (fst e) k); simpl; [discriminate|].
  intros H [E | Hin]; [contradiction | now apply IH].
Qed.

Lemma fold_keys_nodup messages : forall acc,
  NoDup (map fst (mapOf acc)) ->
  NoDup (map fst (mapOf (fold_left step messages acc))).
Proof.
  induction messages as [|message messages IH]; intros acc H; [exact H|].
  simpl. apply IH. pose proof (step_spec acc message) as S.
  destruct (party message) as [u|]; [|now rewrite S].
  destruct (Chat.has (User.id u) (mapOf acc)) eqn:Hu; [now rewrite S|].
  destruct S as (r & -> & _). rewrite map_app. simpl.
  apply NoDup_app; [exact H | constructor; [tauto | constructor] |].
  intros a Ha [<- | []]. exact (has_absent_keys _ _ Hu Ha).
Qed.

End FirstWins.

Section Reconciliation.
Import Reconcile.

Lemma records_values cid (m : Chat.Map) :
  Forall keyed m ->
  records_for cid (Chat.values m) = map snd (filter (key_is cid) m).
Proof.
  unfold records_for, Chat.values, key_is, keyed.
  induction 1 as [|e m He _ IH]; [reflexivity|].
  simpl. rewrite He. destruct (fst e =? cid); simpl; now rewrite IH.
Qed.

Lemma find_of_In {A} (f : A -> bool) l x :
  In x l -> f x = true -> exists y, find f l = Some y.
Proof.
  induction l as [|z l IH]; [contradiction|].
  intros [-> | Hin] Hx; simpl.
  - rewrite Hx. eauto.
  - destruct (f z); eauto.
Qed.

(** ** The mentor's page *)

Lemma student_of_role message u :
  MentorMessages.student_of message = Some u ->
  UserRole_eqb (User.role u) ESTUDANTE = true.
Proof.
  unfold MentorMessages.student_of.
  destruct (UserRole_eqb (User.role (Message.remetente message)) ESTUDANTE) eqn:E1.
  - now intros [= <-].
  - destruct (UserRole_eqb (User.role (Message.destinatario message)) ESTUDANTE) eqn:E2;
      [now intros [= <-] | discriminate].
Qed.

Lemma mentor_step_spec (acc : Chat.Map) message :
  match MentorMessages.student_of message with
  | None => MentorMessages.add_message acc message = acc
  | Some u =>
      if Chat.has (User.id u) acc
      then MentorMessages.add_message acc message = acc
      else exists r,
             MentorMessages.add_message acc message = acc ++ [(User.id u, r)]
             /\ Chat.id r = User.id u
             /\ Chat.lastMessage r = Some (Message.content message)
             /\ Chat.unread r = false
  end.
Proof.
  unfold MentorMessages.add_message.
  destruct (MentorMessages.student_of message) as [u|] eqn:E; [|reflexivity].
  rewrite (student_of_role _ _ E).
  destruct (Chat.has (User.id u) acc) eqn:H; simpl; [reflexivity|].
  eexists. split; [apply set_absent; exact H | repeat split].
Qed.

Lemma mentor_map_keyed receivedMessages sentMessages :
  Forall keyed (MentorMessages.studentMap receivedMessages sentMessages).
Proof.
  unfold MentorMessages.studentMap.
  apply (fold_keyed Chat.Map (fun m => m) _ _ mentor_step_spec). constructor.
Qed.

Lemma mentor_summary receivedMessages sentMessages cid :
  match first_involving MentorMessages.student_of cid
          (MentorMessages.allMessages receivedMessages sentMessages) with
  | Some first =>
      exists r,
        records_for cid (MentorMessages.studentsWithChatsList receivedMessages sentMessages)
          = [r]
        /\ Chat.lastMessage r = Some (Message.content first)
  | None =>
      records_for cid (MentorMessages.studentsWithChatsList receivedMessages sentMessages)
        = []
  end.
Proof.
  pose proof (proj2 (fold_first_wins Chat.Map (fun m => m) _ _ mentor_step_spec cid
                       (MentorMessages.allMessages receivedMessages sentMessages) [])
                    eq_refl) as H.
  fold (MentorMessages.studentMap receivedMessages sentMessages) in H.
  unfold MentorMessages.studentsWithChatsList.
  destruct (first_involving MentorMessages.student_of cid
              (MentorMessages.allMessages receivedMessages sentMessages)) as [first|].
  - destruct H as (r & Hf & Hlast). exists r. split; [|exact Hlast].
    apply records_for_sort.
    rewrite (records_values _ _ (mentor_map_keyed _ _)), Hf. reflexivity.
  - apply records_for_sort_nil.
    rewrite (records_values _ _ (mentor_map_keyed _ _)), H. reflexivity.
Qed.

(** ** The student's page *)

Lemma mentor_of_role message u :
  StudentMessages.mentor_of message = Some u ->
  UserRole_eqb (User.role u) MENTOR = true.
Proof.
  unfold StudentMessages.mentor_of.
  destruct (UserRole_eqb (User.role (Message.remetente message)) MENTOR) eqn:E1.
  - now intros [= <-].
  - destruct (UserRole_eqb (User.role (Message.destinatario message)) MENTOR) eqn:E2;
      [now intros [= <-] | discriminate].
Qed.

Lemma student_step_spec clock (acc : Chat.Map * nat) message :
  match StudentMessages.mentor_of message with
  | None => fst (StudentMessages.add_message clock acc message) = fst acc
  | Some u =>
      if Chat.has (User.id u) (fst acc)
      then fst (StudentMessages.add_message clock acc message) = fst acc
      else exists r,
             fst (StudentMessages.add_message clock acc message)
             = fst acc ++ [(User.id u, r)]
             /\ Chat.id r = User.id u
             /\ Chat.lastMessage r = Some (Message.content message)
             /\ Chat.unread r = false
  end.
Proof.
  unfold StudentMessages.add_message. destruct acc as [m tick].
  destruct (StudentMessages.mentor_of message) as [u|] eqn:E; [|reflexivity].
  rewrite (mentor_of_role _ _ E). simpl.
  destruct (Chat.has (User.id u) m) eqn:H; simpl; [reflexivity|].
  eexists. split; [apply set_absent; exact H | repeat split].
Qed.

Lemma student_map_keyed clock receivedMessages sentMessages :
  Forall keyed (StudentMessages.mentorMap clock receivedMessages sentMessages).
Proof.
  unfold StudentMessages.mentorMap.
  apply (fold_keyed _ fst _ _ (student_step_spec clock)). constructor.
Qed.

Lemma student_summary clock receivedMessages sentMessages cid :
  match first_involving StudentMessages.mentor_of cid
          (StudentMessages.allMessages receivedMessages sentMessages) with
  | Some first =>
      exists r,
        records_for cid
          (StudentMessages.mentorsWithChatsList clock receivedMessages sentMessages) = [r]
        /\ Chat.lastMessage r = Some (Message.content first)
  | None =>
      records_for cid
        (StudentMessages.mentorsWithChatsList clock receivedMessages sentMessages) = []
  end.
Proof.
  pose proof (proj2 (fold_first_wins _ fst _ _ (student_step_spec clock) cid
                       (StudentMessages.allMessages receivedMessages sentMessages)
                       ([], O))
                    eq_refl) as H.
  fold (StudentMessages.mentorMap clock receivedMessages sentMessages) in H.
  unfold StudentMessages.mentorsWithChatsList.
  destruct (first_involving StudentMessages.mentor_of cid
              (StudentMessages.allMessages receivedMessages sentMessages)) as [first|].
  - destruct H as (r & Hf & Hlast). exists r. split; [|exact Hlast].
    apply records_for_sort.
    rewrite (records_values _ _ (student_map_keyed _ _ _)), Hf. reflexivity.
  - apply records_for_sort_nil.
    rewrite (records_values _ _ (student_map_keyed _ _ _)), H. reflexivity.
Qed.

(** C1 (amended). For a counterpart id that occurs among the received and
    sent messages, each page produces exactly one summary record, and its
    [lastMessage] is the content of the first message involving that
    counterpart in the order the page walks the messages: on the mentor's
    page the reverse of received-then-sent, on the student's page
    received-then-sent. *)
Theorem C1_first_message_in_walk_order
    (clock : nat -> Z) (receivedMessages sentMessages : list Message.t)
    (cid : string) :
  ((exists message,
      In message (receivedMessages ++ sentMessages)
      /\ involves MentorMessages.student_of cid message = true) ->
   exists first r,
     first_involving MentorMessages.student_of cid
       (rev (receivedMessages ++ sentMessages)) = Some first
     /\ records_for cid
          (MentorMessages.studentsWithChatsList receivedMessages sentMessages) = [r]
     /\ Chat.lastMessage r = Some (Message.content first))
  /\ ((exists message,
         In message (receivedMessages ++ sentMessages)
         /\ involves StudentMessages.mentor_of cid message = true) ->
      exists first r,
        first_involving StudentMessages.mentor_of cid
          (receivedMessages ++ sentMessages) = Some first
        /\ records_for cid
             (StudentMessages.mentorsWithChatsList clock receivedMessages sentMessages)
           = [r]
        /\ Chat.lastMessage r = Some (Message.content first)).
Proof.
  split; intros (message & Hin & Hinv).
  - pose proof (mentor_summary receivedMessages sentMessages cid) as H.
    unfold MentorMessages.allMessages in H.
    destruct (find_of_In _ (rev (receivedMessages ++ sentMessages)) message
                (proj1 (in_rev _ _) Hin) Hinv) as [first Hfirst].
    unfold first_involving in *. rewrite Hfirst in H.
    destruct H as (r & Hr & Hlast). now exists first, r.
  - pose proof (student_summary clock receivedMessages sentMessages cid) as H.
    unfold StudentMessages.allMessages in H.
    destruct (find_of_In _ (receivedMessages ++ sentMessages) message Hin Hinv)
      as [first Hfirst].
    unfold first_involving in *. rewrite Hfirst in H.
    destruct H as (r & Hr & Hlast). now exists first, r.
Qed.

End Reconciliation.

(** C1 as worded fails on both pages.  Student [s1] received ["x"] from
    mentor [m1] and sent ["y"]: the summary shows ["x"], the received
    message.  Mentor [m1] sent ["a"] then ["b"] to [s1]: the summary shows
    ["b"]. *)
Lemma C1_sent_then_received_counterexample :
  ~ Reconcile.sent_then_received_student /\ ~ Reconcile.sent_then_received_mentor.
Proof.
  split; intros H.
  - destruct (H (fun _ => 0%Z)
                [Samples.msg Samples.mentor1 Samples.student1 "x"]
                [Samples.msg Samples.student1 Samples.mentor1 "y"]
                "m1" (Samples.msg Samples.student1 Samples.mentor1 "y") eq_refl)
      as (r & Hr & Hlast).
    vm_compute in Hr. injection Hr as <-. discriminate Hlast.
  - destruct (H []
                [ Samples.msg Samples.mentor1 Samples.student1 "a";
                  Samples.msg Samples.mentor1 Samples.student1 "b" ]
                "s1" (Samples.msg Samples.mentor1 Samples.student1 "a") eq_refl)
      as (r & Hr & Hlast).
    vm_compute in Hr. injection Hr as <-. discriminate Hlast.
Qed.

Lemma C1_first_message_in_walk_order_witness :
  exists first r,
    Reconcile.first_involving StudentMessages.mentor_of "m1"
      ([Samples.msg Samples.mentor1 Samples.student1 "x"]
       ++ [Samples.msg Samples.student1 Samples.mentor1 "y"]) = Some first
    /\ Reconcile.records_for "m1"
         (StudentMessages.mentorsWithChatsList (fun _ => 0%Z)
            [Samples.msg Samples.mentor1 Samples.student1 "x"]
            [Samples.msg Samples.student1 Samples.mentor1 "y"]) = [r]
    /\ Chat.lastMessage r = Some (Message.content first).
Proof.
  apply (proj2 (C1_first_message_in_walk_order (fun _ => 0%Z)
                  [Samples.msg Samples.mentor1 Samples.student1 "x"]
                  [Samples.msg Samples.student1 Samples.mentor1 "y"] "m1")).
  exists (Samples.msg Samples.mentor1 Samples.student1 "x").
  split; [left; reflexivity | reflexivity].
Defined.

(* ===================================================================== *)
(** * Properties: the two lists of a message page *)
(* ===================================================================== *)

Section Lists.
Import Partition Reconcile.

Lemma unread_free_without k l : unread_free l -> unread_free (Chat.without k l).
Proof.
  unfold unread_free, Chat.without. rewrite !Forall_forall.
  intros H c Hc. apply H. now apply filter_In in Hc.
Qed.

Lemma unread_free_sort l : unread_free l -> unread_free (Chat.sort l).
Proof.
  unfold unread_free. apply Permutation_Forall. symmetry. apply sort_perm.
Qed.

Lemma ids_without k l k' :
  In k' (Chat.ids (Chat.without k l)) -> In k' (Chat.ids l) /\ k' <> k.
Proof.
  unfold Chat.ids, Chat.without. rewrite !in_map_iff.
  intros (c & <- & Hc). apply filter_In in Hc. destruct Hc as [Hin Hne].
  split; [now exists c|]. intros E. rewrite E, String.eqb_refl in Hne. discriminate.
Qed.

Lemma nodup_ids_without k l : NoDup (Chat.ids l) -> NoDup (Chat.ids (Chat.without k l)).
Proof.
  unfold Chat.ids, Chat.without. induction l as [|c l IH]; simpl; [tauto|].
  intros H. inversion H as [|? ? Hc Hl]; subst.
  destruct (negb (Chat.id c =? k)); simpl; [|now apply IH].
  constructor; [|now apply IH].
  rewrite in_map_iff. intros (c' & E & Hc'). apply filter_In in Hc'.
  apply Hc. rewrite in_map_iff. exists c'. tauto.
Qed.

Lemma ids_has_false l k : Chat.ids_has l k = false -> ~ In k (Chat.ids l).
Proof.
  unfold Chat.ids_has, Chat.ids. induction l as [|c l IH]; simpl; [tauto|].
  destruct (String.eqb_spec (Chat.id c) k); simpl; [discriminate|].
  intros H [E | Hin]; [contradiction | now apply IH].
Qed.

Lemma ids_sort l : Permutation (Chat.ids (Chat.sort l)) (Chat.ids l).
Proof. unfold Chat.ids. apply Permutation_map, sort_perm. Qed.

Lemma ids_values (m : Chat.Map) : Forall keyed m -> Chat.ids (Chat.values m) = map fst m.
Proof.
  unfold Chat.ids, Chat.values, keyed. induction 1 as [|e m He _ IH]; [reflexivity|].
  simpl. now rewrite He, IH.
Qed.

Lemma unread_free_values (m : Chat.Map) :
  Forall (fun e => Chat.unread (snd e) = false) m -> unread_free (Chat.values m).
Proof.
  unfold unread_free, Chat.values. induction 1; simpl; constructor; assumption.
Qed.

Lemma unread_free_roster (users : list User.t) : unread_free (map Chat.of_user users).
Proof. unfold unread_free. induction users; simpl; constructor; auto. Qed.

(** ** What reconciliation produces *)

Lemma mentor_with_unread_free received sent :
  unread_free (MentorMessages.studentsWithChatsList received sent).
Proof.
  apply unread_free_sort, unread_free_values.
  apply (fold_unread Chat.Map (fun m => m) _ _ mentor_step_spec). constructor.
Qed.

Lemma mentor_with_nodup received sent :
  NoDup (Chat.ids (MentorMessages.studentsWithChatsList received sent)).
Proof.
  unfold MentorMessages.studentsWithChatsList.
  apply (Permutation_NoDup (Permutation_sym (ids_sort _))).
  rewrite (ids_values _ (mentor_map_keyed received sent)).
  apply (fold_keys_nodup Chat.Map (fun m => m) _ _ mentor_step_spec). constructor.
Qed.

Lemma mentor_without_disjoint withChats allStudents k :
  In k (Chat.ids (MentorMessages.studentsWithoutChatsList withChats allStudents)) ->
  ~ In k (Chat.ids withChats).
Proof.
  unfold MentorMessages.studentsWithoutChatsList, Chat.ids.
  rewrite map_map. simpl. rewrite in_map_iff. intros (u & <- & Hu).
  apply filter_In in Hu. destruct Hu as [_ Hu].
  apply andb_true_iff in Hu. destruct Hu as [_ Hu].
  apply ids_has_false. now destruct (Chat.ids_has withChats (User.id u)).
Qed.

Lemma mentor_without_nodup withChats allStudents :
  NoDup (map User.id allStudents) ->
  NoDup (Chat.ids (MentorMessages.studentsWithoutChatsList withChats allStudents)).
Proof.
  unfold MentorMessages.studentsWithoutChatsList, Chat.ids.
  rewrite map_map. simpl. induction allStudents as [|u l IH]; simpl; [tauto|].
  intros H. inversion H as [|? ? Hu Hl]; subst.
  destruct (UserRole_eqb (User.role u) ESTUDANTE
            && negb (Chat.ids_has withChats (User.id u))); simpl; [|now apply IH].
  constructor; [|now apply IH].
  rewrite in_map_iff. intros (u' & E & Hu'). apply filter_In in Hu'.
  apply Hu. rewrite in_map_iff. exists u'. tauto.
Qed.

Lemma student_with_unread_free clock received sent :
  unread_free (StudentMessages.mentorsWithChatsList clock received sent).
Proof.
  apply unread_free_sort, unread_free_values.
  apply (fold_unread _ fst _ _ (student_step_spec clock)). constructor.
Qed.

Lemma student_with_nodup clock received sent :
  NoDup (Chat.ids (StudentMessages.mentorsWithChatsList clock received sent)).
Proof.
  unfold StudentMessages.mentorsWithChatsList.
  apply (Permutation_NoDup (Permutation_sym (ids_sort _))).
  rewrite (ids_values _ (student_map_keyed clock received sent)).
  apply (fold_keys_nodup _ fst _ _ (student_step_spec clock)). constructor.
Qed.

Lemma student_available_disjoint withChats response k :
  In k (Chat.ids (StudentMessages.availableMentorsList withChats response)) ->
  ~ In k (Chat.ids withChats).
Proof.
  unfold StudentMessages.availableMentorsList, Chat.ids.
  rewrite map_map. simpl. rewrite in_map_iff. intros (u & <- & Hu).
  apply filter_In in Hu. destruct Hu as [_ Hu].
  apply ids_has_false. now destruct (Chat.ids_has withChats (User.id u)).
Qed.

End Lists.

Section MentorPage.
Import Async Partition MentorMessages.
Variable mentorId : option string.

(** The mount effect leaves the selection alone; the lists are kept, or
    replaced by what reconciliation produces. *)
Lemma mentor_mount_state r s :
  let s' := run (mount mentorId r) s in
  selectedStudent s' = selectedStudent s
  /\ ((studentsWithChats s' = studentsWithChats s
       /\ studentsWithoutChats s' = studentsWithoutChats s)
      \/ exists received sent allStudents,
           studentsWithChats s' = studentsWithChatsList received sent
           /\ studentsWithoutChats s'
              = studentsWithoutChatsList (studentsWithChatsList received sent)
                                         allStudents).
Proof.
  unfold mount. destruct (JS.truthy mentorId); [|simpl; auto].
  destruct r as [[[received sent] allStudents]|]; [|simpl; auto].
  unfold fetchData.
  destruct ((length (studentsWithChatsList received sent) =? 0)%nat
            && (length (studentsWithoutChatsList (studentsWithChatsList received sent)
                          allStudents) =? 0)%nat);
    simpl; (split; [reflexivity | right; eauto]).
Qed.

(** The continuation of a send does nothing to the lists, or moves the
    counterpart selected in its render to the head of the first list. *)
Lemma mentor_resume_state f r s :
  let s' := run (resume mentorId f r) s in
  s' = s
  \/ exists selected moved,
       selectedStudent (closure f) = Some selected
       /\ Chat.id moved = Chat.id selected
       /\ Chat.unread moved = false
       /\ selectedStudent s' = Some moved
       /\ studentsWithChats s'
          = moved :: Chat.without (Chat.id selected) (studentsWithChats s)
       /\ studentsWithoutChats s'
          = Chat.without (Chat.id selected) (studentsWithoutChats s).
Proof.
  unfold resume, handleSendMessage.
  destruct (selectedStudent (closure f)) as [selected|]; [|now left].
  destruct mentorId as [m|]; [|now left].
  destruct (JS.truthy_str m); simpl; [|now left].
  destruct r; simpl; [|left; now destruct s].
  right.
  exists selected,
    (Chat.mk (Chat.id selected) (Chat.name selected) (Chat.avatar selected)
             (Some (content f)) (Some (now f)) false).
  repeat split.
Qed.

Lemma mentor_inv_initial : mentor_inv (initial, []).
Proof.
  repeat split; simpl; try constructor; try discriminate. intros k [].
Qed.

Lemma mentor_inv_step w w' : mentor_inv w -> step mentorId w w' -> mentor_inv w'.
Proof.
  intros (Hw & Hwo & Hsel & [Hnd Hdis] & Hfl) Hstep.
  destruct Hstep as [s fl r _ | s fl student Hin | s fl student Hin | s fl | s fl q
                    | s fl content now | s fl1 f fl2 r]; simpl in *.
  - destruct (mentor_mount_state r s) as [Es [[Ew Ewo] | (rc & st & al & Ew & Ewo)]];
      unfold mentor_inv; simpl; rewrite Es, Ew, Ewo.
    + repeat split; assumption.
    + repeat split; try assumption.
      * apply mentor_with_unread_free.
      * apply unread_free_roster.
      * apply mentor_with_nodup.
      * intros k Hk Hk'. exact (mentor_without_disjoint _ _ _ Hk' Hk).
  - unfold mentor_inv; simpl. repeat split; try assumption.
    intros c [= <-]. apply in_app_or in Hin.
    unfold unread_free in *. rewrite Forall_forall in Hw, Hwo.
    destruct Hin; auto.
  - unfold mentor_inv; simpl. repeat split; try assumption.
    intros c [= <-]. unfold unread_free in *. rewrite Forall_forall in Hwo. auto.
  - unfold mentor_inv; simpl. repeat split; assumption.
  - unfold mentor_inv; simpl. repeat split; assumption.
  - assert (Es : run match handleSendMessage s mentorId content now with
                     | Return acts _ => acts
                     | Await pre _ _ => pre
                     end s = s).
    { unfold handleSendMessage.
      destruct (selectedStudent s), mentorId as [m|]; try reflexivity.
      destruct (JS.truthy_str m); reflexivity. }
    unfold mentor_inv; simpl. rewrite Es. repeat split; try assumption.
    destruct (handleSendMessage s mentorId content now); [assumption|].
    apply Forall_app. split; [assumption|]. constructor; [exact Hsel | constructor].
  - apply Forall_app in Hfl. destruct Hfl as [Hfl1 Hfl2].
    inversion Hfl2 as [|? ? Hf Hfl2']; subst.
    assert (Hfl' : Forall (fun f => selection_read (selectedStudent (closure f)))
                          (fl1 ++ fl2)) by (apply Forall_app; now split).
    destruct (mentor_resume_state f r s)
      as [E | (selected & moved & Hcl & Hid & Hur & Es & Ew & Ewo)];
      unfold mentor_inv; simpl.
    + rewrite E. repeat split; assumption.
    + rewrite Es, Ew, Ewo. repeat split; try assumption.
      * constructor; [exact Hur | now apply unread_free_without].
      * now apply unread_free_without.
      * now intros c [= <-].
      * simpl. rewrite Hid. constructor; [|now apply nodup_ids_without].
        intros Hk. now apply ids_without in Hk.
      * simpl. rewrite Hid. intros k [<- | Hk] Hk'.
        -- now apply ids_without in Hk'.
        -- apply ids_without in Hk, Hk'. exact (Hdis k (proj1 Hk) (proj1 Hk')).
Qed.

Lemma mentor_inv_reachable w : reachable mentorId w -> mentor_inv w.
Proof.
  induction 1 as [|w w' _ IH Hstep]; [exact mentor_inv_initial|].
  exact (mentor_inv_step _ _ IH Hstep).
Qed.

(** On the mentor's page no counterpart is ever in both lists or twice in
    the "with chats" list, whatever sends overlap. *)
Lemma mentor_partitioned w :
  reachable mentorId w ->
  partitioned (studentsWithChats (fst w)) (studentsWithoutChats (fst w)).
Proof. intros H. apply (mentor_inv_reachable w H). Qed.

(** A successful send moves the selected student to the head of the "with
    chats" list and out of the other list. *)
Lemma mentor_send_moves s f :
  closure f = s ->
  forall selected mentor,
    selectedStudent s = Some selected ->
    mentorId = Some mentor -> mentor <> "" ->
    let s' := run (resume mentorId f (Ok tt)) s in
    Chat.ids (studentsWithChats s')
    = Chat.id selected :: Chat.ids (Chat.without (Chat.id selected) (studentsWithChats s))
    /\ ~ In (Chat.id selected) (Chat.ids (studentsWithoutChats s')).
Proof.
  intros Hcl selected mentor Hsel Hm Hne. unfold resume, handleSendMessage.
  rewrite Hcl, Hsel, Hm, (truthy_nonempty _ Hne). simpl. split; [reflexivity|].
  intros Hk. now apply ids_without in Hk.
Qed.

End MentorPage.

Section StudentPage.
Import Async Partition StudentMessages.
Variable studentId : option string.

Lemma student_mount_state clk r s :
  let s' := run (mount studentId clk r) s in
  selectedMentor s' = selectedMentor s
  /\ ((mentorsWithChats s' = mentorsWithChats s
       /\ availableMentors s' = availableMentors s)
      \/ exists received sent response,
           mentorsWithChats s' = mentorsWithChatsList clk received sent
           /\ availableMentors s'
              = availableMentorsList (mentorsWithChatsList clk received sent) response).
Proof.
  unfold mount. destruct (JS.truthy studentId); [|simpl; auto].
  destruct r as [[[received sent] response]|]; [|simpl; auto].
  unfold fetchData.
  destruct ((length (mentorsWithChatsList clk received sent) =? 0)%nat
            && (length (availableMentorsList (mentorsWithChatsList clk received sent)
                          response) =? 0)%nat);
    simpl; (split; [reflexivity | right; eauto]).
Qed.

(** The continuation of a send does nothing to the lists, or puts the
    counterpart selected in its render at the head of the first list:
    beside what is there when that render had no chat with it, in place of
    its entries otherwise. *)
Lemma student_resume_state f r s :
  let s' := run (resume studentId f r) s in
  s' = s
  \/ exists selected moved shown,
       selectedMentor (closure f) = Some selected
       /\ Chat.id moved = Chat.id selected
       /\ Chat.unread moved = false
       /\ selectedMentor s' = Some shown
       /\ Chat.unread shown = Chat.unread selected
       /\ ((Chat.ids_has (mentorsWithChats (closure f)) (Chat.id selected) = false
            /\ mentorsWithChats s' = moved :: mentorsWithChats s
            /\ availableMentors s' = Chat.without (Chat.id selected) (availableMentors s))
           \/ (Chat.ids_has (mentorsWithChats (closure f)) (Chat.id selected) = true
               /\ mentorsWithChats s'
                  = moved :: Chat.without (Chat.id selected) (mentorsWithChats s)
               /\ availableMentors s' = availableMentors s)).
Proof.
  unfold resume, handleSendMessage.
  destruct (selectedMentor (closure f)) as [selected|]; [|now left].
  destruct studentId as [m|]; [|now left].
  destruct (JS.truthy_str m); simpl; [|now left].
  destruct r as [sentMessage|]; simpl; [|left; now destruct s].
  right.
  exists selected,
    (Chat.mk (Chat.id selected) (Chat.name selected) (Chat.avatar selected)
             (Some (Message.content sentMessage)) (Some (clock f 0%nat)) false),
    (Chat.mk (Chat.id selected) (Chat.name selected) (Chat.avatar selected)
             (Some (content f)) (Some (clock f 1%nat)) (Chat.unread selected)).
  change (existsb (fun m0 => Chat.id m0 =? Chat.id selected) (mentorsWithChats (closure f)))
    with (Chat.ids_has (mentorsWithChats (closure f)) (Chat.id selected)).
  destruct (Chat.ids_has (mentorsWithChats (closure f)) (Chat.id selected));
    simpl; repeat split; [right | left]; repeat split.
Qed.

Lemma student_inv_initial : student_inv (initial, []).
Proof. repeat split; simpl; try constructor; discriminate. Qed.

Lemma student_inv_step w w' : student_inv w -> step studentId w w' -> student_inv w'.
Proof.
  intros (Hw & Hwo & Hsel & Hfl) Hstep.
  destruct Hstep as [s fl clk r _ | s fl mentor Hin | s fl | s fl q
                    | s fl content clk | s fl1 f fl2 r]; simpl in *.
  - destruct (student_mount_state clk r s)
      as [Es [[Ew Ewo] | (rc & st & al & Ew & Ewo)]];
      unfold student_inv; simpl; rewrite Es, Ew, Ewo.
    + repeat split; assumption.
    + repeat split; try assumption.
      * apply student_with_unread_free.
      * apply unread_free_roster.
  - unfold student_inv; simpl. repeat split; try assumption.
    intros c [= <-]. apply in_app_or in Hin.
    unfold unread_free in *. rewrite Forall_forall in Hw, Hwo.
    destruct Hin; auto.
  - unfold student_inv; simpl. repeat split; assumption.
  - unfold student_inv; simpl. repeat split; assumption.
  - assert (Es : run match handleSendMessage s studentId content clk with
                     | Return acts _ => acts
                     | Await pre _ _ => pre
                     end s = s).
    { unfold handleSendMessage.
      destruct (selectedMentor s), studentId as [m|]; try reflexivity.
      destruct (JS.truthy_str m); reflexivity. }
    unfold student_inv; simpl. rewrite Es. repeat split; try assumption.
    destruct (handleSendMessage s studentId content clk); [assumption|].
    apply Forall_app. split; [assumption|]. constructor; [exact Hsel | constructor].
  - apply Forall_app in Hfl. destruct Hfl as [Hfl1 Hfl2].
    inversion Hfl2 as [|? ? Hf Hfl2']; subst.
    assert (Hfl' : Forall (fun f => selection_read (selectedMentor (closure f)))
                          (fl1 ++ fl2)) by (apply Forall_app; now split).
    destruct (student_resume_state f r s)
      as [E | (selected & moved & shown & Hcl & Hid & Hur & Es & Hus
               & [(_ & Ew & Ewo) | (_ & Ew & Ewo)])];
      unfold student_inv; simpl.
    + rewrite E. repeat split; assumption.
    + rewrite Es, Ew, Ewo. repeat split; try assumption.
      * constructor; assumption.
      * now apply unread_free_without.
      * intros c [= <-]. rewrite Hus. now apply Hf.
    + rewrite Es, Ew, Ewo. repeat split; try assumption.
      * constructor; [exact Hur | now apply unread_free_without].
      * intros c [= <-]. rewrite Hus. now apply Hf.
Qed.

Lemma student_inv_reachable w : reachable studentId w -> student_inv w.
Proof.
  induction 1 as [|w w' _ IH Hstep]; [exact student_inv_initial|].
  exact (student_inv_step _ _ IH Hstep).
Qed.


End StudentPage.

(** C10. In every state either message page reaches, no counterpart record
    is flagged unread: not in the "with chats" list, not in the "no chat
    yet" list, and not the selected one. *)
Theorem C10_unread_always_false :
  (forall mentorId w,
     MentorMessages.reachable mentorId w ->
     Partition.unread_free (MentorMessages.studentsWithChats (fst w))
     /\ Partition.unread_free (MentorMessages.studentsWithoutChats (fst w))
     /\ Partition.selection_read (MentorMessages.selectedStudent (fst w)))
  /\ (forall studentId w,
        StudentMessages.reachable studentId w ->
        Partition.unread_free (StudentMessages.mentorsWithChats (fst w))
        /\ Partition.unread_free (StudentMessages.availableMentors (fst w))
        /\ Partition.selection_read (StudentMessages.selectedMentor (fst w))).
Proof.
  split.
  - intros mentorId w H.
    destruct (mentor_inv_reachable mentorId w H) as (H1 & H2 & H3 & _).
    now repeat split.
  - intros studentId w H.
    destruct (student_inv_reachable studentId w H) as (H1 & H2 & H3 & _).
    now repeat split.
Qed.

Lemma C10_unread_always_false_witness :
  Partition.unread_free
    (MentorMessages.studentsWithChats
       (MentorMessages.run
          (MentorMessages.mount (Some "m1")
             (Async.Ok ([Samples.msg Samples.student1 Samples.mentor1 "oi"], [],
                        [Samples.student1; Samples.student2])))
          MentorMessages.initial)).
Proof.
  refine (proj1 (proj1 C10_unread_always_false (Some "m1")
                   (MentorMessages.run
                      (MentorMessages.mount (Some "m1")
                         (Async.Ok ([Samples.msg Samples.student1 Samples.mentor1 "oi"],
                                    [], [Samples.student1; Samples.student2])))
                      MentorMessages.initial, []) _)).
  apply (MentorMessages.reach_step _ (MentorMessages.initial, [])).
  - apply MentorMessages.reach_initial.
  - apply MentorMessages.step_mount. reflexivity.
Defined.

(** C6 (the code departs from it). On the student's page, mentor [m1] is
    available and has no chat.  The student selects [m1] and sends two
    messages before the first call returns.  Both continuations test the
    list of the render they were issued from, where [m1] has no chat, and
    both put [m1] at the head of the "with chats" list: [m1] is in it
    twice. *)
Theorem C6_overlapping_first_sends_insert_twice :
  let clk := fun n => (1000 + Z.of_nat n)%Z in
  let s0 :=
    StudentMessages.run
      (StudentMessages.mount (Some "s1") clk (Async.Ok ([], [], [Samples.mentor1])))
      StudentMessages.initial in
  let s1 := StudentMessages.run
              (StudentMessages.handleMentorSelect (Samples.chatWith Samples.mentor1)) s0 in
  let first := StudentMessages.mkInFlight s1 "oi" clk in
  let second := StudentMessages.mkInFlight s1 "tudo bem?" clk in
  let s2 :=
    StudentMessages.run
      (StudentMessages.resume (Some "s1") first
         (Async.Ok (Samples.msg Samples.student1 Samples.mentor1 "oi"))) s1 in
  let s3 :=
    StudentMessages.run
      (StudentMessages.resume (Some "s1") second
         (Async.Ok (Samples.msg Samples.student1 Samples.mentor1 "tudo bem?"))) s2 in
  StudentMessages.reachable (Some "s1") (s3, [])
  /\ Chat.ids (StudentMessages.mentorsWithChats s1) = []
  /\ Chat.ids (StudentMessages.availableMentors s1) = ["m1"]
  /\ Chat.ids (StudentMessages.mentorsWithChats s2) = ["m1"]
  /\ Chat.ids (StudentMessages.mentorsWithChats s3) = ["m1"; "m1"]
  /\ Chat.ids (StudentMessages.availableMentors s3) = []
  /\ ~ NoDup (Chat.ids (StudentMessages.mentorsWithChats s3)).
Proof.
  intros clk s0 s1 first second s2 s3.
  split; [|repeat split].
  - apply (StudentMessages.reach_step _ (s2, [second])).
    2: exact (StudentMessages.step_settle (Some "s1") s2 [] second []
                (Async.Ok (Samples.msg Samples.student1 Samples.mentor1 "tudo bem?"))).
    apply (StudentMessages.reach_step _ (s1, [first; second])).
    2: exact (StudentMessages.step_settle (Some "s1") s1 [] first [second]
                (Async.Ok (Samples.msg Samples.student1 Samples.mentor1 "oi"))).
    apply (StudentMessages.reach_step _ (s1, [first])).
    2: exact (StudentMessages.step_send (Some "s1") s1 [first] "tudo bem?" clk).
    apply (StudentMessages.reach_step _ (s1, [])).
    2: exact (StudentMessages.step_send (Some "s1") s1 [] "oi" clk).
    apply (StudentMessages.reach_step _ (s0, [])).
    2: { apply (StudentMessages.step_select (Some "s1") s0 []).
         left. reflexivity. }
    apply (StudentMessages.reach_step _ (StudentMessages.initial, [])).
    + apply StudentMessages.reach_initial.
    + apply StudentMessages.step_mount. reflexivity.
  - intros H. vm_compute in H. inversion H as [|? ? Hin _]. apply Hin. now left.
Qed.

(* ===================================================================== *)
(** * Further properties: the routes of [App] *)
(* ===================================================================== *)

Section Routes.
Import App AppRoutes.

Lemma strict_neq_false (a c : option string) :
  JS.strict_neq a c = false <-> a = c.
Proof.
  destruct a as [x|], c as [y|]; simpl; split; try discriminate; try reflexivity.
  - destruct (String.eqb_spec x y); [now intros _; subst | discriminate].
  - intros [= ->]. now rewrite String.eqb_refl.
Qed.

Lemma guard_redirects (s : State) (r : string) :
  authChecked s = true -> isAuthenticated s = true ->
  r <> "" -> userRole s <> Some r ->
  AuthWrapper s (Some r) = Navigate (getDashboardPath s).
Proof.
  intros Hc Ha Hr Hrole. unfold AuthWrapper.
  rewrite Hc, Ha, (truthy_Some r Hr), (strict_neq_Some _ r Hrole). reflexivity.
Qed.

(** The guard renders its children exactly for a checked, authenticated
    session whose role is the required one, or when no role is required. *)
Theorem guard_renders_children_iff (s : State) (requiredRole : option string) :
  AuthWrapper s requiredRole = Children
  <-> authChecked s = true
      /\ isAuthenticated s = true
      /\ (JS.truthy requiredRole = false \/ userRole s = requiredRole).
Proof.
  unfold AuthWrapper.
  destruct (authChecked s), (isAuthenticated s); simpl;
    try (split; [discriminate | intros (H1 & H2 & _); discriminate]).
  destruct (JS.truthy requiredRole); simpl.
  - destruct (JS.strict_neq (userRole s) requiredRole) eqn:E.
    + split; [discriminate|]. intros (_ & _ & [H | H]); [discriminate|].
      apply strict_neq_false in H. congruence.
    + split; [|reflexivity]. intros _. repeat split. right.
      now apply strict_neq_false.
  - split; [|reflexivity]. intros _. repeat split. now left.
Qed.

(** For a session with one of the three known roles, the path
    [getDashboardPath] yields is the root of a guarded route, and that
    route renders its children: the redirect does not bounce. *)
Theorem dashboard_redirect_lands (s : State) :
  authChecked s = true ->
  isAuthenticated s = true ->
  userRole s = Some "ESTUDANTE" \/ userRole s = Some "ADMIN" \/ userRole s = Some "MENTOR" ->
  guardedRoute s (getDashboardPath s) = Some Children
  /\ loginRoute s = Redirect (getDashboardPath s)
  /\ catchAllRoute s = Redirect (getDashboardPath s).
Proof.
  intros Hc Ha Hr. unfold guardedRoute, loginRoute, catchAllRoute, getDashboardPath,
    AuthWrapper. rewrite Hc, Ha.
  destruct Hr as [-> | [-> | ->]]; repeat split.
Qed.

Lemma dashboard_redirect_lands_witness :
  guardedRoute (mkState true true (Some "ADMIN"))
    (getDashboardPath (mkState true true (Some "ADMIN"))) = Some Children.
Proof.
  exact (proj1 (dashboard_redirect_lands (mkState true true (Some "ADMIN"))
                  eq_refl eq_refl (or_intror (or_introl eq_refl)))).
Defined.

(** An authenticated session whose role is none of the three known ones is
    sent to [/login] by every guarded route and by the catch-all, and
    [/login] itself redirects to [/login]: the login page is never shown. *)
Theorem unknown_role_never_sees_login (s : State) :
  authChecked s = true ->
  isAuthenticated s = true ->
  userRole s <> Some "ESTUDANTE" ->
  userRole s <> Some "ADMIN" ->
  userRole s <> Some "MENTOR" ->
  (forall root r, guardedRoute s root = Some r -> r = Navigate "/login")
  /\ catchAllRoute s = Redirect "/login"
  /\ loginRoute s = Redirect "/login".
Proof.
  intros Hc Ha H1 H2 H3.
  pose proof (getDashboardPath_unknown s H1 H2 H3) as Hp.
  unfold loginRoute, catchAllRoute. rewrite Hc, Ha, Hp. simpl.
  split; [|split; reflexivity].
  intros root r. unfold guardedRoute, guarded.
  assert (G : forall role, role <> "" -> userRole s <> Some role ->
                Some (AuthWrapper s (Some role)) = Some r -> r = Navigate "/login").
  { intros role Hne Hrole E. injection E as E. subst r. rewrite <- Hp.
    now apply guard_redirects. }
  cbn [find fst snd].
  destruct ("/dashboard" =? root); [apply G; [discriminate | assumption]|].
  destruct ("/admin" =? root); [apply G; [discriminate | assumption]|].
  destruct ("/mentor" =? root); [apply G; [discriminate | assumption] | discriminate].
Qed.

End Routes.

Lemma unknown_role_never_sees_login_witness :
  AppRoutes.loginRoute (App.mkState true true (Some "GUEST")) = AppRoutes.Redirect "/login".
Proof.
  refine (proj2 (proj2 (unknown_role_never_sees_login
                          (App.mkState true true (Some "GUEST")) eq_refl eq_refl _ _ _)));
    discriminate.
Defined.

Section SessionLifecycle.
Import App AppRoutes.
Variable toUpperCase : string -> string.

(** After logout every guarded route and the catch-all redirect to
    [/login], whatever role is required, and [/login] shows its page. *)
Theorem logout_locks_every_route (s : State) :
  authChecked s = true ->
  (forall requiredRole, AuthWrapper (logout s) requiredRole = Navigate "/login")
  /\ catchAllRoute (logout s) = Redirect "/login"
  /\ loginRoute (logout s) = Page.
Proof.
  intros Hc. unfold AuthWrapper, catchAllRoute, loginRoute, logout. simpl.
  rewrite Hc. repeat split.
Qed.

(** The state a successful login leaves is the one a reload reads back from
    storage, when the token stored is not empty; and the route guarded by
    the upper-cased role then renders its children. *)
Theorem login_matches_reload (s : State) (token role : string) :
  authChecked s = true ->
  token <> "" ->
  onLoginSuccess toUpperCase s role = initAuth toUpperCase (Some token) (Some role)
  /\ AuthWrapper (onLoginSuccess toUpperCase s role) (Some (toUpperCase role)) = Children.
Proof.
  intros Hc Ht. unfold onLoginSuccess, initAuth, AuthWrapper. simpl.
  rewrite Hc, (truthy_nonempty _ Ht). split; [reflexivity|]. simpl.
  rewrite String.eqb_refl. simpl. now rewrite andb_false_r.
Qed.

(** In no state [App] reaches does an authenticated user get a blank page
    from a guarded route or from [/login]. *)
Theorem authenticated_never_blank (s : State) :
  reachable toUpperCase s ->
  isAuthenticated s = true ->
  (forall requiredRole, AuthWrapper s requiredRole <> Nothing)
  /\ loginRoute s <> Blank
  /\ catchAllRoute s <> Blank.
Proof.
  intros Hr Ha. pose proof (authenticated_is_checked _ _ Hr Ha) as Hc.
  unfold AuthWrapper, loginRoute, catchAllRoute. rewrite Hc, Ha. simpl.
  repeat split; try discriminate.
  intros requiredRole.
  destruct (JS.truthy requiredRole && JS.strict_neq (userRole s) requiredRole);
    discriminate.
Qed.

End SessionLifecycle.

Lemma logout_locks_every_route_witness :
  App.AuthWrapper (App.logout (App.mkState true true (Some "MENTOR"))) (Some "MENTOR")
  = App.Navigate "/login".
Proof.
  exact (proj1 (logout_locks_every_route (App.mkState true true (Some "MENTOR")) eq_refl)
               (Some "MENTOR")).
Defined.

Lemma login_matches_reload_witness :
  App.onLoginSuccess (fun r => r) (App.initAuth (fun r => r) None None) "MENTOR"
  = App.initAuth (fun r => r) (Some "jwt") (Some "MENTOR").
Proof.
  refine (proj1 (login_matches_reload (fun r => r)
                   (App.initAuth (fun r => r) None None) "jwt" "MENTOR" eq_refl _)).
  discriminate.
Defined.

Lemma authenticated_never_blank_witness :
  AppRoutes.loginRoute (App.initAuth (fun r => r) (Some "jwt") (Some "ADMIN"))
  <> AppRoutes.Blank
  /\ AppRoutes.catchAllRoute (App.initAuth (fun r => r) (Some "jwt") (Some "ADMIN"))
     <> AppRoutes.Blank.
Proof.
  exact (proj2 (authenticated_never_blank (fun r => r)
                  (App.initAuth (fun r => r) (Some "jwt") (Some "ADMIN"))
                  (App.reach_init _ _ _) eq_refl)).
Defined.

(* ===================================================================== *)
(** * Further properties: the lesson-page pattern *)
(* ===================================================================== *)

Section LessonPage.
Import AppRoutes.
Local Open Scope string_scope.

Lemma strip_prefix_app p r : JS.strip_prefix p (p ++ r) = Some r.
Proof.
  induction p as [|a p IH]; simpl; [reflexivity|].
  now rewrite Ascii.eqb_refl.
Qed.

Lemma strip_prefix_inv p : forall s r, JS.strip_prefix p s = Some r -> s = p ++ r.
Proof.
  induction p as [|a p IH]; intros s r; simpl.
  - now intros [= ->].
  - destruct s as [|c s]; [discriminate|].
    destruct (Ascii.eqb_spec a c) as [->|]; [|discriminate].
    intros H. now rewrite (IH _ _ H).
Qed.

Definition slash_free (s : string) : Prop :=
  forall c, In c (list_ascii_of_string s) -> c <> slash.

(** [rest] is empty or begins with [/]. *)
Definition at_boundary (rest : string) : Prop :=
  rest = "" \/ exists rest', rest = String slash rest'.

Lemma segment_inv : forall s run rest,
  segment s = (run, rest) ->
  s = run ++ rest /\ slash_free run /\ at_boundary rest.
Proof.
  induction s as [|c s IH]; intros run rest; simpl.
  - intros [= <- <-]. repeat split; [intros c [] | now left].
  - destruct (Ascii.eqb_spec c slash) as [->|Hc].
    + intros [= <- <-]. repeat split; [intros c [] | right; eauto].
    + destruct (segment s) as [run' rest'] eqn:E. intros [= <- <-].
      destruct (IH _ _ eq_refl) as (-> & Hfree & Hb).
      repeat split; [|exact Hb].
      intros c' [<- | Hin]; [exact Hc | now apply Hfree].
Qed.

Lemma segment_app : forall run rest,
  slash_free run -> at_boundary rest -> segment (run ++ rest) = (run, rest).
Proof.
  induction run as [|c run IH]; intros rest Hfree Hb; simpl.
  - destruct Hb as [-> | [rest' ->]]; reflexivity.
  - destruct (Ascii.eqb_spec c slash) as [E|_].
    + exfalso. apply (Hfree c); [now left | exact E].
    + rewrite IH; [reflexivity | | exact Hb].
      intros c' Hin. apply Hfree. now right.
Qed.

Lemma append_empty_r (s : string) : s ++ "" = s.
Proof. induction s; simpl; [reflexivity | now f_equal]. Qed.

Lemma segment_whole (s : string) : slash_free s -> segment s = (s, "").
Proof.
  intros H. rewrite <- (append_empty_r s) at 1.
  apply segment_app; [exact H | now left].
Qed.

Lemma lesson_suffix_iff tail :
  lesson_suffix tail = true
  <-> tail = "" \/ exists lesson, is_segment lesson /\ tail = String slash lesson.
Proof.
  unfold is_segment. split.
  - destruct tail as [|c tail]; [now left|]. unfold lesson_suffix.
    destruct (Ascii.eqb_spec c slash) as [->|]; [|discriminate]. cbn [andb].
    destruct (segment tail) as [run rest] eqn:E.
    destruct (segment_inv _ _ _ E) as (-> & Hfree & _).
    destruct (String.eqb_spec run ""); [discriminate|].
    destruct (String.eqb_spec rest "") as [->|]; [|discriminate].
    intros _. right. exists run. split; [now split|].
    now rewrite append_empty_r.
  - intros [-> | (lesson & [Hne Hfree] & ->)]; [reflexivity|].
    unfold lesson_suffix. rewrite (segment_whole _ Hfree).
    destruct (String.eqb_spec lesson ""); [contradiction | reflexivity].
Qed.

(** The sidebar is hidden exactly on [/dashboard/cursos/C/visualizar/aulas]
    and [/dashboard/cursos/C/visualizar/aulas/L], for non-empty segments
    [C] and [L] without [/]. *)
Theorem hideSidebar_iff (pathname : string) :
  hideSidebar pathname = true
  <-> exists course,
        is_segment course
        /\ (pathname = "/dashboard/cursos/" ++ course ++ "/visualizar/aulas"
            \/ exists lesson,
                 is_segment lesson
                 /\ pathname
                    = "/dashboard/cursos/" ++ course ++ "/visualizar/aulas/" ++ lesson).
Proof.
  unfold hideSidebar, lessonPageRegex_test. split.
  - destruct (JS.strip_prefix "/dashboard/cursos/" pathname) as [s|] eqn:E1;
      [|discriminate].
    apply strip_prefix_inv in E1. subst pathname.
    destruct (segment s) as [course rest] eqn:E2.
    destruct (segment_inv _ _ _ E2) as (-> & Hfree & _).
    destruct (String.eqb_spec course ""); [discriminate|]. cbn [negb andb].
    destruct (JS.strip_prefix "/visualizar/aulas" rest) as [tail|] eqn:E3;
      [|discriminate].
    apply strip_prefix_inv in E3. subst rest.
    intros H. apply lesson_suffix_iff in H.
    exists course. split; [now split|].
    destruct H as [-> | (lesson & Hl & ->)]; [now left|].
    right. exists lesson. split; [exact Hl | reflexivity].
  - intros (course & [Hne Hfree] & H).
    assert (E : exists tail,
              lesson_suffix tail = true
              /\ pathname = "/dashboard/cursos/" ++ course ++ "/visualizar/aulas" ++ tail).
    { destruct H as [-> | (lesson & Hl & ->)].
      - exists "". split; [reflexivity|]. reflexivity.
      - exists (String slash lesson). split; [|reflexivity].
        apply lesson_suffix_iff. right. eauto. }
    destruct E as (tail & Ht & ->).
    change ("/dashboard/cursos/" ++ course ++ "/visualizar/aulas" ++ tail)
      with ("/dashboard/cursos/" ++ (course ++ ("/visualizar/aulas" ++ tail))).
    rewrite strip_prefix_app.
    rewrite segment_app; [| exact Hfree | right; eexists; reflexivity].
    destruct (String.eqb_spec course ""); [contradiction|]. cbn [negb andb].
    rewrite strip_prefix_app. exact Ht.
Qed.

End LessonPage.

(* ===================================================================== *)
(** * Further properties: the chat panel *)
(* ===================================================================== *)

Section Panel.
Import Async CourseChat CourseChatFetch.

Lemma chatMessages_content mentorId clock msgs : forall k,
  map ChatMessage.content (chatMessages mentorId clock k msgs)
  = map Message.content msgs.
Proof. induction msgs as [|m l IH]; intros k; simpl; [reflexivity | now rewrite IH]. Qed.

Lemma chatMessages_names mentorId clock msgs : forall k,
  map ChatMessage.user_name (chatMessages mentorId clock k msgs)
  = map (label mentorId) msgs.
Proof. induction msgs as [|m l IH]; intros k; simpl; [reflexivity | now rewrite IH]. Qed.

(** A successful load shows exactly the messages that have the student as
    sender or recipient, received ones before sent ones, each under "Você"
    when the stored user sent it and under its sender's name otherwise;
    what the panel showed before, an optimistic message included, is gone. *)
Theorem fetch_shows_the_conversation
    (studentId mentorId : string) (clock : nat -> Z)
    (receivedMessages sentMessages : list Message.t) (s : State) :
  let s' := run (fetchMessages studentId mentorId clock
                   (Ok (receivedMessages, sentMessages))) s in
  map ChatMessage.content (messages s')
  = map Message.content
      (filter (involves studentId) receivedMessages
       ++ filter (involves studentId) sentMessages)
  /\ map ChatMessage.user_name (messages s')
     = map (label mentorId)
         (filter (involves studentId) receivedMessages
          ++ filter (involves studentId) sentMessages)
  /\ (forall s0,
        messages (run (fetchMessages studentId mentorId clock
                         (Ok (receivedMessages, sentMessages))) s0) = messages s')
  /\ loading s' = false
  /\ newMessage s' = newMessage s.
Proof.
  simpl. unfold allMessages. rewrite filter_app.
  rewrite chatMessages_content, chatMessages_names. repeat split.
Qed.

(** A load that fails keeps the messages shown and ends the loading state;
    without a stored user id nothing is fetched, and a panel that was
    loading stays so. *)
Theorem fetch_failure_keeps_messages
    (studentId : string) (mentorId : option string) (clock : nat -> Z) (s : State) :
  (forall mentor,
     messages (run (fetchMessages studentId mentor clock Err) s) = messages s
     /\ loading (run (fetchMessages studentId mentor clock Err) s) = false)
  /\ (JS.truthy mentorId = false ->
      forall r, run (effect studentId mentorId clock r) s = s).
Proof.
  split; [intros mentor; split; reflexivity|].
  intros H r. unfold effect. destruct mentorId as [m|]; [|reflexivity].
  simpl in H. rewrite H, andb_false_r. reflexivity.
Qed.

Lemma fetch_failure_keeps_messages_witness :
  loading (run (effect "s1" None (fun _ => 0%Z) Err) CourseChatFetch.initial) = true.
Proof.
  rewrite (proj2 (fetch_failure_keeps_messages "s1" None (fun _ => 0%Z)
                    CourseChatFetch.initial) eq_refl Err).
  reflexivity.
Defined.

(** A submit that passes the guard clears the input: the send button is
    disabled again and submitting once more without typing does nothing. *)
Theorem submit_clears_input
    (cl : State) (mentorId : option string) (now : Z) pre call k :
  handleSendMessage cl mentorId now = Await pre call k ->
  forall s,
    newMessage (run pre s) = ""
    /\ messages (run pre s) = messages s ++ [optimisticMessage cl now]
    /\ send_disabled (run pre s) = true
    /\ forall now',
         handleSendMessage (run pre s) mentorId now' = Return [preventDefault] Fulfilled.
Proof.
  unfold handleSendMessage at 1.
  destruct (negb (JS.truthy_str (JS.trim (newMessage cl))) || negb (JS.truthy mentorId));
    [discriminate|].
  intros [= <- _ _] s. repeat split.
Qed.

Lemma submit_clears_input_witness :
  newMessage
    (run [ preventDefault;
           setMessages (fun prev => prev ++ [optimisticMessage Samples.panel 1000]);
           setNewMessage "" ] Samples.panel) = "".
Proof.
  exact (proj1 (submit_clears_input Samples.panel (Some "m1") 1000 _ _ _ eq_refl
                  Samples.panel)).
Defined.

End Panel.

(* ===================================================================== *)
(** * Further properties: what reconciliation lists *)
(* ===================================================================== *)

Section WalkOrder.
Import Reconcile ChatList.

Variable Acc : Type.
Variable mapOf : Acc -> Chat.Map.
Variable party : Message.t -> option User.t.
Variable step : Acc -> Message.t -> Acc.

Hypothesis step_spec : forall acc message,
  match party message with
  | None => mapOf (step acc message) = mapOf acc
  | Some u =>
      if Chat.has (User.id u) (mapOf acc)
      then mapOf (step acc message) = mapOf acc
      else exists r,
             mapOf (step acc message) = mapOf acc ++ [(User.id u, r)]
             /\ Chat.id r = User.id u
             /\ Chat.lastMessage r = Some (Message.content message)
             /\ Chat.unread r = false
  end.

Definition absent (m : Chat.Map) (k : string) : bool := negb (Chat.has k m).

Lemma filter_agree {A} (f g : A -> bool) l :
  (forall x, In x l -> f x = g x) -> filter f l = filter g l.
Proof.
  induction l as [|x l IH]; intros H; simpl; [reflexivity|].
  rewrite (H x (or_introl eq_refl)), IH; [reflexivity|].
  intros y Hy. apply H. now right.
Qed.

Lemma filter_twice {A} (f g : A -> bool) l :
  filter f (filter g l) = filter (fun x => g x && f x) l.
Proof.
  induction l as [|x l IH]; simpl; [reflexivity|].
  destruct (g x); simpl; [destruct (f x)|]; now rewrite IH.
Qed.

(** The keys of the map after the walk: those it had, then the ids of the
    walked messages' parties that it had not, each at its first occurrence. *)
Lemma fold_keys_order messages : forall acc,
  map fst (mapOf (fold_left step messages acc))
  = map fst (mapOf acc)
    ++ filter (absent (mapOf acc)) (first_occurrences (party_ids party messages)).
Proof.
  induction messages as [|message messages IH]; intros acc; simpl.
  - now rewrite app_nil_r.
  - rewrite IH. pose proof (step_spec acc message) as S.
    destruct (party message) as [u|]; [|now rewrite S].
    cbn [app first_occurrences filter]. unfold absent at 2.
    destruct (Chat.has (User.id u) (mapOf acc)) eqn:Hu; cbn [negb].
    + rewrite S. f_equal. rewrite filter_twice. apply filter_agree.
      intros k _. unfold absent.
      destruct (String.eqb_spec k (User.id u)) as [->|]; [now rewrite Hu | reflexivity].
    + destruct S as (r & -> & _). rewrite map_app, <- app_assoc. f_equal. simpl.
      f_equal. rewrite filter_twice. apply filter_agree.
      intros k _. unfold absent. rewrite has_app, has_single.
      rewrite String.eqb_sym.
      destruct (Chat.has k (mapOf acc)), (k =? User.id u); reflexivity.
Qed.

End WalkOrder.

Section ListOrder.
Import Reconcile ChatList Partition.

Lemma sort_untimed l :
  Forall (fun c => Chat.lastMessageTime c = None) l -> Chat.sort l = l.
Proof.
  induction 1 as [|c l Hc Hl IH]; [reflexivity|].
  simpl. rewrite IH. destruct l as [|d l]; [reflexivity|].
  simpl. unfold Chat.compare. rewrite Hc.
  inversion Hl as [|? ? Hd _]; subst. now rewrite Hd.
Qed.

Lemma mentor_map_untimed messages : forall m,
  Forall (fun e => Chat.lastMessageTime (snd e) = None) m ->
  Forall (fun e => Chat.lastMessageTime (snd e) = None)
         (fold_left MentorMessages.add_message messages m).
Proof.
  induction messages as [|message messages IH]; intros m H; [exact H|].
  simpl. apply IH. unfold MentorMessages.add_message.
  destruct (MentorMessages.student_of message) as [u|]; [|exact H].
  destruct (UserRole_eqb (User.role u) ESTUDANTE); [|exact H].
  destruct (Chat.has (User.id u) m) eqn:Hu; simpl; [exact H|].
  rewrite (set_absent _ _ _ Hu). apply Forall_app. split; [exact H|].
  constructor; [reflexivity | constructor].
Qed.

(** On the mentor's page the sort changes nothing (no record has a time):
    the students are listed in the order they first occur as the other
    party when the messages are walked from the last sent one backwards to
    the first received one. *)
Theorem mentor_list_order (receivedMessages sentMessages : list Message.t) :
  MentorMessages.studentsWithChatsList receivedMessages sentMessages
  = Chat.values (MentorMessages.studentMap receivedMessages sentMessages)
  /\ Chat.ids (MentorMessages.studentsWithChatsList receivedMessages sentMessages)
     = first_occurrences
         (party_ids MentorMessages.student_of
            (rev sentMessages ++ rev receivedMessages)).
Proof.
  assert (E : MentorMessages.studentsWithChatsList receivedMessages sentMessages
              = Chat.values (MentorMessages.studentMap receivedMessages sentMessages)).
  { unfold MentorMessages.studentsWithChatsList. apply sort_untimed.
    unfold Chat.values. rewrite Forall_map.
    apply mentor_map_untimed. constructor. }
  split; [exact E|].
  rewrite E, (ids_values _ (mentor_map_keyed _ _)).
  unfold MentorMessages.studentMap, MentorMessages.allMessages.
  rewrite (fold_keys_order Chat.Map (fun m => m) _ _ mentor_step_spec).
  rewrite rev_app_distr. simpl.
  induction (first_occurrences
               (party_ids MentorMessages.student_of
                  (rev sentMessages ++ rev receivedMessages))) as [|k l IH];
    simpl; [reflexivity | now f_equal].
Qed.

End ListOrder.

From Stdlib Require Import Sorting.Sorted.

Section MoreLists.
Import Async Reconcile ChatList Partition.

(** ** The sort *)

Definition before (a c : Chat.t) : Prop := (Chat.compare a c <= 0)%Z.

Lemma compare_flip a c : (Chat.compare a c > 0)%Z -> (Chat.compare c a <= 0)%Z.
Proof.
  unfold Chat.compare.
  destruct (Chat.lastMessageTime a), (Chat.lastMessageTime c); lia.
Qed.

Lemma insert_hd x l y :
  HdRel before y l -> before y x -> HdRel before y (Chat.insert x l).
Proof.
  intros Hl Hx. destruct l as [|z l]; simpl; [now constructor|].
  destruct (Chat.compare x z <=? 0)%Z; constructor; [exact Hx|].
  now inversion Hl.
Qed.

Lemma insert_sorted x l : Sorted before l -> Sorted before (Chat.insert x l).
Proof.
  induction 1 as [|y l Hs IH Hhd]; simpl; [repeat constructor|].
  destruct (Z.leb_spec (Chat.compare x y) 0) as [Hle|Hgt].
  - constructor; [now constructor | now constructor].
  - constructor; [exact IH|]. apply insert_hd; [exact Hhd|].
    apply compare_flip. lia.
Qed.

(** [sort] with the pages' comparator orders any list: a record never
    follows one it should precede, so records with a time come newest
    first and records without a time come last; and it keeps the records. *)
Theorem sort_orders_newest_first (l : list Chat.t) :
  Sorted before (Chat.sort l)
  /\ Permutation (Chat.sort l) l
  /\ forall a c rest front,
       Chat.sort l = front ++ a :: c :: rest ->
       match Chat.lastMessageTime a, Chat.lastMessageTime c with
       | Some ta, Some tc => (tc <= ta)%Z
       | None, Some _ => False
       | _, None => True
       end.
Proof.
  assert (S : Sorted before (Chat.sort l)).
  { induction l as [|x l IH]; simpl; [constructor | now apply insert_sorted]. }
  split; [exact S|]. split; [apply sort_perm|].
  intros a c rest front E. rewrite E in S. clear E.
  induction front as [|f front IH]; simpl in S.
  - inversion S as [|? ? _ Hhd]; subst. inversion Hhd as [|? ? Hac]; subst.
    unfold before, Chat.compare in Hac.
    destruct (Chat.lastMessageTime a), (Chat.lastMessageTime c); lia.
  - inversion S; subst. now apply IH.
Qed.

(** ** Who is listed *)

Lemma find_none_of_all {A} (f : A -> bool) l :
  (forall x, In x l -> f x = false) -> find f l = None.
Proof.
  induction l as [|x l IH]; intros H; simpl; [reflexivity|].
  rewrite (H x (or_introl eq_refl)). apply IH. intros y Hy. apply H. now right.
Qed.

(** A counterpart that no received or sent message involves has no
    summary record, on either page. *)
Theorem no_record_without_message
    (clock : nat -> Z) (receivedMessages sentMessages : list Message.t)
    (cid : string) :
  ((forall message, In message (receivedMessages ++ sentMessages) ->
      involves MentorMessages.student_of cid message = false) ->
   records_for cid (MentorMessages.studentsWithChatsList receivedMessages sentMessages)
   = [])
  /\ ((forall message, In message (receivedMessages ++ sentMessages) ->
         involves StudentMessages.mentor_of cid message = false) ->
      records_for cid
        (StudentMessages.mentorsWithChatsList clock receivedMessages sentMessages) = []).
Proof.
  split; intros H.
  - pose proof (mentor_summary receivedMessages sentMessages cid) as S.
    unfold first_involving, MentorMessages.allMessages in S.
    rewrite find_none_of_all in S; [exact S|].
    intros x Hx. apply H. now apply in_rev.
  - pose proof (student_summary clock receivedMessages sentMessages cid) as S.
    unfold first_involving, StudentMessages.allMessages in S.
    rewrite find_none_of_all in S; [exact S | exact H].
Qed.

Lemma ids_has_true l k : Chat.ids_has l k = true -> In k (Chat.ids l).
Proof.
  unfold Chat.ids_has, Chat.ids. intros H. apply existsb_exists in H.
  destruct H as (c & Hc & E). apply String.eqb_eq in E. subst k. now apply in_map.
Qed.

(** Every student of the roster is on the mentor's page in exactly one of
    the two lists, and the "no chat yet" list holds nothing but students of
    the roster, with no last message. *)
Theorem mentor_roster_split (withChats : list Chat.t) (allStudents : list User.t) :
  let withoutChats := MentorMessages.studentsWithoutChatsList withChats allStudents in
  (forall u, In u allStudents -> User.role u = ESTUDANTE ->
     (In (User.id u) (Chat.ids withChats) /\ ~ In (User.id u) (Chat.ids withoutChats))
     \/ (~ In (User.id u) (Chat.ids withChats) /\ In (User.id u) (Chat.ids withoutChats)))
  /\ (forall c, In c withoutChats ->
        exists u, In u allStudents /\ User.role u = ESTUDANTE
                  /\ c = Chat.of_user u /\ Chat.lastMessage c = None).
Proof.
  intros withoutChats. split.
  - intros u Hu Hrole.
    destruct (Chat.ids_has withChats (User.id u)) eqn:E.
    + left. split; [now apply ids_has_true|].
      intros Hin. apply mentor_without_disjoint in Hin. apply Hin.
      now apply ids_has_true.
    + right. split; [now apply ids_has_false|].
      unfold withoutChats, MentorMessages.studentsWithoutChatsList, Chat.ids.
      rewrite map_map. simpl. apply in_map_iff. exists u. split; [reflexivity|].
      apply filter_In. split; [exact Hu|]. now rewrite Hrole, E.
  - intros c Hc. unfold withoutChats, MentorMessages.studentsWithoutChatsList in Hc.
    apply in_map_iff in Hc. destruct Hc as (u & <- & Hu).
    apply filter_In in Hu. destruct Hu as [Hu Hf].
    apply andb_true_iff in Hf. destruct Hf as [Hr _].
    exists u. repeat split; [exact Hu|]. now destruct (User.role u).
Qed.

Lemma mentor_roster_split_witness :
  In "s2" (Chat.ids (MentorMessages.studentsWithoutChatsList
                       [Samples.chatWith Samples.student1]
                       [Samples.student1; Samples.student2; Samples.mentor1])).
Proof.
  destruct (proj1 (mentor_roster_split [Samples.chatWith Samples.student1]
                     [Samples.student1; Samples.student2; Samples.mentor1])
                  Samples.student2 (or_intror (or_introl eq_refl)) eq_refl)
    as [[H _] | [_ H]]; [|exact H].
  simpl in H. destruct H as [H | []]. discriminate H.
Defined.

(** ** Sends that fail *)

(** On both pages a send whose call fails changes nothing in the page's
    state, and the handler's promise is fulfilled all the same. *)
Theorem failed_send_changes_nothing :
  (forall mentorId f s,
     MentorMessages.run (MentorMessages.resume mentorId f Err) s = s
     /\ settles (MentorMessages.handleSendMessage (MentorMessages.closure f) mentorId
                   (MentorMessages.content f) (MentorMessages.now f)) Err = Fulfilled)
  /\ (forall studentId f s,
        StudentMessages.run (StudentMessages.resume studentId f Err) s = s
        /\ settles (StudentMessages.handleSendMessage (StudentMessages.closure f) studentId
                      (StudentMessages.content f) (StudentMessages.clock f)) Err
           = Fulfilled).
Proof.
  split; intros id f s; (split; [|apply mentor_send_fulfils || apply student_send_fulfils]).
  - unfold MentorMessages.resume, MentorMessages.handleSendMessage.
    destruct (MentorMessages.selectedStudent (MentorMessages.closure f)), id as [m|];
      try reflexivity.
    destruct (JS.truthy_str m); simpl; [now destruct s | reflexivity].
  - unfold StudentMessages.resume, StudentMessages.handleSendMessage.
    destruct (StudentMessages.selectedMentor (StudentMessages.closure f)), id as [m|];
      try reflexivity.
    destruct (JS.truthy_str m); simpl; [now destruct s | reflexivity].
Qed.

End MoreLists.

(* ===================================================================== *)
(** * Further properties: searching the lists *)
(* ===================================================================== *)

Section SearchFilter.
Import ChatList Partition.
Variable toLowerCase : string -> string.

Lemma includes_empty s : includes s "" = true.
Proof. destruct s; reflexivity. Qed.

Lemma includes_refl s : includes s s = true.
Proof.
  destruct s as [|c s]; [reflexivity|]. simpl. rewrite Ascii.eqb_refl.
  replace (JS.strip_prefix s s) with (Some "").
  - reflexivity.
  - clear. induction s as [|a s IH]; simpl; [reflexivity|].
    now rewrite Ascii.eqb_refl.
Qed.

Lemma ids_filtered q l k : In k (Chat.ids (filtered toLowerCase q l)) -> In k (Chat.ids l).
Proof.
  unfold Chat.ids, filtered. rewrite !in_map_iff.
  intros (c & E & Hc). apply filter_In in Hc. exists c. tauto.
Qed.

Lemma nodup_ids_filtered q l :
  NoDup (Chat.ids l) -> NoDup (Chat.ids (filtered toLowerCase q l)).
Proof.
  unfold Chat.ids, filtered. induction l as [|c l IH]; simpl; [tauto|].
  intros H. inversion H as [|? ? Hc Hl]; subst.
  destruct (includes (toLowerCase (Chat.name c)) (toLowerCase q)); simpl; [|now apply IH].
  constructor; [|now apply IH].
  rewrite in_map_iff. intros (c' & E & Hc'). apply filter_In in Hc'.
  apply Hc. rewrite in_map_iff. exists c'. tauto.
Qed.

(** The search box never invents or duplicates an entry: the filtered lists
    are still a partition.  With an empty query both lists are shown whole,
    and a counterpart is always found by its own name, in any letter case
    the runtime folds to the same lower case. *)
Theorem search_filters_the_lists (withChats withoutChats : list Chat.t) :
  toLowerCase "" = "" ->
  (forall q, partitioned withChats withoutChats ->
             partitioned (filtered toLowerCase q withChats)
                         (filtered toLowerCase q withoutChats))
  /\ filtered toLowerCase "" withChats = withChats
  /\ filtered toLowerCase "" withoutChats = withoutChats
  /\ (forall q c, In c withChats ->
                  toLowerCase q = toLowerCase (Chat.name c) ->
                  In c (filtered toLowerCase q withChats)).
Proof.
  intros Hempty.
  assert (all : forall l, filtered toLowerCase "" l = l).
  { intros l. unfold filtered. rewrite Hempty. induction l as [|c l IH]; [reflexivity|].
    simpl. now rewrite includes_empty, IH. }
  split; [|split; [apply all | split; [apply all|]]].
  - intros q [Hnd Hdis]. split; [now apply nodup_ids_filtered|].
    intros k Hk Hk'. apply ids_filtered in Hk, Hk'. exact (Hdis k Hk Hk').
  - intros q c Hc Hq. unfold filtered. apply filter_In. split; [exact Hc|].
    rewrite Hq. apply includes_refl.
Qed.

End SearchFilter.

Lemma search_filters_the_lists_witness :
  ChatList.filtered (fun s => s) "" [Samples.chatWith Samples.student1]
  = [Samples.chatWith Samples.student1].
Proof.
  exact (proj1 (proj2 (search_filters_the_lists (fun s => s)
                         [Samples.chatWith Samples.student1] [] eq_refl))).
Defined.

(** On the mentor's page the two lists are a partition in every state the
    page reaches, whatever sends overlap. *)
Theorem mentor_lists_always_partitioned (mentorId : option string)
    (w : MentorMessages.World) :
  MentorMessages.reachable mentorId w ->
  Partition.partitioned (MentorMessages.studentsWithChats (fst w))
                        (MentorMessages.studentsWithoutChats (fst w)).
Proof.
  intros H. destruct (mentor_inv_reachable mentorId w H) as (_ & _ & _ & P & _).
  exact P.
Qed.

Lemma mentor_lists_always_partitioned_witness :
  Partition.partitioned
    (MentorMessages.studentsWithChats
       (MentorMessages.run
          (MentorMessages.mount (Some "m1")
             (Async.Ok ([Samples.msg Samples.student1 Samples.mentor1 "oi"], [],
                        [Samples.student1; Samples.student2])))
          MentorMessages.initial))
    (MentorMessages.studentsWithoutChats
       (MentorMessages.run
          (MentorMessages.mount (Some "m1")
             (Async.Ok ([Samples.msg Samples.student1 Samples.mentor1 "oi"], [],
                        [Samples.student1; Samples.student2])))
          MentorMessages.initial)).
Proof.
  refine (mentor_lists_always_partitioned (Some "m1")
            (MentorMessages.run
               (MentorMessages.mount (Some "m1")
                  (Async.Ok ([Samples.msg Samples.student1 Samples.mentor1 "oi"],
                             [], [Samples.student1; Samples.student2])))
               MentorMessages.initial, []) _).
  apply (MentorMessages.reach_step _ (MentorMessages.initial, [])).
  - apply MentorMessages.reach_initial.
  - apply MentorMessages.step_mount. reflexivity.
Defined.

(* ===================================================================== *)
(** * Further properties: the session list and the calendar *)
(* ===================================================================== *)

Section SessionList.
Import Async MentorMentoria.
Variable parseISO : string -> JSDate.Parsed.
Variable mentorId : option string.

Abbreviation dispatch' := (dispatch parseISO mentorId).
Abbreviation visible' := (Calendar.visible parseISO).

(** A successful fetch lists exactly the sessions whose mentor is the
    stored user (none without a stored id), builds the calendar from that
    list and shows the part of it on the selected day; a failed fetch
    leaves list, calendar and selection as they were.  Either way the page
    stops loading. *)
Theorem fetch_lists_own_sessions (s : State) (toasts : list ToastOnClick)
    (sessions : list TutorSession.t) :
  let s' := fst (dispatch' (s, toasts) (Fetched (Ok sessions))) in
  let failed := fst (dispatch' (s, toasts) (Fetched Err)) in
  (forall session,
     In session (mentoringSessions s')
     <-> In session sessions
         /\ mentorId = Some (User.id (TutorSession.mentor session)))
  /\ calendarEvents s' = events parseISO (mentoringSessions s')
  /\ filteredSessions s' = visible' (date s) (mentoringSessions s')
  /\ loading s' = false
  /\ mentoringSessions failed = mentoringSessions s
  /\ calendarEvents failed = calendarEvents s
  /\ filteredSessions failed = filteredSessions s
  /\ loading failed = false.
Proof.
  intros s' failed.
  set (own := fun session : TutorSession.t =>
                match mentorId with
                | Some m => User.id (TutorSession.mentor session) =? m
                | None => false
                end).
  assert (E : mentoringSessions s' = filter own sessions
              /\ calendarEvents s' = events parseISO (filter own sessions)
              /\ filteredSessions s' = visible' (date s) (filter own sessions)
              /\ loading s' = false).
  { subst s'. unfold dispatch, commit, fetchSessions, Calendar.visible. simpl.
    destruct (date s); repeat split. }
  destruct E as (El & Ec & Ef & Eo).
  rewrite El, Ec, Ef. split; [|repeat split; exact Eo].
  intros session. rewrite filter_In. subst own. simpl. destruct mentorId as [m|].
  - split.
    + intros [Hin E]. apply String.eqb_eq in E. now subst m.
    + intros [Hin [= ->]]. split; [exact Hin | apply String.eqb_refl].
  - split; [intros [_ H]; discriminate | intros [_ H]; discriminate].
Qed.


Lemma on_day_is_on y m n t session :
  (forall y' m' n' t', parseISO "" <> JSDate.Returns (JSDate.Valid y' m' n' t')) ->
  on_day parseISO (JSDate.Valid y m n t) session
  = Calendar.is_on parseISO (JSDate.Day y m n) session.
Proof.
  intros Hempty. unfold on_day, Calendar.is_on, Calendar.day_of.
  destruct (TutorSession.date session) as [iso|]; [|reflexivity].
  unfold JS.truthy_str. destruct (String.eqb_spec iso "") as [->|_]; simpl.
  - destruct (parseISO "") as [[y' m' n' t'|]|] eqn:E; try reflexivity.
    exfalso. exact (Hempty _ _ _ _ eq_refl).
  - destruct (parseISO iso) as [[y' m' n' t'|]|]; reflexivity.
Qed.

(** When the calendar is the one built from the list, the count it shows
    for a day is the number of sessions listed once that day is selected
    (an empty date string does not parse to a valid date). *)
Theorem badge_matches_list (s : State) (toasts : list ToastOnClick) (y m n t : Z) :
  (forall y' m' n' t', parseISO "" <> JSDate.Returns (JSDate.Valid y' m' n' t')) ->
  calendarEvents s = events parseISO (mentoringSessions s) ->
  getSessionCount s (Some (JSDate.Valid y m n t))
  = length (filteredSessions
              (fst (dispatch' (s, toasts) (SelectDay (Some (JSDate.Valid y m n t)))))).
Proof.
  intros Hempty Hcal.
  rewrite (proj1 (counts_of_calendar parseISO _ s y m n t Hcal)).
  change (filteredSessions
            (fst (dispatch' (s, toasts) (SelectDay (Some (JSDate.Valid y m n t))))))
    with (filter (on_day parseISO (JSDate.Valid y m n t)) (mentoringSessions s)).
  unfold Calendar.count_on. f_equal. symmetry. apply filter_agree.
  intros x _. now apply on_day_is_on.
Qed.

(** A delete that fails changes no list: ending a session from the toast
    leaves the whole state as it was; a confirmed refusal leaves sessions,
    calendar, visible list and active session, and closes the dialog. *)
Theorem failed_delete_changes_no_list (s cl : State) (sessionId : string) :
  settle parseISO (handleEndSession parseISO cl sessionId) Err s = s
  /\ (let s' := settle parseISO (handleConfirmRefuse parseISO s) Err s in
      mentoringSessions s' = mentoringSessions s
      /\ calendarEvents s' = calendarEvents s
      /\ filteredSessions s' = filteredSessions s
      /\ activeSession s' = activeSession s
      /\ (JS.truthy (sessionToDelete s) = true ->
          showDeleteDialog s' = false /\ sessionToDelete s' = None
          /\ isDeleting s' = false)).
Proof.
  split; [now destruct s|].
  unfold handleConfirmRefuse. destruct (sessionToDelete s) as [d|]; simpl.
  - destruct (JS.truthy_str d); simpl; repeat split; discriminate.
  - repeat split; discriminate.
Qed.

(** Opening the refuse dialog and cancelling it leaves a page whose dialog
    was closed exactly as it was; confirming with nothing to delete issues
    no call. *)
Theorem refuse_then_cancel (s : State) (toasts : list ToastOnClick) (sessionId : string) :
  showDeleteDialog s = false ->
  sessionToDelete s = None ->
  play parseISO mentorId (s, toasts) [ClickRefuse sessionId; ClickCancelRefuse]
  = (s, toasts)
  /\ calls (handleConfirmRefuse parseISO s) = []
  /\ sessionToDelete (fst (dispatch' (s, toasts) (ClickRefuse sessionId)))
     = Some sessionId.
Proof.
  intros Hd Hs. unfold handleConfirmRefuse. rewrite Hs.
  split; [|split; reflexivity].
  destruct s; simpl in *. subst. reflexivity.
Qed.

End SessionList.

Lemma badge_matches_list_witness :
  MentorMentoria.getSessionCount
    (fst (MentorMentoria.dispatch Samples.parseISO (Some "m1")
            (MentorMentoria.initial Samples.june1, [])
            (MentorMentoria.Fetched
               (Async.Ok [Samples.sessionA; Samples.sessionD; Samples.sessionB]))))
    (Some Samples.may10)
  = 2%nat.
Proof.
  rewrite (badge_matches_list Samples.parseISO (Some "m1") _ [] 2024 4 10 0).
  - reflexivity.
  - discriminate.
  - reflexivity.
Defined.

Lemma refuse_then_cancel_witness :
  MentorMentoria.play Samples.parseISO (Some "m1") (Samples.chatting, [])
    [MentorMentoria.ClickRefuse "B"; MentorMentoria.ClickCancelRefuse]
  = (Samples.chatting, []).
Proof.
  exact (proj1 (refuse_then_cancel Samples.parseISO (Some "m1") Samples.chatting []
                  "B" eq_refl eq_refl)).
Defined.

Section StartAndEdit.
Import Async MentorMentoria.
Variable parseISO : string -> JSDate.Parsed.
Variable mentorId : option string.

Abbreviation dispatch' := (dispatch parseISO mentorId).

(** Starting a chat when none is active makes the session the active one
    and leaves an "end" action on screen; from then on another chat start
    changes nothing.  The lists are not touched. *)
Theorem chat_start_blocks_the_next (s : State) (toasts : list ToastOnClick)
    (session : TutorSession.t) :
  JS.truthy (activeSession s) = false ->
  TutorSession.type session = CHAT ->
  TutorSession.id session <> "" ->
  let w := dispatch' (s, toasts) (ClickStart session) in
  activeSession (fst w) = Some (TutorSession.id session)
  /\ snd w = toasts ++ [EndSession s (TutorSession.id session)]
  /\ mentoringSessions (fst w) = mentoringSessions s
  /\ filteredSessions (fst w) = filteredSessions s
  /\ forall other, TutorSession.type other = CHAT ->
                   dispatch' w (ClickStart other) = w.
Proof.
  intros Hnone Hchat Hid. unfold dispatch, handleStartMentoring.
  rewrite Hchat, Hnone. simpl. repeat split.
  intros other Ho. rewrite Ho. simpl.
  rewrite (truthy_nonempty _ Hid). simpl. now rewrite app_nil_r.
Qed.

(** Starting a video session never changes the page's state, whether a
    chat is active or not: it opens the link when the link has something
    other than white space, and shows an error otherwise. *)
Theorem video_start_changes_nothing (s : State) (toasts : list ToastOnClick)
    (session : TutorSession.t) :
  TutorSession.type session = CHAMADA_DE_VIDEO ->
  dispatch' (s, toasts) (ClickStart session) = (s, toasts)
  /\ (forall l, TutorSession.link session = Some l -> JS.trim l <> "" ->
        handleStartMentoring s (TutorSession.id session) CHAMADA_DE_VIDEO (Some l)
        = [window_open l])
  /\ (forall l, TutorSession.link session = Some l -> JS.trim l = "" ->
        handleStartMentoring s (TutorSession.id session) CHAMADA_DE_VIDEO (Some l)
        = [toast_error "Link da chamada não disponível!"])
  /\ (TutorSession.link session = None ->
        handleStartMentoring s (TutorSession.id session) CHAMADA_DE_VIDEO None
        = [toast_error "Link da chamada não disponível!"]).
Proof.
  intros Hvideo. split; [|split; [|split]].
  - unfold dispatch, handleStartMentoring. rewrite Hvideo. simpl.
    destruct (TutorSession.link session) as [l|]; simpl.
    + destruct (negb (JS.truthy_str l) || negb (JS.truthy_str (JS.trim l)));
        simpl; now rewrite app_nil_r.
    + now rewrite app_nil_r.
  - intros l _ Hl. unfold handleStartMentoring. simpl.
    rewrite (truthy_nonempty _ Hl).
    assert (Hne : l <> "") by (intros ->; now apply Hl).
    now rewrite (truthy_nonempty _ Hne).
  - intros l _ Hl. unfold handleStartMentoring. simpl.
    rewrite (truthy_str_empty _ Hl). now rewrite orb_true_r.
  - reflexivity.
Qed.

(** A confirmed edit sends the session's own fields with the trimmed link,
    and on success puts the server's session in place of every session
    with that id: the list keeps its length and its other sessions, the
    visible list follows it, the dialog is reset.  The calendar is not
    rebuilt. *)
Theorem edit_link_replaces_in_place (s : State) (toEdit updated : TutorSession.t) :
  sessionToEdit s = Some toEdit ->
  JS.trim (newLink s) <> "" ->
  let s' := settle parseISO (handleConfirmEditLink parseISO s) (Ok updated) s in
  calls (handleConfirmEditLink parseISO s)
  = [ updateSession (TutorSession.id toEdit)
        (TutorSessionCreate.mk (User.id (TutorSession.mentor toEdit))
           (User.id (TutorSession.student toEdit)) (TutorSession.title toEdit)
           (TutorSession.date toEdit) (TutorSession.dateHour toEdit)
           (TutorSession.type toEdit) (JS.trim (newLink s))) ]
  /\ mentoringSessions s'
     = map (fun session =>
              if TutorSession.id session =? TutorSession.id toEdit
              then updated else session) (mentoringSessions s)
  /\ length (mentoringSessions s') = length (mentoringSessions s)
  /\ (forall session, In session (mentoringSessions s) ->
        TutorSession.id session <> TutorSession.id toEdit ->
        In session (mentoringSessions s'))
  /\ filteredSessions s' = Calendar.visible parseISO (date s) (mentoringSessions s')
  /\ calendarEvents s' = calendarEvents s
  /\ showEditLinkDialog s' = false /\ sessionToEdit s' = None
  /\ newLink s' = "" /\ isUpdatingLink s' = false.
Proof.
  intros He Hl s'.
  assert (E : handleConfirmEditLink parseISO s
              = Await [setIsUpdatingLink true]
                  (updateSession (TutorSession.id toEdit)
                     (TutorSessionCreate.mk (User.id (TutorSession.mentor toEdit))
                        (User.id (TutorSession.student toEdit)) (TutorSession.title toEdit)
                        (TutorSession.date toEdit) (TutorSession.dateHour toEdit)
                        (TutorSession.type toEdit) (JS.trim (newLink s))))
                  (fun r =>
                     (match r with
                      | Ok updatedSession =>
                          [ setMentoringSessions (fun sessions =>
                              map (fun session =>
                                     if TutorSession.id session =? TutorSession.id toEdit
                                     then updatedSession else session) sessions) ]
                          ++ filterSessionsByDate parseISO s (date s)
                          ++ [toast_success "Link atualizado com sucesso!" None]
                      | Err =>
                          [ toast_error "Erro ao atualizar link";
                            console_error "Error updating link:" ]
                      end
                      ++ [ setIsUpdatingLink false; setShowEditLinkDialog false;
                           setSessionToEdit None; setNewLink "" ],
                      Fulfilled))).
  { unfold handleConfirmEditLink. rewrite He, (truthy_nonempty _ Hl). reflexivity. }
  assert (Es : mentoringSessions s'
               = map (fun session =>
                        if TutorSession.id session =? TutorSession.id toEdit
                        then updated else session) (mentoringSessions s)
               /\ filteredSessions s'
                  = Calendar.visible parseISO (date s) (mentoringSessions s')
               /\ calendarEvents s' = calendarEvents s
               /\ showEditLinkDialog s' = false /\ sessionToEdit s' = None
               /\ newLink s' = "" /\ isUpdatingLink s' = false).
  { subst s'. rewrite E. clear E.
    unfold settle, commit, filterSessionsByDate, Calendar.visible. simpl.
    destruct (date s); simpl; repeat split. }
  destruct Es as (Em & Ef & Ec & Ed).
  split; [now rewrite E|]. split; [exact Em|].
  split; [now rewrite Em, length_map|]. split; [|now repeat split].
  intros session Hin Hne. rewrite Em. apply in_map_iff. exists session.
  split; [|exact Hin].
  destruct (String.eqb_spec (TutorSession.id session) (TutorSession.id toEdit));
    [contradiction | reflexivity].
Qed.

(** An edit that fails leaves the lists and the calendar as they were and
    resets the dialog. *)
Theorem failed_edit_changes_no_list (s : State) :
  let s' := settle parseISO (handleConfirmEditLink parseISO s) Err s in
  mentoringSessions s' = mentoringSessions s
  /\ filteredSessions s' = filteredSessions s
  /\ calendarEvents s' = calendarEvents s
  /\ activeSession s' = activeSession s.
Proof.
  unfold handleConfirmEditLink.
  destruct (sessionToEdit s); [|repeat split].
  destruct (negb (JS.truthy_str (JS.trim (newLink s)))); repeat split.
Qed.

End StartAndEdit.

Lemma chat_start_blocks_the_next_witness :
  MentorMentoria.activeSession
    (fst (MentorMentoria.dispatch Samples.parseISO (Some "m1") (Samples.editing, [])
            (MentorMentoria.ClickStart Samples.sessionA)))
  = Some "A".
Proof.
  refine (proj1 (chat_start_blocks_the_next Samples.parseISO (Some "m1")
                   Samples.editing [] Samples.sessionA eq_refl eq_refl _)).
  discriminate.
Defined.

Lemma video_start_changes_nothing_witness :
  MentorMentoria.dispatch Samples.parseISO (Some "m1") (Samples.chatting, [])
    (MentorMentoria.ClickStart Samples.sessionC) = (Samples.chatting, []).
Proof.
  exact (proj1 (video_start_changes_nothing Samples.parseISO (Some "m1")
                  Samples.chatting [] Samples.sessionC eq_refl)).
Defined.

Lemma edit_link_replaces_in_place_witness :
  length (MentorMentoria.mentoringSessions
            (MentorMentoria.settle Samples.parseISO
               (MentorMentoria.handleConfirmEditLink Samples.parseISO
                  (MentorMentoria.mkState None [Samples.sessionC; Samples.sessionA]
                     [Samples.sessionC; Samples.sessionA] None [] false false None
                     false true (Some Samples.sessionC) " https://meet.example/x " false))
               (Async.Ok Samples.sessionD)
               (MentorMentoria.mkState None [Samples.sessionC; Samples.sessionA]
                  [Samples.sessionC; Samples.sessionA] None [] false false None
                  false true (Some Samples.sessionC) " https://meet.example/x " false)))
  = 2%nat.
Proof.
  refine (proj1 (proj2 (proj2 (edit_link_replaces_in_place Samples.parseISO
                                 (MentorMentoria.mkState None
                                    [Samples.sessionC; Samples.sessionA]
                                    [Samples.sessionC; Samples.sessionA] None [] false
                                    false None false true (Some Samples.sessionC)
                                    " https://meet.example/x " false)
                                 Samples.sessionC Samples.sessionD eq_refl _)))).
  vm_compute. discriminate.
Defined.

Section CalendarShape.
Import MentorMentoria.
Variable parseISO : string -> JSDate.Parsed.

Definition total (em : EventMap) : nat := list_sum (map snd em).

Definition dated (session : TutorSession.t) : bool :=
  match Calendar.day_of parseISO session with Some _ => true | None => false end.

Definition is_day (k : JSDate.DateString) : Prop :=
  match k with JSDate.Day _ _ _ => True | JSDate.InvalidDate => False end.

Lemma get_none_keys k (m : EventMap) : get k m = None -> ~ In k (map fst m).
Proof.
  induction m as [|[k' v] m IH]; simpl; [tauto|].
  destruct (DateString_eqb_spec k' k); [discriminate|].
  intros H [E | Hin]; [contradiction | now apply IH].
Qed.

Lemma set_shape k v (m : EventMap) :
  match get k m with
  | Some old =>
      map fst (set k v m) = map fst m /\ (total (set k v m) + old = total m + v)%nat
  | None => set k v m = m ++ [(k, v)]
  end.
Proof.
  unfold total. induction m as [|[k' v'] m IH]; simpl; [reflexivity|].
  destruct (DateString_eqb_spec k' k) as [->|Hne]; simpl.
  - split; [reflexivity | lia].
  - destruct (get k m) as [old|].
    + destruct IH as [IH1 IH2]. split; [now rewrite IH1 | lia].
    + now rewrite IH.
Qed.

Lemma Forall_set (P : JSDate.DateString * nat -> Prop) k v (m : EventMap) :
  Forall P m -> P (k, v) -> Forall P (set k v m).
Proof.
  induction 1 as [|[k' v'] m Hx Hm IH]; intros Hk; simpl; [now repeat constructor|].
  destruct (JSDate.DateString_eqb k' k); constructor; auto.
Qed.

Lemma eventMap_shape sessions : forall m,
  NoDup (map fst m) ->
  Forall (fun e => is_day (fst e) /\ (1 <= snd e)%nat) m ->
  let m' := fold_left (count_session parseISO) sessions m in
  NoDup (map fst m')
  /\ Forall (fun e => is_day (fst e) /\ (1 <= snd e)%nat) m'
  /\ total m' = (total m + length (filter dated sessions))%nat.
Proof.
  induction sessions as [|session sessions IH]; intros m Hnd Hall; simpl.
  - repeat split; [assumption | assumption | lia].
  - rewrite count_session_day. unfold dated at 1.
    destruct (Calendar.day_of parseISO session) as [k|] eqn:Ek.
    + assert (Hk : is_day k).
      { unfold Calendar.day_of in Ek.
        destruct (TutorSession.date session) as [iso|]; [|discriminate].
        destruct (JS.truthy_str iso); [|discriminate].
        destruct (parseISO iso) as [[y mo n t|]|]; try discriminate.
        now injection Ek as <-. }
      pose proof (set_shape k (or_zero (get k m) + 1) m) as S.
      destruct (IH (set k (or_zero (get k m) + 1) m)) as (H1 & H2 & H3).
      * destruct (get k m) as [old|] eqn:Eg.
        -- now rewrite (proj1 S).
        -- rewrite S, map_app. simpl.
           apply NoDup_app; [exact Hnd | repeat constructor; tauto |].
           intros a Ha [<- | []]. exact (get_none_keys _ _ Eg Ha).
      * apply Forall_set; [exact Hall|]. simpl. split; [exact Hk | lia].
      * repeat split; [exact H1 | exact H2|]. rewrite H3. cbn [length].
        destruct (get k m) as [old|]; cbn [or_zero] in *.
        -- lia.
        -- rewrite S. unfold total. rewrite map_app, list_sum_app. simpl. lia.
    + exact (IH m Hnd Hall).
Qed.

(** The calendar built from a session list has one event per day, each on
    a valid date and counting at least one session, and its counts add up
    to the number of sessions whose date is present and valid. *)
Theorem calendar_events_shape (sessions : list TutorSession.t) :
  let calendar := events parseISO sessions in
  NoDup (map CalendarEvent.date calendar)
  /\ Forall (fun event =>
               JSDate.isValid (CalendarEvent.date event) = true
               /\ (1 <= CalendarEvent.sessions event)%nat) calendar
  /\ list_sum (map CalendarEvent.sessions calendar) = length (filter dated sessions).
Proof.
  destruct (eventMap_shape sessions [] (NoDup_nil _) (Forall_nil _)) as (H1 & H2 & H3).
  fold (eventMap parseISO sessions) in H1, H2, H3. unfold events. simpl.
  repeat split.
  - replace (map CalendarEvent.date (map event_of (eventMap parseISO sessions)))
      with (map JSDate.ofDateString (map fst (eventMap parseISO sessions)))
      by (rewrite !map_map; reflexivity).
    apply Finite.Injective_map_NoDup; [|exact H1].
    intros [y1 m1 n1|] [y2 m2 n2|]; simpl; congruence.
  - rewrite Forall_map. revert H2. apply Forall_impl.
    intros [[y m n|] v] [Hd Hv]; simpl in *; [now split | contradiction].
  - rewrite map_map. exact H3.
Qed.

Lemma same_day_undated (event : CalendarEvent.t) : same_day JSDate.Invalid event = false.
Proof.
  unfold same_day. simpl.
  destruct (JSDate.getDate (CalendarEvent.date event)); reflexivity.
Qed.

(** The two calendar queries agree on every day, also on no day and on an
    invalid date (for which they answer no and 0): a day is marked exactly
    when its count is not 0. *)
Theorem day_queries_agree (sessions : list TutorSession.t) (s : State)
    (day : option JSDate.t) :
  calendarEvents s = events parseISO sessions ->
  isDayWithSession s day = negb (getSessionCount s day =? 0)%nat
  /\ isDayWithSession s (Some JSDate.Invalid) = false
  /\ getSessionCount s (Some JSDate.Invalid) = O
  /\ isDayWithSession s None = false
  /\ getSessionCount s None = O.
Proof.
  intros Hcal.
  assert (Hi : isDayWithSession s (Some JSDate.Invalid) = false
               /\ getSessionCount s (Some JSDate.Invalid) = O).
  { unfold isDayWithSession, getSessionCount. clear Hcal.
    induction (calendarEvents s) as [|e l IH]; simpl; [now split|].
    rewrite same_day_undated. exact IH. }
  destruct Hi as [Hi1 Hi2]. repeat split; try assumption.
  destruct day as [[y m n t|]|].
  - destruct (counts_of_calendar parseISO sessions s y m n t Hcal) as [-> ->].
    reflexivity.
  - now rewrite Hi1, Hi2.
  - reflexivity.
Qed.

End CalendarShape.

Lemma day_queries_agree_witness :
  MentorMentoria.isDayWithSession
    (MentorMentoria.run
       (MentorMentoria.updateCalendarEvents Samples.parseISO
          [Samples.sessionA; Samples.sessionBad])
       (MentorMentoria.initial Samples.may10))
    (Some Samples.june1)
  = false.
Proof.
  rewrite (proj1 (day_queries_agree Samples.parseISO
                    [Samples.sessionA; Samples.sessionBad]
                    (MentorMentoria.run
                       (MentorMentoria.updateCalendarEvents Samples.parseISO
                          [Samples.sessionA; Samples.sessionBad])
                       (MentorMentoria.initial Samples.may10))
                    (Some Samples.june1) eq_refl)).
  reflexivity.
Defined.


Lemma delete_in_current_render_witness :
  MentorMentoria.getSessionCount
    (MentorMentoria.settle Samples.parseISO
       (MentorMentoria.handleEndSession Samples.parseISO Samples.chatting "A")
       (Async.Ok tt) Samples.chatting)
    (Some Samples.may10)
  = 1%nat.
Proof.
  assert (Hnd : NoDup (map TutorSession.id
                         (MentorMentoria.mentoringSessions Samples.chatting))).
  { simpl. constructor; [|constructor; [|constructor]]; simpl.
    - intros [H | []]. discriminate H.
    - intros []. }
  exact (proj1 (proj2 (delete_in_current_render Samples.parseISO Samples.chatting
                         Samples.sessionA _ Hnd (or_introl eq_refl)
                         (or_introl eq_refl))
                      2024%Z 4%Z 10%Z 0%Z)).
Defined.

